(** * next-meeting: the event pipeline of [main.go]

    A shallow embedding of the core of [main.go] (field resolution,
    filtering, interval collapsing and rendering) and the proofs of the
    properties its specification states about it.

    Go strings are byte sequences: they are modelled by [string], whose
    characters are the 256 values of [ascii].  The instants of package
    [time] keep the layout of Go's [time.Time] without a monotonic clock
    reading: whole seconds since January 1 of year 1 (UTC), nanoseconds
    within the second, and a location. *)

From Stdlib Require Import ZArith List String Ascii Bool Lia DecimalString.
Import ListNotations.
Open Scope string_scope.
Open Scope list_scope.
Open Scope Z_scope.

(** ** Package [time]: instants *)

(** The part of Go's package [time] that [main.go] calls: [After], [==],
    [Date], [Year], [Month], [Day], [Location], [Parse] and [Format] with
    the four layouts of the program.  It follows the package as of Go
    1.15, the release that [go.mod] names; integers are unbounded, which
    agrees with [int] and [int64] for the years 0 to 9999 that a parsed
    value can hold. *)

Module GoTime.

(** A pointer to a [Location].  [UTC] is the nil/UTC location, [Local]
    the location of the machine, and [Fixed id off] a location made by
    [FixedZone]: every call allocates a new one, and [id] stands for its
    address. *)
Inductive Location : Type :=
  | UTC
  | Local
  | Fixed (id : nat) (offset : Z).

Record Time : Type := mkTime {
  sec : Z;    (* seconds since 0001-01-01T00:00:00Z *)
  nsec : Z;   (* nanoseconds within the second *)
  loc : Location
}.

(** The zero value of [time.Time]. *)
Definition zeroTime : Time := mkTime 0 0 UTC.

(** [t.After(u)]: [ts > us || ts == us && t.nsec() > u.nsec()]. *)
Definition After (t u : Time) : bool :=
  (sec u <? sec t) || ((sec t =? sec u) && (nsec u <? nsec t)).

Definition Location_eqb (a b : Location) : bool :=
  match a, b with
  | UTC, UTC => true
  | Local, Local => true
  | Fixed i _, Fixed j _ => Nat.eqb i j
  | _, _ => false
  end.

(** [t == u] on the struct: the fields and the location pointer. *)
Definition Time_eqb (t u : Time) : bool :=
  (sec t =? sec u) && (nsec t =? nsec u) && Location_eqb (loc t) (loc u).


(** *** Strings as Go uses them *)

Infix "+++" := String.append (right associativity, at level 60).

(** [s[n:]] and [s[:n]]. *)
Fixpoint sdrop (n : nat) (s : string) : string :=
  match n, s with
  | O, _ => s
  | S n', String _ s' => sdrop n' s'
  | S _, EmptyString => EmptyString
  end.

Definition stake (n : nat) (s : string) : string := substring 0 n s.

Definition byteZ (c : ascii) : Z := Z.of_nat (nat_of_ascii c).

Definition isDigitByte (c : ascii) : bool := (48 <=? byteZ c) && (byteZ c <=? 57).

(** [isDigit(s, i)]: whether [s[i]] is in range and a decimal digit. *)
Definition isDigit (s : string) (i : nat) : bool :=
  match String.get i s with
  | Some c => isDigitByte c
  | None => false
  end.

(** *** Calendar arithmetic *)

Definition secondsPerDay : Z := 86400.
Definition unixToInternal : Z := 62135596800.
Definition alpha : Z := - 2 ^ 63.
Definition omega : Z := 2 ^ 63 - 1.

Definition isLeap (year : Z) : bool :=
  (year mod 4 =? 0) && (negb (year mod 100 =? 0) || (year mod 400 =? 0)).

(** [daysBefore[m]]: the days of a non-leap year before month [m+1]. *)
Definition daysBefore (m : Z) : Z :=
  nth (Z.to_nat m) [0; 31; 59; 90; 120; 151; 181; 212; 243; 273; 304; 334; 365] 0.

Definition daysIn (m year : Z) : Z :=
  if (m =? 2) && isLeap year then 29 else daysBefore m - daysBefore (m - 1).

(** [norm(hi, lo, base)]: brings [lo] into [0, base) and carries into [hi]. *)
Definition norm (hi lo base : Z) : Z * Z := (hi + lo / base, lo mod base).

(** Days from January 1 of year 1 to January 1 of [year], by 400-, 100-
    and 4-year cycles as in [Date]. *)
Definition daysSinceEpoch (year : Z) : Z :=
  let y := year - 1 in
  let n400 := y / 400 in
  let y := y - 400 * n400 in
  let n100 := y / 100 in
  let y := y - 100 * n100 in
  let n4 := y / 4 in
  let y := y - 4 * n4 in
  146097 * n400 + 36524 * n100 + 1461 * n4 + 365 * y.

(** [absDate]: year, month and day of month of a day number counted from
    January 1 of year 1. *)
Definition absDate (days : Z) : Z * Z * Z :=
  let n := days / 146097 in
  let y := 400 * n in
  let d := days - 146097 * n in
  let n := d / 36524 in
  let n := n - Z.shiftr n 2 in
  let y := y + 100 * n in
  let d := d - 36524 * n in
  let n := d / 1461 in
  let y := y + 4 * n in
  let d := d - 1461 * n in
  let n := d / 365 in
  let n := n - Z.shiftr n 2 in
  let y := y + n in
  let d := d - 365 * n in
  let year := y + 1 in
  let leap := isLeap year in
  if leap && (d =? 31 + 29 - 1) then (year, 2, 29)
  else
    let day := if leap && (31 + 29 - 1 <? d) then d - 1 else d in
    let month := day / 31 in
    let fin := daysBefore (month + 1) in
    if fin <=? day then (year, month + 2, day - fin + 1)
    else (year, month + 1, day - daysBefore month + 1).

(** *** Locations and civil time *)

(** What the [lookup] method of a location returns: the offset east of UTC in force and
    the Unix seconds between which it is in force. *)
Record Zone : Type := mkZone { zoffset : Z; zstart : Z; zend : Z }.

Section Civil.

(** The zone table of the machine's local location, as a function of the
    Unix time. *)
Variable localZone : Z -> Zone.

Definition lookup (l : Location) (unix : Z) : Zone :=
  match l with
  | UTC => mkZone 0 alpha omega
  | Local => localZone unix
  | Fixed _ off => mkZone off alpha omega
  end.

Definition unixSec (t : Time) : Z := sec t - unixToInternal.

(** [t.abs()]: the seconds since year 1 of the wall clock in [t]'s
    location. *)
Definition abs (t : Time) : Z :=
  sec t + zoffset (lookup (loc t) (unixSec t)).

Definition date (t : Time) : Z * Z * Z := absDate (abs t / secondsPerDay).
Definition Year (t : Time) : Z := fst (fst (date t)).
Definition Month (t : Time) : Z := snd (fst (date t)).
Definition Day (t : Time) : Z := snd (date t).
Definition Hour (t : Time) : Z := (abs t mod secondsPerDay) / 3600.
Definition Minute (t : Time) : Z := ((abs t mod secondsPerDay) mod 3600) / 60.
Definition Second (t : Time) : Z := (abs t mod secondsPerDay) mod 60.

(** [time.Date(year, month, day, hour, min, sec, nsec, loc)]. *)
Definition Date (year month day hour min sec nsec : Z) (l : Location) : Time :=
  let '(year, m) := norm year (month - 1) 12 in
  let month := m + 1 in
  let '(sec, nsec) := norm sec nsec 1000000000 in
  let '(min, sec) := norm min sec 60 in
  let '(hour, min) := norm hour min 60 in
  let '(day, hour) := norm day hour 24 in
  let d := daysSinceEpoch year + daysBefore (month - 1)
           + (if isLeap year && (3 <=? month) then 1 else 0)
           + (day - 1) in
  let abs := d * secondsPerDay + (hour * 3600 + min * 60 + sec) in
  let unix := abs - unixToInternal in
  let z := lookup l unix in
  let unix :=
    if zoffset z =? 0 then unix
    else
      let utc := unix - zoffset z in
      let offset :=
        if utc <? zstart z then zoffset (lookup l (zstart z - 1))
        else if zend z <=? utc then zoffset (lookup l (zend z))
        else zoffset z in
      unix - offset in
  mkTime (unix + unixToInternal) nsec l.

(** *** Layouts *)

(** The layout elements that occur in the layouts of this program. *)
Inductive Std : Type :=
  | stdLongYear          (* "2006" *)
  | stdZeroMonth         (* "01" *)
  | stdZeroDay           (* "02" *)
  | stdHour              (* "15" *)
  | stdZeroMinute        (* "04" *)
  | stdZeroSecond        (* "05" *)
  | stdISO8601ColonTZ.   (* "Z07:00" *)

Definition RFC3339 : string := "2006-01-02T15:04:05Z07:00".

(** [nextStdChunk]: the literal text before the first layout element, that
    element, and the rest of the layout.  Only the elements of [Std] are
    recognised, which is all that the layouts "2006-01-02", [RFC3339],
    "2006-01-02 15:04" and "15:04" contain. *)
Fixpoint nextStdChunk (layout : string) : string * option Std * string :=
  match layout with
  | EmptyString => (EmptyString, None, EmptyString)
  | String c rest =>
      if prefix "2006" layout then ("", Some stdLongYear, sdrop 4 layout)
      else if prefix "01" layout then ("", Some stdZeroMonth, sdrop 2 layout)
      else if prefix "02" layout then ("", Some stdZeroDay, sdrop 2 layout)
      else if prefix "15" layout then ("", Some stdHour, sdrop 2 layout)
      else if prefix "04" layout then ("", Some stdZeroMinute, sdrop 2 layout)
      else if prefix "05" layout then ("", Some stdZeroSecond, sdrop 2 layout)
      else if prefix "Z07:00" layout
           then ("", Some stdISO8601ColonTZ, sdrop 6 layout)
      else let '(p, std, suffix) := nextStdChunk rest in
           (String c p, std, suffix)
  end.

(** The successive chunks of a layout; the last one has no element. *)
Fixpoint chunksOf (fuel : nat) (layout : string) : list (string * option Std) :=
  match fuel with
  | O => []
  | S fuel' =>
      let '(p, std, suffix) := nextStdChunk layout in
      match std with
      | None => [(p, None)]
      | Some _ => (p, std) :: chunksOf fuel' suffix
      end
  end.

Definition chunks (layout : string) : list (string * option Std) :=
  chunksOf (S (String.length layout)) layout.

(** *** Formatting *)

Definition decimal (x : Z) : string :=
  NilZero.string_of_uint (N.to_uint (Z.to_N x)).

Fixpoint zeros (n : nat) : string :=
  match n with
  | O => ""
  | S n' => String "0" (zeros n')
  end.

(** [appendInt(b, x, width)]: [x] in decimal, zero-padded to [width]. *)
Definition appendInt (x : Z) (width : nat) : string :=
  let digits := decimal (Z.abs x) in
  (if x <? 0 then "-" else "")
  +++ zeros (width - String.length digits) +++ digits.

Definition formatStd (t : Time) (std : Std) : string :=
  match std with
  | stdLongYear => appendInt (Year t) 4
  | stdZeroMonth => appendInt (Month t) 2
  | stdZeroDay => appendInt (Day t) 2
  | stdHour => appendInt (Hour t) 2
  | stdZeroMinute => appendInt (Minute t) 2
  | stdZeroSecond => appendInt (Second t) 2
  | stdISO8601ColonTZ =>
      let offset := zoffset (lookup (loc t) (unixSec t)) in
      if offset =? 0 then "Z"
      else
        let zone := Z.quot offset 60 in
        (if zone <? 0 then "-" else "+")
        +++ appendInt (Z.quot (Z.abs zone) 60) 2 +++ ":"
        +++ appendInt (Z.rem (Z.abs zone) 60) 2
  end.

(** [t.Format(layout)]. *)
Definition Format (t : Time) (layout : string) : string :=
  String.concat ""
    (map (fun ch : string * option Std =>
            fst ch +++ match snd ch with
                       | Some std => formatStd t std
                       | None => ""
                       end)
         (chunks layout)).

(** *** Parsing *)

Definition digitVal (c : ascii) : Z := byteZ c - 48.

(** [leadingInt]: the decimal number at the front of [s] and what follows
    it; an error when the number does not fit an [int64]. *)
Fixpoint leadingInt_loop (x : Z) (s : string) : option (Z * string) :=
  match s with
  | EmptyString => Some (x, s)
  | String c s' =>
      if isDigitByte c then
        if (2 ^ 63 - 1) / 10 <? x then None
        else
          let x' := x * 10 + digitVal c in
          if 2 ^ 63 <=? x' then None else leadingInt_loop x' s'
      else Some (x, s)
  end.

Definition leadingInt (s : string) : option (Z * string) := leadingInt_loop 0 s.

Definition isSign (c : ascii) : bool := Ascii.eqb c "-" || Ascii.eqb c "+".

(** [atoi]: an optional sign and digits up to the end of [s]. *)
Definition atoi (s : string) : option Z :=
  let '(neg, s) :=
    match s with
    | String c s' => if isSign c then (Ascii.eqb c "-", s') else (false, s)
    | EmptyString => (false, s)
    end in
  match leadingInt s with
  | Some (q, EmptyString) => Some (if neg then - q else q)
  | _ => None
  end.

(** [getnum(s, fixed)]: a number of one or two digits, of exactly two when
    [fixed]. *)
Definition getnum (s : string) (fixed : bool) : option (Z * string) :=
  match s with
  | String c0 s1 =>
      if isDigitByte c0 then
        match s1 with
        | String c1 s2 =>
            if isDigitByte c1 then Some (digitVal c0 * 10 + digitVal c1, s2)
            else if fixed then None else Some (digitVal c0, s1)
        | EmptyString => if fixed then None else Some (digitVal c0, s1)
        end
      else None
  | EmptyString => None
  end.

Fixpoint cutspace (s : string) : string :=
  match s with
  | String c s' => if Ascii.eqb c " " then cutspace s' else s
  | EmptyString => s
  end.

(** [skip(value, prefix)]: removes the literal [prefix] from [value]; a
    run of spaces in the layout matches any run of spaces. *)
Fixpoint skip_loop (fuel : nat) (value pre : string) : option string :=
  match fuel with
  | O => None
  | S fuel' =>
      match pre with
      | EmptyString => Some value
      | String p pre' =>
          if Ascii.eqb p " " then
            match value with
            | String v _ =>
                if Ascii.eqb v " "
                then skip_loop fuel' (cutspace value) (cutspace pre)
                else None
            | EmptyString => skip_loop fuel' (cutspace value) (cutspace pre)
            end
          else
            match value with
            | String v value' =>
                if Ascii.eqb v p then skip_loop fuel' value' pre' else None
            | EmptyString => None
            end
      end
  end.

Definition skip (value pre : string) : option string :=
  skip_loop (S (String.length pre)) value pre.

(** The longest run of digits of [value] from index [n] on ends here. *)
Fixpoint digitsEnd (fuel n : nat) (value : string) : nat :=
  match fuel with
  | O => n
  | S fuel' => if isDigit value n then digitsEnd fuel' (S n) value else n
  end.

(** [parseNanoseconds(value, nbytes)]: the fraction [value[:nbytes]], which
    starts with a period, in nanoseconds. *)
Definition parseNanoseconds (value : string) (nbytes : nat) : option Z :=
  match value with
  | String c _ =>
      if Ascii.eqb c "." then
        match atoi (substring 1 (nbytes - 1) value) with
        | Some ns =>
            if (ns <? 0) || (1000000000 <=? ns) then None
            else Some (ns * 10 ^ Z.of_nat (10 - nbytes))
        | None => None
        end
      else None
  | EmptyString => None
  end.

(** The fields that [Parse] collects. *)
Record Fields : Type := mkFields {
  f_year : Z; f_month : Z; f_day : Z;
  f_hour : Z; f_min : Z; f_sec : Z; f_nsec : Z;
  f_utc : bool;           (* [z = UTC]: the value had a "Z" *)
  f_zoneOffset : Z        (* -1 when the value had no offset *)
}.

Definition fields0 : Fields := mkFields 0 1 1 0 0 0 0 false (-1).

(** One layout element of [Parse]: the fields and the rest of the value. *)
Definition parseStd (std : Std) (f : Fields) (value : string)
  : option (Fields * string) :=
  match std with
  | stdLongYear =>
      if (String.length value <? 4)%nat || negb (isDigit value 0) then None
      else
        match atoi (stake 4 value) with
        | Some y =>
            Some (mkFields y (f_month f) (f_day f) (f_hour f) (f_min f)
                    (f_sec f) (f_nsec f) (f_utc f) (f_zoneOffset f),
                  sdrop 4 value)
        | None => None
        end
  | stdZeroMonth =>
      match getnum value true with
      | Some (m, value') =>
          if (m <=? 0) || (12 <? m) then None
          else Some (mkFields (f_year f) m (f_day f) (f_hour f) (f_min f)
                       (f_sec f) (f_nsec f) (f_utc f) (f_zoneOffset f),
                     value')
      | None => None
      end
  | stdZeroDay =>
      match getnum value true with
      | Some (d, value') =>
          Some (mkFields (f_year f) (f_month f) d (f_hour f) (f_min f)
                  (f_sec f) (f_nsec f) (f_utc f) (f_zoneOffset f),
                value')
      | None => None
      end
  | stdHour =>
      match getnum value false with
      | Some (h, value') =>
          if (h <? 0) || (24 <=? h) then None
          else Some (mkFields (f_year f) (f_month f) (f_day f) h (f_min f)
                       (f_sec f) (f_nsec f) (f_utc f) (f_zoneOffset f),
                     value')
      | None => None
      end
  | stdZeroMinute =>
      match getnum value true with
      | Some (m, value') =>
          if (m <? 0) || (60 <=? m) then None
          else Some (mkFields (f_year f) (f_month f) (f_day f) (f_hour f) m
                       (f_sec f) (f_nsec f) (f_utc f) (f_zoneOffset f),
                     value')
      | None => None
      end
  | stdZeroSecond =>
      match getnum value true with
      | Some (s, value') =>
          if (s <? 0) || (60 <=? s) then None
          else
            (* a fractional second that the layout does not have *)
            if (2 <=? String.length value')%nat
               && match value' with
                  | String c _ => Ascii.eqb c "."
                  | EmptyString => false
                  end
               && isDigit value' 1
            then
              let n := digitsEnd (String.length value') 2 value' in
              match parseNanoseconds value' n with
              | Some ns =>
                  Some (mkFields (f_year f) (f_month f) (f_day f) (f_hour f)
                          (f_min f) s ns (f_utc f) (f_zoneOffset f),
                        sdrop n value')
              | None => None
              end
            else
              Some (mkFields (f_year f) (f_month f) (f_day f) (f_hour f)
                      (f_min f) s (f_nsec f) (f_utc f) (f_zoneOffset f),
                    value')
      | None => None
      end
  | stdISO8601ColonTZ =>
      match value with
      | String "Z" value' =>
          Some (mkFields (f_year f) (f_month f) (f_day f) (f_hour f)
                  (f_min f) (f_sec f) (f_nsec f) true (f_zoneOffset f),
                value')
      | _ =>
          if (String.length value <? 6)%nat then None
          else
            match String.get 3 value with
            | Some ":"%char =>
                match atoi (substring 1 2 value), atoi (substring 4 2 value),
                      String.get 0 value with
                | Some hr, Some mm, Some sign =>
                    let off := (hr * 60 + mm) * 60 in
                    if Ascii.eqb sign "+" then
                      Some (mkFields (f_year f) (f_month f) (f_day f)
                              (f_hour f) (f_min f) (f_sec f) (f_nsec f)
                              (f_utc f) off,
                            sdrop 6 value)
                    else if Ascii.eqb sign "-" then
                      Some (mkFields (f_year f) (f_month f) (f_day f)
                              (f_hour f) (f_min f) (f_sec f) (f_nsec f)
                              (f_utc f) (- off),
                            sdrop 6 value)
                    else None
                | _, _, _ => None
                end
            | _ => None
            end
      end
  end.

(** The loop of [Parse] over the chunks of the layout. *)
Fixpoint parseChunks (cs : list (string * option Std)) (f : Fields)
    (value : string) : option Fields :=
  match cs with
  | [] => None
  | (pre, std) :: cs' =>
      match skip value pre with
      | None => None
      | Some value =>
          match std with
          | None =>
              match value with
              | EmptyString => Some f
              | String _ _ => None     (* extra text *)
              end
          | Some sd =>
              match parseStd sd f value with
              | Some (f', value') => parseChunks cs' f' value'
              | None => None
              end
          end
      end
  end.

(** [time.Parse(layout, value)]; [None] stands for a non-nil error.
    [fresh] is the address that [FixedZone] returns if it is called. *)
Definition Parse (fresh : nat) (layout value : string) : option Time :=
  match parseChunks (chunks layout) fields0 value with
  | None => None
  | Some f =>
      if (f_day f <? 1) || (daysIn (f_month f) (f_year f) <? f_day f)
      then None   (* day out of range *)
      else if f_utc f then
        Some (Date (f_year f) (f_month f) (f_day f) (f_hour f) (f_min f)
                (f_sec f) (f_nsec f) UTC)
      else if negb (f_zoneOffset f =? -1) then
        let t := Date (f_year f) (f_month f) (f_day f) (f_hour f) (f_min f)
                   (f_sec f) (f_nsec f) UTC in
        let t := mkTime (sec t - f_zoneOffset f) (nsec t) UTC in
        if zoffset (lookup Local (unixSec t)) =? f_zoneOffset f
        then Some (mkTime (sec t) (nsec t) Local)
        else Some (mkTime (sec t) (nsec t) (Fixed fresh (f_zoneOffset f)))
      else
        Some (Date (f_year f) (f_month f) (f_day f) (f_hour f) (f_min f)
                (f_sec f) (f_nsec f) UTC)
  end.

End Civil.

End GoTime.
Import GoTime.


(** ** Package [regexp]: the pattern of [findUrl] *)

(** The class [\s] of Go's regular expressions: tab, newline, form feed,
    carriage return and space. *)
Definition isSpace (c : ascii) : bool :=
  let n := byteZ c in
  (n =? 9) || (n =? 10) || (n =? 12) || (n =? 13) || (n =? 32).

(** The longest prefix matched by [(\S)*]. *)
Fixpoint spanNonSpace (s : string) : string :=
  match s with
  | String c s' => if isSpace c then "" else String c (spanNonSpace s')
  | EmptyString => ""
  end.

(** A match of [https?://(\S)+] that begins at the front of [s]: the
    scheme, then the longest non-empty run of non-space bytes. *)
Definition matchUrlAt (s : string) : option string :=
  if prefix "https://" s then
    match spanNonSpace (sdrop 8 s) with
    | EmptyString => None
    | run => Some ("https://" +++ run)
    end
  else if prefix "http://" s then
    match spanNonSpace (sdrop 7 s) with
    | EmptyString => None
    | run => Some ("http://" +++ run)
    end
  else None.

(** [findUrl.FindString(s)]: the leftmost match, or the empty string. *)
Fixpoint findUrl_FindString (s : string) : string :=
  match matchUrlAt s with
  | Some m => m
  | None =>
      match s with
      | String _ s' => findUrl_FindString s'
      | EmptyString => ""
      end
  end.

(** ** Package [fmt]: the verbs that [main.go] uses *)

(** [utf8.RuneCountInString]: bytes that do not begin a well-formed
    encoding count for one rune each. *)
Definition inRange (lo hi : Z) (c : ascii) : bool :=
  (lo <=? byteZ c) && (byteZ c <=? hi).

(** The size of the encoding that the lead byte [c] announces and the
    range of its second byte; [None] for a byte that leads nothing. *)
Definition first (c : ascii) : option (nat * Z * Z) :=
  let n := byteZ c in
  if (194 <=? n) && (n <=? 223) then Some (2%nat, 128, 191)
  else if n =? 224 then Some (3%nat, 160, 191)
  else if (225 <=? n) && (n <=? 236) then Some (3%nat, 128, 191)
  else if n =? 237 then Some (3%nat, 128, 159)
  else if (238 <=? n) && (n <=? 239) then Some (3%nat, 128, 191)
  else if n =? 240 then Some (4%nat, 144, 191)
  else if (241 <=? n) && (n <=? 243) then Some (4%nat, 128, 191)
  else if n =? 244 then Some (4%nat, 128, 143)
  else None.

(** The width in bytes of the rune at the front of [String c s]. *)
Definition runeWidth (c : ascii) (s : string) : nat :=
  if byteZ c <? 128 then 1%nat
  else
    match first c with
    | None => 1%nat
    | Some (size, lo, hi) =>
        if (String.length s <? size - 1)%nat then 1%nat
        else
          match s with
          | String c1 s1 =>
              if negb (inRange lo hi c1) then 1%nat
              else if (size =? 2)%nat then 2%nat
              else
                match s1 with
                | String c2 s2 =>
                    if negb (inRange 128 191 c2) then 1%nat
                    else if (size =? 3)%nat then 3%nat
                    else
                      match s2 with
                      | String c3 _ =>
                          if negb (inRange 128 191 c3) then 1%nat else 4%nat
                      | EmptyString => 1%nat
                      end
                | EmptyString => 1%nat
                end
          | EmptyString => 1%nat
          end
    end.

Fixpoint runeCount_loop (fuel : nat) (s : string) : nat :=
  match fuel with
  | O => O
  | S fuel' =>
      match s with
      | EmptyString => O
      | String c s' => S (runeCount_loop fuel' (sdrop (runeWidth c s' - 1) s'))
      end
  end.

Definition RuneCountInString (s : string) : nat :=
  runeCount_loop (String.length s) s.

Fixpoint spaces (n : nat) : string :=
  match n with
  | O => ""
  | S n' => String " " (spaces n')
  end.

(** The verb [%-40s]: the string, then spaces up to a width of 40 runes. *)
Definition fmt_minus40s (s : string) : string :=
  s +++ spaces (40 - RuneCountInString s).

(** ** The records of the calendar API that [main.go] reads *)

Module calendar.

Record EventDateTime : Type := mkEventDateTime {
  Date : string;
  DateTime : string
}.

Record EventAttendee : Type := mkEventAttendee {
  Self : bool;
  ResponseStatus : string
}.

Record EntryPoint : Type := mkEntryPoint {
  Uri : string;
  MeetingCode : string;
  Password : string
}.

Record ConferenceData : Type := mkConferenceData {
  EntryPoints : list EntryPoint
}.

(** [calendar.Event], with the fields that the program reads.  [Start] and
    [End] are the date records themselves: the events that the query
    returns always carry both. *)
Record Event : Type := mkEvent {
  Summary : string;
  Location : string;
  ColorId : string;
  HtmlLink : string;
  Start : EventDateTime;
  End : EventDateTime;
  Attendees : list EventAttendee;
  Conference : option ConferenceData   (* [ConferenceData], nil or not *)
}.

End calendar.

(** ** The field resolver of [main.go] *)

Definition isEmpty (s : string) : bool := String.eqb s "".

Definition startDateFrom (event : calendar.Event) : string :=
  let date := calendar.DateTime (calendar.Start event) in
  if isEmpty date then calendar.Date (calendar.Start event) else date.

Definition endDateFrom (event : calendar.Event) : string :=
  let date := calendar.DateTime (calendar.End event) in
  if isEmpty date then calendar.Date (calendar.End event) else date.

Fixpoint rspStatusFrom_loop (attendees : list calendar.EventAttendee) : string :=
  match attendees with
  | [] => ""
  | a :: rest =>
      if calendar.Self a then calendar.ResponseStatus a
      else rspStatusFrom_loop rest
  end.

Definition rspStatusFrom (event : calendar.Event) : string :=
  rspStatusFrom_loop (calendar.Attendees event).

(** [fmt.Sprintf("%s (meeting:%s pass:%s)", ep.Uri, ep.MeetingCode,
    ep.Password)]. *)
Definition zoomText (ep : calendar.EntryPoint) : string :=
  calendar.Uri ep +++ " (meeting:" +++ calendar.MeetingCode ep
  +++ " pass:" +++ calendar.Password ep +++ ")".

Fixpoint zoomFrom_loop (eps : list calendar.EntryPoint) : string :=
  match eps with
  | [] => ""
  | ep :: rest =>
      if negb (isEmpty (calendar.MeetingCode ep)) then zoomText ep
      else zoomFrom_loop rest
  end.

Definition zoomFrom (conf : option calendar.ConferenceData) : string :=
  match conf with
  | None => ""
  | Some c => zoomFrom_loop (calendar.EntryPoints c)
  end.

Definition urlFrom (event : calendar.Event) : string :=
  let loc := findUrl_FindString (calendar.Location event) in
  let loc := if isEmpty loc then zoomFrom (calendar.Conference event) else loc in
  let loc := if isEmpty loc then calendar.Location event else loc in
  loc.

Section Instants.

Variable localZone : Z -> Zone.

(** The loop of [parseDay] over its formats. *)
Fixpoint parseDay_loop (fresh : nat) (formats : list string) (d : string)
  : option Time :=
  match formats with
  | [] => None
  | format :: rest =>
      match Parse localZone fresh format d with
      | Some t => Some t
      | None => parseDay_loop fresh rest d
      end
  end.

Definition parseDay (fresh : nat) (d : string) : option Time :=
  parseDay_loop fresh ["2006-01-02"; RFC3339] d.

Definition truncDay (t : Time) : Time :=
  GoTime.Date localZone (Year localZone t) (Month localZone t)
    (Day localZone t) 0 0 0 0 (loc t).

End Instants.

(** ** The interval collapser *)

(** [type Event struct { Start, End time.Time }] *)
Record Event : Type := mkEvent { Start : Time; End : Time }.

(** The [for _, i := range in[1:]] loop of [collapse]: [out] is the slice
    built so far and [ev] the open interval. *)
Fixpoint collapse_loop (out : list Event) (ev : Event) (rest : list Event)
  : list Event :=
  match rest with
  | [] => out ++ [ev]
  | i :: rest' =>
      if After (Start i) (End ev) then
        collapse_loop (out ++ [ev]) (mkEvent (Start i) (End i)) rest'
      else if After (End i) (End ev) then
        collapse_loop out (mkEvent (Start ev) (End i)) rest'
      else
        collapse_loop out ev rest'
  end.

Definition collapse (input : list Event) : list Event :=
  match input with
  | [] => []
  | i0 :: tl => collapse_loop [] (mkEvent (Start i0) (End i0)) tl
  end.


(** ** The body of [main], from the retrieved events on *)

Section Main.

Variable localZone : Z -> Zone.

Definition separator : string := "----------------------".

(** What the lines
      [ev := Event{}] ... [ev.End = *d]
    compute for one item: the day of its start, the texts of its start
    and end, and its interval.  [fresh] and [S fresh] are the addresses
    free for the locations that the two calls of [parseDay] may make. *)
Record Normalized : Type := mkNormalized {
  n_day : Time;
  n_startDate : string;
  n_endDate : string;
  n_ev : Event
}.

Definition normalize (fresh : nat) (item : calendar.Event) : Normalized :=
  let startDate := startDateFrom item in
  let '(day, startDate, evStart) :=
    match parseDay localZone fresh startDate with
    | Some d =>
        (truncDay localZone d, Format localZone d "2006-01-02 15:04", d)
    | None => (zeroTime, startDate, zeroTime)
    end in
  let endDate := endDateFrom item in
  let '(endDate, evEnd) :=
    match parseDay localZone (S fresh) endDate with
    | Some d => (Format localZone d "15:04", d)
    | None => (endDate, zeroTime)
    end in
  mkNormalized day startDate endDate (mkEvent evStart evEnd).

(** The text that the two [Printf] of the detail branch write before the
    closing [Println]. *)
Definition detailLine (startDate endDate : string) (item : calendar.Event)
    (rspStatus : string) : string :=
  startDate +++ "-" +++ endDate +++ " "
  +++ fmt_minus40s (calendar.Summary item) +++ " " +++ urlFrom item
  +++ (if negb (isEmpty rspStatus) && negb (String.eqb rspStatus "accepted")
       then " [" +++ rspStatus +++ ": " +++ calendar.HtmlLink item +++ "]"
       else "").

(** The variables that the loop over [events.Items] updates: [prevDay],
    [evs], the lines printed so far, and the next free address. *)
Record Loop : Type := mkLoop {
  prevDay : Time;
  evs : list Event;
  printed : list string;
  heap : nat
}.

(** One turn of [for _, item := range events.Items]. *)
Definition main_step (summarize : bool) (st : Loop) (item : calendar.Event)
  : Loop :=
  if negb (isEmpty (calendar.ColorId item)) then st
  else
    let rspStatus := rspStatusFrom item in
    if String.eqb rspStatus "declined" then st
    else
      let n := normalize (heap st) item in
      if summarize then
        mkLoop (prevDay st) (evs st ++ [n_ev n]) (printed st) (2 + heap st)
      else
        let line := detailLine (n_startDate n) (n_endDate n) item rspStatus in
        if negb (Time_eqb (n_day n) (prevDay st)) then
          mkLoop (n_day n) (evs st) (printed st ++ [separator; line])
            (2 + heap st)
        else
          mkLoop (prevDay st) (evs st) (printed st ++ [line]) (2 + heap st).

(** The loop [for _, i := range c] of the summary. *)
Fixpoint summary_loop (prevDay : Time) (c : list Event) : list string :=
  match c with
  | [] => []
  | i :: rest =>
      let day := truncDay localZone (Start i) in
      let line := Format localZone (Start i) "2006-01-02 15:04" +++ "-"
                  +++ Format localZone (End i) "15:04" in
      if negb (Time_eqb day prevDay)
      then separator :: line :: summary_loop day rest
      else line :: summary_loop prevDay rest
  end.

(** [main] from [if len(events.Items) == 0] on, as the list of the lines
    it prints.  [now1] and [now2] are what the two calls of [time.Now]
    return, [items] is [events.Items]. *)
Definition main (summarize : bool) (now1 now2 : Time)
    (items : list calendar.Event) : list string :=
  match items with
  | [] => ["No upcoming events found."]
  | _ :: _ =>
      let st := fold_left (main_step summarize) items
                  (mkLoop (truncDay localZone now1) [] [] 0) in
      if summarize then
        printed st
        ++ summary_loop (truncDay localZone now2) (collapse (evs st))
      else printed st
  end.

(** The bytes written to the standard output: every line and its newline. *)
Definition stdout (lines : list string) : string :=
  String.concat "" (map (fun l => l +++ String (ascii_of_nat 10) "") lines).

End Main.

(** *** Vocabulary for the collapser's properties *)

(** [t <= u] on instants. *)
Definition notAfter (t u : Time) : bool := negb (After t u).

(** Adjacent elements are related by [r]. *)
Fixpoint chain (r : Event -> Event -> bool) (l : list Event) : bool :=
  match l with
  | [] => true
  | a :: tl =>
      match tl with
      | [] => true
      | b :: _ => r a b && chain r tl
      end
  end.

(** Ascending by start. *)
Definition startLe (a b : Event) : bool := notAfter (Start a) (Start b).
Definition sortedByStart (l : list Event) : bool := chain startLe l.

(** The later interval starts strictly after the earlier one ends. *)
Definition apart (a b : Event) : bool := After (Start b) (End a).
Definition separated (l : list Event) : bool := chain apart l.

(** The instant [t] lies in the closed interval [e]. *)
Definition covers (e : Event) (t : Time) : bool :=
  notAfter (Start e) t && notAfter t (End e).

Definition covered (l : list Event) (t : Time) : bool :=
  existsb (fun e => covers e t) l.

(** The same with intervals read as half-open, [start <= t < end]. *)
Definition coversHO (e : Event) (t : Time) : bool :=
  notAfter (Start e) t && After (End e) t.

Definition coveredHO (l : list Event) (t : Time) : bool :=
  existsb (fun e => coversHO e t) l.

(** [t <= u] on instants, stated on the seconds and nanoseconds and not
    through [After]. *)
Definition instLe (t u : Time) : Prop :=
  sec t < sec u \/ (sec t = sec u /\ nsec t <= nsec u).

(** The open interval after an overlapping interval [i] was absorbed. *)
Definition absorb (ev i : Event) : Event :=
  mkEvent (Start ev) (if After (End i) (End ev) then End i else End ev).


(** *** Vocabulary for the filter, the URL resolution and the rendering *)

(** The filter of the specification: a non-empty colour tag, or a
    response status of "declined". *)
Definition excluded (item : calendar.Event) : bool :=
  negb (isEmpty (calendar.ColorId item))
  || String.eqb (rspStatusFrom item) "declined".

Definition bytes (s : string) : list ascii := list_ascii_of_string s.

(** A URL token: "http://" or "https://" and then one non-space byte or
    more. *)
Definition isUrlToken (tok : string) : Prop :=
  exists scheme run,
    (scheme = "http://" \/ scheme = "https://") /\
    tok = scheme +++ run /\ run <> "" /\
    Forall (fun c => isSpace c = false) (bytes run).

Definition hasUrlToken (s : string) : Prop :=
  exists pre tok post, s = pre +++ tok +++ post /\ isUrlToken tok.

(** [tok] is the first URL token of [s]: no token begins before it, and it
    runs up to the next space or to the end. *)
Definition firstUrlToken (s tok : string) : Prop :=
  exists pre post,
    s = pre +++ tok +++ post /\ isUrlToken tok /\
    (post = "" \/ exists c post', post = String c post' /\ isSpace c = true) /\
    (forall pre' tok' post',
        s = pre' +++ tok' +++ post' -> isUrlToken tok' ->
        (String.length pre <= String.length pre')%nat).

(** The first entry point that carries a meeting code. *)
Definition firstWithCode (eps : list calendar.EntryPoint)
  : option calendar.EntryPoint :=
  find (fun ep => negb (isEmpty (calendar.MeetingCode ep))) eps.

Definition entryPointsOf (event : calendar.Event) : list calendar.EntryPoint :=
  match calendar.Conference event with
  | Some c => calendar.EntryPoints c
  | None => []
  end.

(** Padding on the left: spaces up to a width of 40 runes, then the
    string. *)
Definition padLeft40 (s : string) : string :=
  spaces (40 - RuneCountInString s) +++ s.

(** The annotation of a detail line. *)
Definition annotation (status weblink : string) : string :=
  " [" +++ status +++ ": " +++ weblink +++ "]".

(** The part of a detail line before the annotation. *)
Definition detailBase (startDate endDate summary url : string) : string :=
  startDate +++ "-" +++ endDate +++ " " +++ fmt_minus40s summary
  +++ " " +++ url.

(** The same with the summary padded on the left. *)
Definition detailBaseLeftPadded (startDate endDate summary url : string)
  : string :=
  startDate +++ "-" +++ endDate +++ " " +++ padLeft40 summary +++ " " +++ url.

(** [l] is the detail line of an event of [items] that the filter keeps:
    start, "-", end, the summary followed by spaces up to 40 runes, the
    URL, and the annotation exactly when the status is neither empty nor
    "accepted". *)
Definition isDetailLine (localZone : Z -> Zone) (items : list calendar.Event)
    (l : string) : Prop :=
  exists item fresh,
    In item items /\ excluded item = false /\
    let n := normalize localZone fresh item in
    let status := rspStatusFrom item in
    let base := n_startDate n +++ "-" +++ n_endDate n +++ " "
                +++ (calendar.Summary item
                     +++ spaces (40 - RuneCountInString (calendar.Summary item)))
                +++ " " +++ urlFrom item in
    (status <> "" /\ status <> "accepted" /\
     l = base +++ " [" +++ status +++ ": " +++ calendar.HtmlLink item +++ "]")
    \/ ((status = "" \/ status = "accepted") /\ l = base).

(** No clock field and no zone is set: the state of the fields that the
    elements of the date-only layout keep. *)
Definition clockUnset (f : Fields) : Prop :=
  f_hour f = 0 /\ f_min f = 0 /\ f_sec f = 0 /\ f_nsec f = 0 /\
  f_utc f = false /\ f_zoneOffset f = -1.

(** [s] is empty or begins with a space of the class [\s]. *)
Definition spaceLed (s : string) : Prop :=
  s = "" \/ exists c s', s = String c s' /\ isSpace c = true.

(** *** Sample data *)

(** Sample intervals on 2021-03-01 (UTC): 10:00-10:30, 10:30-11:00 and
    12:00-12:30. *)
Definition at1000 : Time := mkTime 63750189600 0 UTC.
Definition at1030 : Time := mkTime 63750191400 0 UTC.
Definition at1100 : Time := mkTime 63750193200 0 UTC.
Definition at1200 : Time := mkTime 63750196800 0 UTC.
Definition at1230 : Time := mkTime 63750198600 0 UTC.
Definition sample : list Event :=
  [mkEvent at1000 at1030; mkEvent at1030 at1100; mkEvent at1200 at1230].

(** A machine whose local zone is five hours west of UTC all year, and
    an instant of the morning of 2021-03-01 there. *)
Definition westZone (_ : Z) : Zone := mkZone (-18000) alpha omega.
Definition morning : Time := mkTime 63750180000 0 Local.

(** A timed meeting answered "tentative", an all-day event, and a declined
    meeting. *)
Definition standup : calendar.Event :=
  calendar.mkEvent "Standup" "room 4, https://meet.example/abc see you" ""
    "https://cal.example/1"
    (calendar.mkEventDateTime "" "2021-03-01T10:00:00-05:00")
    (calendar.mkEventDateTime "" "2021-03-01T10:30:00-05:00")
    [calendar.mkEventAttendee false "accepted";
     calendar.mkEventAttendee true "tentative"]
    None.

Definition holiday : calendar.Event :=
  calendar.mkEvent "Holiday" "" "" "https://cal.example/2"
    (calendar.mkEventDateTime "2021-03-01" "")
    (calendar.mkEventDateTime "2021-03-02" "")
    []
    (Some (calendar.mkConferenceData
             [calendar.mkEntryPoint "tel:+1-555-0100" "" "";
              calendar.mkEntryPoint "https://zoom.example/j/7" "7" "pw"])).

Definition declinedItem : calendar.Event :=
  calendar.mkEvent "Review" "" "" "https://cal.example/3"
    (calendar.mkEventDateTime "" "2021-03-01T11:00:00-05:00")
    (calendar.mkEventDateTime "" "2021-03-01T12:00:00-05:00")
    [calendar.mkEventAttendee true "declined"]
    None.

Definition newline : string := String (ascii_of_nat 10) "".

(** *** Vocabulary for further properties of the collapser *)

(** The interval [x] lies inside the interval [o]. *)
Definition within (x o : Event) : bool :=
  notAfter (Start o) (Start x) && notAfter (End x) (End o).

(** The interval does not end before it starts. *)
Definition wellFormed (e : Event) : bool := notAfter (Start e) (End e).

(** Strictly ascending starts, strictly ascending ends. *)
Definition startLt (a b : Event) : bool := After (Start b) (Start a).
Definition endLt (a b : Event) : bool := After (End b) (End a).

(** *** Vocabulary for further properties of [main] *)

(** The detail lines of the events that the filter keeps, in the order of
    the events; [fresh] is the first free address. *)
Fixpoint keptLines (localZone : Z -> Zone) (fresh : nat)
    (items : list calendar.Event) : list string :=
  match items with
  | [] => []
  | item :: rest =>
      if excluded item then keptLines localZone fresh rest
      else
        let n := normalize localZone fresh item in
        detailLine (n_startDate n) (n_endDate n) item (rspStatusFrom item)
        :: keptLines localZone (2 + fresh) rest
  end.

(** The intervals of the events that the filter keeps, in the order of
    the events. *)
Fixpoint keptEvents (localZone : Z -> Zone) (fresh : nat)
    (items : list calendar.Event) : list Event :=
  match items with
  | [] => []
  | item :: rest =>
      if excluded item then keptEvents localZone fresh rest
      else n_ev (normalize localZone fresh item)
           :: keptEvents localZone (2 + fresh) rest
  end.

(** The lines that are not day separators. *)
Definition withoutSeparators (lines : list string) : list string :=
  filter (fun l => negb (String.eqb l separator)) lines.

Definition notSelf (a : calendar.EventAttendee) : bool :=
  negb (calendar.Self a).

(** *** Vocabulary for the calendar arithmetic *)

(** The day number, counted from January 1 of year 1, of the day [d] of
    month [m] of year [y], as [Date] computes it. *)
Definition daysOfCivil (y m d : Z) : Z :=
  daysSinceEpoch y + daysBefore (m - 1)
  + (if isLeap y && (3 <=? m) then 1 else 0) + (d - 1).

(** The two halves of [absDate]: the year and the day within the year of
    a day number, and the month and the day of month of a day within a
    leap or a common year. *)
Definition yearDay (days : Z) : Z * Z :=
  let n := days / 146097 in
  let y := 400 * n in
  let d := days - 146097 * n in
  let n := d / 36524 in
  let n := n - Z.shiftr n 2 in
  let y := y + 100 * n in
  let d := d - 36524 * n in
  let n := d / 1461 in
  let y := y + 4 * n in
  let d := d - 1461 * n in
  let n := d / 365 in
  let n := n - Z.shiftr n 2 in
  let y := y + n in
  let d := d - 365 * n in
  (y + 1, d).

Definition monthDay (leap : bool) (d : Z) : Z * Z :=
  if leap && (d =? 31 + 29 - 1) then (2, 29)
  else
    let day := if leap && (31 + 29 - 1 <? d) then d - 1 else d in
    let month := day / 31 in
    let fin := daysBefore (month + 1) in
    if fin <=? day then (month + 2, day - fin + 1)
    else (month + 1, day - daysBefore month + 1).

(** The length of month [m] in a leap or a common year. *)
Definition monthLength (leap : bool) (m : Z) : Z :=
  if (m =? 2) && leap then 29 else daysBefore m - daysBefore (m - 1).

(** The day within the year of the day [d] of month [m]. *)
Definition yearDayOf (leap : bool) (m d : Z) : Z :=
  daysBefore (m - 1) + (if leap && (3 <=? m) then 1 else 0) + (d - 1).

(** [p] holds of [lo], [lo + 1], ... for [n] numbers. *)
Fixpoint allFrom (p : Z -> bool) (lo : Z) (n : nat) : bool :=
  match n with
  | O => true
  | S n' => p lo && allFrom p (lo + 1) n'
  end.

(** [monthDay] inverts [yearDayOf] at the day [yd] of the year. *)
Definition monthDayOk (leap : bool) (yd : Z) : bool :=
  let '(m, d) := monthDay leap yd in
  (1 <=? m) && (m <=? 12) && (1 <=? d) && (d <=? monthLength leap m)
  && (yearDayOf leap m d =? yd).

(** The day number of the wall clock of [t] in its location. *)
Definition dayNumber (localZone : Z -> Zone) (t : Time) : Z :=
  abs localZone t / secondsPerDay.

(** [monthDay] inverts [yearDayOf] at every day of month [m]. *)
Definition monthOk (leap : bool) (m : Z) : bool :=
  allFrom (fun d =>
             if d <=? monthLength leap m
             then (fst (monthDay leap (yearDayOf leap m d)) =? m)
                  && (snd (monthDay leap (yearDayOf leap m d)) =? d)
                  && (0 <=? yearDayOf leap m d)
                  && (yearDayOf leap m d <? (if leap then 366 else 365))
             else true)
          1 31.

(** The location [l] keeps the offset [off] east of UTC at all times, as
    UTC and the locations of [FixedZone] do. *)
Definition fixedOffset (localZone : Z -> Zone) (l : Location) (off : Z) : Prop :=
  forall unix, lookup localZone l unix = mkZone off alpha omega.

(** The Unix time of [t] is at least one day above the least [int64] and
    below the greatest. *)
Definition representable (t : Time) : Prop :=
  alpha + secondsPerDay <= unixSec t < omega.

(** A meeting at 10:00 in a location made by [FixedZone] for UTC+2. *)
Definition inBerlin : Time := mkTime 63750182400 0 (Fixed 7 7200).

(** *** Vocabulary for the texts of dates *)

(** The byte of the decimal digit [n]. *)
Definition digitChar (n : Z) : ascii := ascii_of_nat (Z.to_nat (48 + n)).

(** The number that the digits of [s] write after the number [x]. *)
Fixpoint digitsValue (x : Z) (s : string) : Z :=
  match s with
  | EmptyString => x
  | String c s' => digitsValue (x * 10 + digitVal c) s'
  end.

Definition allDigits (s : string) : bool := forallb isDigitByte (bytes s).

(** [appendInt] writes [n] below 100 with two digits, and [n] below 10000
    with four. *)
Definition twoOk (n : Z) : bool :=
  String.eqb (appendInt n 2)
    (String (digitChar (n / 10)) (String (digitChar (n mod 10)) "")).

Definition fourOk (n : Z) : bool :=
  String.eqb (appendInt n 4)
    (String (digitChar (n / 1000))
       (String (digitChar (n / 100 mod 10))
          (String (digitChar (n / 10 mod 10))
             (String (digitChar (n mod 10)) "")))).

(** Every byte of [s] is an ASCII character. *)
Definition isASCII (s : string) : bool :=
  forallb (fun c => byteZ c <? 128) (bytes s).

(** The line of the summary for the interval [i]. *)
Definition summaryLine (localZone : Z -> Zone) (i : Event) : string :=
  Format localZone (Start i) "2006-01-02 15:04" +++ "-"
  +++ Format localZone (End i) "15:04".

(** ** Proofs: the collapser *)

Section CollapseFacts.

Lemma After_spec (t u : Time) :
  After t u = true <->
  (sec u < sec t \/ (sec t = sec u /\ nsec u < nsec t)).
Proof.
  unfold After.
  rewrite orb_true_iff, andb_true_iff, !Z.ltb_lt, Z.eqb_eq. tauto.
Qed.

Lemma After_false (t u : Time) :
  After t u = false <->
  (sec t < sec u \/ (sec t = sec u /\ nsec t <= nsec u)).
Proof.
  unfold After.
  rewrite orb_false_iff, andb_false_iff, !Z.ltb_ge, Z.eqb_neq. lia.
Qed.

End CollapseFacts.

(** Turns every [After] fact of the context and of the goal into linear
    arithmetic on seconds and nanoseconds. *)
Ltac instants :=
  unfold startLe, apart, covers, coversHO, notAfter in *;
  repeat match goal with
  | H : context [negb _ = true] |- _ => rewrite negb_true_iff in H
  | H : context [negb _ = false] |- _ => rewrite negb_false_iff in H
  | H : context [_ && _ = true] |- _ => rewrite andb_true_iff in H
  | H : After _ _ = true |- _ => apply After_spec in H
  | H : After _ _ = false |- _ => apply After_false in H
  end;
  repeat rewrite ?negb_true_iff, ?negb_false_iff, ?andb_true_iff,
                 ?After_spec, ?After_false;
  simpl in *.

Section CollapseProofs.

Lemma collapse_loop_out (out : list Event) (ev : Event) (rest : list Event) :
  collapse_loop out ev rest = out ++ collapse_loop [] ev rest.
Proof.
  revert out ev.
  induction rest as [|i rest IH]; intros out ev; simpl.
  - reflexivity.
  - destruct (After (Start i) (End ev)).
    + rewrite (IH (out ++ [ev])), (IH [ev]), <- app_assoc. reflexivity.
    + destruct (After (End i) (End ev)); apply IH.
Qed.

Lemma collapse_loop_push (ev i : Event) (rest : list Event) :
  After (Start i) (End ev) = true ->
  collapse_loop [] ev (i :: rest)
  = ev :: collapse_loop [] (mkEvent (Start i) (End i)) rest.
Proof.
  intros H. simpl. rewrite H, collapse_loop_out. reflexivity.
Qed.

Lemma collapse_loop_extend (ev i : Event) (rest : list Event) :
  After (Start i) (End ev) = false ->
  After (End i) (End ev) = true ->
  collapse_loop [] ev (i :: rest)
  = collapse_loop [] (mkEvent (Start ev) (End i)) rest.
Proof. intros H1 H2. simpl. rewrite H1, H2. reflexivity. Qed.

Lemma collapse_loop_drop (ev i : Event) (rest : list Event) :
  After (Start i) (End ev) = false ->
  After (End i) (End ev) = false ->
  collapse_loop [] ev (i :: rest) = collapse_loop [] ev rest.
Proof. intros H1 H2. simpl. rewrite H1, H2. reflexivity. Qed.

(** The loop always yields at least the open interval, and the first
    interval it yields starts where the open interval starts. *)
Lemma collapse_loop_head (ev : Event) (rest : list Event) :
  exists e tl, collapse_loop [] ev rest = e :: tl /\ Start e = Start ev.
Proof.
  revert ev. induction rest as [|i rest IH]; intros ev.
  - exists ev, []. split; reflexivity.
  - destruct (After (Start i) (End ev)) eqn:H1.
    + rewrite collapse_loop_push by exact H1. eauto.
    + destruct (After (End i) (End ev)) eqn:H2.
      * rewrite collapse_loop_extend by assumption.
        destruct (IH (mkEvent (Start ev) (End i))) as (e & tl & -> & Hs).
        exists e, tl. split; [reflexivity | exact Hs].
      * rewrite collapse_loop_drop by assumption. apply IH.
Qed.

End CollapseProofs.

Section CollapseSpec.

Lemma chain_cons2 (r : Event -> Event -> bool) (a b : Event) (l : list Event) :
  chain r (a :: b :: l) = r a b && chain r (b :: l).
Proof. reflexivity. Qed.

Lemma chain_tail (r : Event -> Event -> bool) (a : Event) (l : list Event) :
  chain r (a :: l) = true -> chain r l = true.
Proof.
  destruct l as [|b l]; [reflexivity|].
  rewrite chain_cons2, andb_true_iff. tauto.
Qed.

Lemma Event_eta (e : Event) : mkEvent (Start e) (End e) = e.
Proof. destruct e; reflexivity. Qed.

(** Replacing the head by an interval with the same start keeps a list
    ascending by start. *)
Lemma sorted_same_start (a a' : Event) (l : list Event) :
  Start a' = Start a ->
  sortedByStart (a :: l) = true -> sortedByStart (a' :: l) = true.
Proof.
  intros Hs. destruct l as [|b l]; [reflexivity|].
  unfold sortedByStart. rewrite !chain_cons2.
  unfold startLe. rewrite Hs. tauto.
Qed.

Lemma sorted_skip (a b : Event) (l : list Event) :
  sortedByStart (a :: b :: l) = true -> sortedByStart (a :: l) = true.
Proof.
  unfold sortedByStart. rewrite chain_cons2.
  destruct l as [|c l]; [reflexivity|].
  rewrite !chain_cons2, !andb_true_iff.
  intros (Hab & Hbc & Hl). repeat split; try assumption.
  instants. lia.
Qed.

(** The output of the loop is separated, whatever the input. *)
Lemma collapse_loop_separated (ev : Event) (rest : list Event) :
  separated (collapse_loop [] ev rest) = true.
Proof.
  revert ev. induction rest as [|i rest IH]; intros ev.
  - reflexivity.
  - destruct (After (Start i) (End ev)) eqn:H1.
    + rewrite collapse_loop_push by exact H1.
      specialize (IH (mkEvent (Start i) (End i))).
      destruct (collapse_loop_head (mkEvent (Start i) (End i)) rest)
        as (e & tl & Heq & Hs).
      rewrite Heq in *. unfold separated in *.
      rewrite chain_cons2, IH, andb_true_r.
      unfold apart. simpl in Hs. rewrite Hs. exact H1.
    + destruct (After (End i) (End ev)) eqn:H2.
      * rewrite collapse_loop_extend by assumption. apply IH.
      * rewrite collapse_loop_drop by assumption. apply IH.
Qed.

Lemma collapse_loop_sorted (ev : Event) (rest : list Event) :
  sortedByStart (ev :: rest) = true ->
  sortedByStart (collapse_loop [] ev rest) = true.
Proof.
  revert ev. induction rest as [|i rest IH]; intros ev Hs.
  - reflexivity.
  - destruct (After (Start i) (End ev)) eqn:H1.
    + rewrite collapse_loop_push by exact H1.
      assert (Hi : sortedByStart (mkEvent (Start i) (End i) :: rest) = true).
      { rewrite Event_eta. exact (chain_tail _ _ _ Hs). }
      specialize (IH _ Hi).
      destruct (collapse_loop_head (mkEvent (Start i) (End i)) rest)
        as (e & tl & Heq & He).
      rewrite Heq in *. unfold sortedByStart in *.
      rewrite chain_cons2, IH, andb_true_r.
      rewrite chain_cons2, andb_true_iff in Hs.
      unfold startLe in *. simpl in He. rewrite He. tauto.
    + destruct (After (End i) (End ev)) eqn:H2.
      * rewrite collapse_loop_extend by assumption. apply IH.
        apply (sorted_same_start ev); [reflexivity|].
        exact (sorted_skip _ _ _ Hs).
      * rewrite collapse_loop_drop by assumption. apply IH.
        exact (sorted_skip _ _ _ Hs).
Qed.

Lemma collapse_loop_covered (ev : Event) (rest : list Event) (t : Time) :
  sortedByStart (ev :: rest) = true ->
  covered (collapse_loop [] ev rest) t = covers ev t || covered rest t.
Proof.
  revert ev. induction rest as [|i rest IH]; intros ev Hs.
  - reflexivity.
  - assert (Hei : startLe ev i = true).
    { unfold sortedByStart in Hs. rewrite chain_cons2, andb_true_iff in Hs.
      tauto. }
    destruct (After (Start i) (End ev)) eqn:H1.
    + rewrite collapse_loop_push by exact H1.
      simpl. rewrite IH.
      * reflexivity.
      * rewrite Event_eta. exact (chain_tail _ _ _ Hs).
    + destruct (After (End i) (End ev)) eqn:H2.
      * rewrite collapse_loop_extend by assumption.
        rewrite IH.
        2:{ apply (sorted_same_start ev); [reflexivity|].
            exact (sorted_skip _ _ _ Hs). }
        simpl. rewrite orb_assoc. f_equal.
        apply eq_iff_eq_true. rewrite orb_true_iff.
        instants. lia.
      * rewrite collapse_loop_drop by assumption.
        rewrite IH by exact (sorted_skip _ _ _ Hs).
        simpl. rewrite orb_assoc. f_equal.
        apply eq_iff_eq_true. rewrite orb_true_iff.
        instants. lia.
Qed.

Lemma collapse_loop_coveredHO (ev : Event) (rest : list Event) (t : Time) :
  sortedByStart (ev :: rest) = true ->
  coveredHO (collapse_loop [] ev rest) t = coversHO ev t || coveredHO rest t.
Proof.
  revert ev. induction rest as [|i rest IH]; intros ev Hs.
  - reflexivity.
  - assert (Hei : startLe ev i = true).
    { unfold sortedByStart in Hs. rewrite chain_cons2, andb_true_iff in Hs.
      tauto. }
    destruct (After (Start i) (End ev)) eqn:H1.
    + rewrite collapse_loop_push by exact H1.
      simpl. rewrite IH.
      * reflexivity.
      * rewrite Event_eta. exact (chain_tail _ _ _ Hs).
    + destruct (After (End i) (End ev)) eqn:H2.
      * rewrite collapse_loop_extend by assumption.
        rewrite IH.
        2:{ apply (sorted_same_start ev); [reflexivity|].
            exact (sorted_skip _ _ _ Hs). }
        simpl. rewrite orb_assoc. f_equal.
        apply eq_iff_eq_true. rewrite orb_true_iff.
        instants. lia.
      * rewrite collapse_loop_drop by assumption.
        rewrite IH by exact (sorted_skip _ _ _ Hs).
        simpl. rewrite orb_assoc. f_equal.
        apply eq_iff_eq_true. rewrite orb_true_iff.
        instants. lia.
Qed.

(** A separated list is a fixed point of the loop. *)
Lemma collapse_loop_fixed (e : Event) (tl : list Event) :
  separated (e :: tl) = true -> collapse_loop [] e tl = e :: tl.
Proof.
  revert e. induction tl as [|i tl IH]; intros e Hsep.
  - reflexivity.
  - unfold separated in Hsep. rewrite chain_cons2, andb_true_iff in Hsep.
    destruct Hsep as [Ha Hsep].
    rewrite collapse_loop_push by exact Ha.
    rewrite Event_eta, IH by exact Hsep. reflexivity.
Qed.

(** Time points are never invented: the starts and ends of the loop's
    output are starts and ends of its input. *)
Lemma collapse_loop_points (ev : Event) (rest : list Event) (e : Event) :
  In e (collapse_loop [] ev rest) ->
  (exists a, In a (ev :: rest) /\ Start e = Start a) /\
  (exists b, In b (ev :: rest) /\ End e = End b).
Proof.
  revert ev. induction rest as [|i rest IH]; intros ev Hin.
  - destruct Hin as [<- | []]. split; exists ev; simpl; auto.
  - destruct (After (Start i) (End ev)) eqn:H1.
    + rewrite collapse_loop_push in Hin by exact H1.
      destruct Hin as [<- | Hin].
      * split; exists ev; simpl; auto.
      * destruct (IH _ Hin) as [(a & Ha & Hsa) (b & Hb & Heb)].
        split.
        -- destruct Ha as [<- | Ha]; [exists i | exists a]; simpl; auto.
        -- destruct Hb as [<- | Hb]; [exists i | exists b]; simpl; auto.
    + destruct (After (End i) (End ev)) eqn:H2.
      * rewrite collapse_loop_extend in Hin by assumption.
        destruct (IH _ Hin) as [(a & Ha & Hsa) (b & Hb & Heb)].
        split.
        -- destruct Ha as [<- | Ha]; [exists ev | exists a]; simpl; auto.
        -- destruct Hb as [<- | Hb]; [exists i | exists b]; simpl; auto.
      * rewrite collapse_loop_drop in Hin by assumption.
        destruct (IH _ Hin) as [(a & Ha & Hsa) (b & Hb & Heb)].
        split.
        -- destruct Ha as [<- | Ha]; [exists ev | exists a]; simpl; auto.
        -- destruct Hb as [<- | Hb]; [exists ev | exists b]; simpl; auto.
Qed.

End CollapseSpec.

(** ** The collapser: the specified properties *)

Section CollapseTheorems.

(** C1.  For an input ascending by start, the output of [collapse] is
    ascending by start, covers exactly the instants that the input covers
    (intervals read as closed, and also read as half-open), and any two
    consecutive output intervals are apart: the later one starts strictly
    after the earlier one ends. *)
Theorem collapse_sorted_covering_minimal (input : list Event) :
  sortedByStart input = true ->
  sortedByStart (collapse input) = true /\
  (forall t, covered (collapse input) t = covered input t) /\
  (forall t, coveredHO (collapse input) t = coveredHO input t) /\
  separated (collapse input) = true.
Proof.
  destruct input as [|i0 tl]; intros Hs.
  - repeat split; reflexivity.
  - unfold collapse. rewrite Event_eta. repeat split.
    + apply collapse_loop_sorted. exact Hs.
    + intros t. apply collapse_loop_covered. exact Hs.
    + intros t. apply collapse_loop_coveredHO. exact Hs.
    + apply collapse_loop_separated.
Qed.

Lemma collapse_sorted_covering_minimal_witness :
  sortedByStart sample = true /\
  collapse sample = [mkEvent at1000 at1100; mkEvent at1200 at1230] /\
  sortedByStart (collapse sample) = true /\
  separated (collapse sample) = true.
Proof.
  split; [reflexivity|]. split; [reflexivity|].
  pose proof (collapse_sorted_covering_minimal sample eq_refl)
    as (H1 & _ & _ & H4).
  split; [exact H1 | exact H4].
Defined.

(** C3.  In the loop of [collapse], an interval [i] whose start is not
    after the end of the open interval [ev] (start <= end on instants,
    equality included) opens no new output interval: it is absorbed into
    [ev], whose end becomes the later of the two ends. *)
Theorem collapse_touching_merges (out : list Event) (ev i : Event)
    (rest : list Event) :
  instLe (Start i) (End ev) ->
  collapse_loop out ev (i :: rest) = collapse_loop out (absorb ev i) rest.
Proof.
  intros Hle.
  assert (H1 : After (Start i) (End ev) = false).
  { apply After_false. exact Hle. }
  simpl. rewrite H1. unfold absorb.
  destruct (After (End i) (End ev)); [reflexivity|].
  rewrite Event_eta. reflexivity.
Qed.

Lemma collapse_touching_merges_witness :
  instLe at1030 at1030 /\
  collapse [mkEvent at1000 at1030; mkEvent at1030 at1100]
  = [mkEvent at1000 at1100].
Proof.
  split.
  - right. split; [reflexivity | apply Z.le_refl].
  - unfold collapse. cbn [Start End].
    rewrite (collapse_touching_merges [] (mkEvent at1000 at1030)
               (mkEvent at1030 at1100) []).
    + reflexivity.
    + right. split; [reflexivity | apply Z.le_refl].
Defined.

(** The other branch of the test: only a start strictly after the open
    interval's end closes it. *)
Lemma collapse_strictly_after_splits (out : list Event) (ev i : Event)
    (rest : list Event) :
  ~ instLe (Start i) (End ev) ->
  collapse_loop out ev (i :: rest)
  = collapse_loop (out ++ [ev]) i rest.
Proof.
  intros Hn.
  assert (H1 : After (Start i) (End ev) = true).
  { destruct (After (Start i) (End ev)) eqn:E; [reflexivity|].
    apply After_false in E. contradiction. }
  simpl. rewrite H1, Event_eta. reflexivity.
Qed.

(** C4.  [collapse] is idempotent; the input need not even be sorted. *)
Theorem collapse_idempotent (xs : list Event) :
  collapse (collapse xs) = collapse xs.
Proof.
  destruct xs as [|i0 tl]; [reflexivity|].
  unfold collapse at 2 3.
  pose proof (collapse_loop_separated (mkEvent (Start i0) (End i0)) tl) as Hsep.
  destruct (collapse_loop [] (mkEvent (Start i0) (End i0)) tl) as [|e l].
  - reflexivity.
  - unfold collapse. rewrite Event_eta. apply collapse_loop_fixed. exact Hsep.
Qed.

(** C10.  For a non-empty input, [collapse] returns a non-empty output
    whose first interval starts where the first input interval starts;
    every start of the output is the start of an input interval and every
    end of the output is the end of an input interval. *)
Theorem collapse_invents_no_point (i0 : Event) (tl : list Event) :
  (exists e l, collapse (i0 :: tl) = e :: l /\ Start e = Start i0) /\
  (forall e, In e (collapse (i0 :: tl)) ->
     (exists a, In a (i0 :: tl) /\ Start e = Start a) /\
     (exists b, In b (i0 :: tl) /\ End e = End b)).
Proof.
  unfold collapse. rewrite Event_eta. split.
  - apply collapse_loop_head.
  - intros e. apply collapse_loop_points.
Qed.

Lemma collapse_invents_no_point_witness :
  exists e l, collapse sample = e :: l /\ Start e = at1000.
Proof.
  exact (proj1 (collapse_invents_no_point (mkEvent at1000 at1030)
                  [mkEvent at1030 at1100; mkEvent at1200 at1230])).
Defined.

(** The examples of the specification: overlapping intervals are merged,
    a contained interval is dropped, and nothing yields nothing. *)
Example collapse_overlap_example :
  collapse [mkEvent at1000 at1030; mkEvent (mkTime 63750190500 0 UTC) at1100;
            mkEvent at1200 at1230]
  = [mkEvent at1000 at1100; mkEvent at1200 at1230].
Proof. reflexivity. Qed.

Example collapse_containment_example :
  collapse [mkEvent at1000 at1230; mkEvent at1030 at1100]
  = [mkEvent at1000 at1230].
Proof. reflexivity. Qed.

Example collapse_empty_example : collapse [] = [].
Proof. reflexivity. Qed.

End CollapseTheorems.

(** ** The loop of [main]: filtering *)

Section MainFacts.

Variable localZone : Z -> Zone.

Lemma app_neq_self {A : Type} (l x : list A) : x <> [] -> l ++ x <> l.
Proof.
  intros Hx Heq. apply Hx.
  apply (f_equal (@List.length A)) in Heq. rewrite length_app in Heq.
  destruct x; [reflexivity | simpl in Heq; lia].
Qed.

Lemma excluded_true (item : calendar.Event) :
  excluded item = true <->
  calendar.ColorId item <> "" \/ rspStatusFrom item = "declined".
Proof.
  unfold excluded, isEmpty.
  rewrite orb_true_iff, negb_true_iff, String.eqb_neq, String.eqb_eq. tauto.
Qed.

Lemma main_step_excluded (summarize : bool) (st : Loop) (item : calendar.Event) :
  excluded item = true -> main_step localZone summarize st item = st.
Proof.
  unfold excluded, main_step. intros H.
  destruct (negb (isEmpty (calendar.ColorId item))); [reflexivity|].
  simpl in H. rewrite H. reflexivity.
Qed.

Lemma main_step_kept_summary (st : Loop) (item : calendar.Event) :
  excluded item = false ->
  main_step localZone true st item
  = mkLoop (prevDay st) (evs st ++ [n_ev (normalize localZone (heap st) item)])
      (printed st) (2 + heap st).
Proof.
  unfold excluded, main_step. intros H.
  apply orb_false_iff in H. destruct H as [-> ->]. reflexivity.
Qed.

Lemma main_step_kept_detail (st : Loop) (item : calendar.Event) :
  excluded item = false ->
  let n := normalize localZone (heap st) item in
  let line := detailLine (n_startDate n) (n_endDate n) item
                (rspStatusFrom item) in
  evs (main_step localZone false st item) = evs st /\
  heap (main_step localZone false st item) = (2 + heap st)%nat /\
  exists sep, (sep = [] \/ sep = [separator]) /\
    printed (main_step localZone false st item) = printed st ++ sep ++ [line].
Proof.
  unfold excluded, main_step. intros H.
  apply orb_false_iff in H. destruct H as [-> ->]. simpl.
  destruct (negb (Time_eqb _ _)); simpl; repeat split.
  - exists [separator]. split; [right; reflexivity | reflexivity].
  - exists []. split; [left; reflexivity | reflexivity].
Qed.

Lemma main_loop_filter (summarize : bool) (items : list calendar.Event)
    (st : Loop) :
  fold_left (main_step localZone summarize) items st
  = fold_left (main_step localZone summarize)
      (filter (fun item => negb (excluded item)) items) st.
Proof.
  revert st. induction items as [|item items IH]; intros st; simpl.
  - reflexivity.
  - destruct (excluded item) eqn:E; simpl.
    + rewrite main_step_excluded by exact E. apply IH.
    + apply IH.
Qed.

Lemma main_loop_all_excluded (summarize : bool) (items : list calendar.Event)
    (st : Loop) :
  forallb excluded items = true ->
  fold_left (main_step localZone summarize) items st = st.
Proof.
  revert st. induction items as [|item items IH]; intros st H; simpl.
  - reflexivity.
  - simpl in H. apply andb_true_iff in H. destruct H as [H1 H2].
    rewrite main_step_excluded by exact H1. apply IH. exact H2.
Qed.

End MainFacts.

Section MainTheorems.

(** C2, as the code has it.  When the retrieved list is empty the program
    prints the one line "No upcoming events found." and nothing else.
    When the list is not empty and the filter excludes every event, the
    program prints nothing at all. *)
Theorem no_events_line (localZone : Z -> Zone) (summarize : bool)
    (now1 now2 : Time) :
  main localZone summarize now1 now2 [] = ["No upcoming events found."] /\
  stdout (main localZone summarize now1 now2 [])
  = "No upcoming events found." +++ newline /\
  (forall items,
      items <> [] -> forallb excluded items = true ->
      main localZone summarize now1 now2 items = []).
Proof.
  split; [reflexivity|]. split; [reflexivity|].
  intros items Hne Hall. destruct items as [|i0 tl]; [contradiction|].
  unfold main. rewrite main_loop_all_excluded by exact Hall.
  destruct summarize; reflexivity.
Qed.

Lemma no_events_line_witness :
  main westZone false morning morning [] = ["No upcoming events found."] /\
  main westZone false morning morning [declinedItem] = [].
Proof.
  destruct (no_events_line westZone false morning morning) as (H1 & _ & H3).
  split; [exact H1|].
  apply H3; [discriminate | reflexivity].
Defined.

(** C2 does not hold as stated: with one declined event retrieved, the
    filtered set is empty, yet no line is printed, in either mode. *)
Lemma filtered_empty_prints_nothing :
  filter (fun item => negb (excluded item)) [declinedItem] = [] /\
  main westZone false morning morning [declinedItem] = [] /\
  main westZone true morning morning [declinedItem] = [] /\
  main westZone false morning morning [declinedItem]
  <> ["No upcoming events found."].
Proof.
  repeat split; try reflexivity. discriminate.
Qed.

(** C5.  In the loop of [main] an event leaves no trace (no line in detail
    mode, no interval handed to the collapser in summary mode) exactly when
    its colour tag is not empty or its response status is "declined".
    Every other event adds its own detail line, after a separator or not,
    or its own interval; the whole loop behaves as on the filtered list. *)
Theorem filter_excludes_exactly (localZone : Z -> Zone) (st : Loop)
    (item : calendar.Event) :
  ((calendar.ColorId item <> "" \/ rspStatusFrom item = "declined") <->
   printed (main_step localZone false st item) = printed st) /\
  ((calendar.ColorId item <> "" \/ rspStatusFrom item = "declined") <->
   evs (main_step localZone true st item) = evs st) /\
  (~ (calendar.ColorId item <> "" \/ rspStatusFrom item = "declined") ->
   let n := normalize localZone (heap st) item in
   evs (main_step localZone true st item) = evs st ++ [n_ev n] /\
   printed (main_step localZone true st item) = printed st /\
   exists sep, (sep = [] \/ sep = [separator]) /\
     printed (main_step localZone false st item)
     = printed st ++ sep
       ++ [detailLine (n_startDate n) (n_endDate n) item (rspStatusFrom item)]) /\
  (forall summarize items st0,
     fold_left (main_step localZone summarize) items st0
     = fold_left (main_step localZone summarize)
         (filter (fun i => negb (excluded i)) items) st0).
Proof.
  rewrite <- excluded_true.
  destruct (excluded item) eqn:E.
  - rewrite !main_step_excluded by exact E.
    split; [|split; [|split]].
    + tauto.
    + tauto.
    + intros H. exfalso. apply H. reflexivity.
    + intros. apply main_loop_filter.
  - destruct (main_step_kept_detail localZone st item E)
      as (He & _ & sep & Hsep & Hp).
    rewrite (main_step_kept_summary localZone st item E). cbn [evs printed].
    split; [|split; [|split]].
    + split; [discriminate|]. intros H. exfalso.
      rewrite Hp in H. revert H. apply app_neq_self.
      destruct sep; discriminate.
    + split; [discriminate|]. intros H. exfalso.
      revert H. apply app_neq_self. discriminate.
    + intros _. split; [reflexivity|]. split; [reflexivity|].
      exists sep. split; [exact Hsep | exact Hp].
    + intros. apply main_loop_filter.
Qed.

Lemma filter_excludes_exactly_witness :
  evs (main_step westZone true (mkLoop morning [] [] 0) standup)
  = [n_ev (normalize westZone 0 standup)] /\
  printed (main_step westZone false (mkLoop morning [] [] 0) declinedItem) = [].
Proof.
  destruct (filter_excludes_exactly westZone (mkLoop morning [] [] 0) standup)
    as (_ & _ & H3 & _).
  destruct (filter_excludes_exactly westZone (mkLoop morning [] [] 0)
              declinedItem) as (H1 & _).
  split.
  - destruct H3 as (He & _).
    + intros [H | H]; [apply H; reflexivity | discriminate H].
    + exact He.
  - apply H1. right. reflexivity.
Defined.

End MainTheorems.

(** ** Strings: append *)

Section StringFacts.

Lemma sapp_nil_r (s : string) : s +++ "" = s.
Proof. induction s as [|c s IH]; simpl; [reflexivity | rewrite IH; reflexivity]. Qed.

Lemma sapp_assoc (a b c : string) : (a +++ b) +++ c = a +++ (b +++ c).
Proof. induction a as [|x a IH]; simpl; [reflexivity | rewrite IH; reflexivity]. Qed.

Lemma sapp_length (a b : string) :
  String.length (a +++ b) = (String.length a + String.length b)%nat.
Proof. induction a as [|x a IH]; simpl; [reflexivity | rewrite IH; reflexivity]. Qed.

Lemma sapp_inv_head (a b c : string) : a +++ b = a +++ c -> b = c.
Proof.
  induction a as [|x a IH]; simpl; intros H; [exact H|].
  injection H as H. apply IH. exact H.
Qed.

End StringFacts.

(** ** Instants: parsing and rendering *)

Section InstantFacts.

Variable localZone : Z -> Zone.

Lemma chunks_date :
  chunks "2006-01-02"
  = [("", Some stdLongYear); ("-", Some stdZeroMonth);
     ("-", Some stdZeroDay); ("", None)].
Proof. reflexivity. Qed.

Lemma chunks_dateTime :
  chunks "2006-01-02 15:04"
  = [("", Some stdLongYear); ("-", Some stdZeroMonth);
     ("-", Some stdZeroDay); (" ", Some stdHour);
     (":", Some stdZeroMinute); ("", None)].
Proof. reflexivity. Qed.

Lemma chunks_clock :
  chunks "15:04" = [("", Some stdHour); (":", Some stdZeroMinute); ("", None)].
Proof. reflexivity. Qed.

Lemma Format_date (t : Time) :
  Format localZone t "2006-01-02"
  = appendInt (Year localZone t) 4 +++ "-"
    +++ appendInt (Month localZone t) 2 +++ "-"
    +++ appendInt (Day localZone t) 2.
Proof.
  unfold Format. rewrite chunks_date.
  cbn [map String.concat fst snd formatStd append].
  rewrite sapp_nil_r. reflexivity.
Qed.

Lemma Format_clock (t : Time) :
  Format localZone t "15:04"
  = appendInt (Hour localZone t) 2 +++ ":" +++ appendInt (Minute localZone t) 2.
Proof.
  unfold Format. rewrite chunks_clock.
  cbn [map String.concat fst snd formatStd append].
  rewrite sapp_nil_r. reflexivity.
Qed.

Lemma Format_dateTime (t : Time) :
  Format localZone t "2006-01-02 15:04"
  = Format localZone t "2006-01-02" +++ " " +++ Format localZone t "15:04".
Proof.
  rewrite Format_date, Format_clock.
  unfold Format. rewrite chunks_dateTime.
  cbn [map String.concat fst snd formatStd append].
  rewrite sapp_nil_r, !sapp_assoc. cbn [append]. 
  rewrite !sapp_assoc. reflexivity.
Qed.

Lemma parseStd_date_keeps_clock (std : Std) (f f' : Fields) (v v' : string) :
  std = stdLongYear \/ std = stdZeroMonth \/ std = stdZeroDay ->
  parseStd std f v = Some (f', v') -> clockUnset f -> clockUnset f'.
Proof.
  unfold clockUnset.
  intros [-> | [-> | ->]] H Hf; simpl in H.
  - destruct (_ || _); [discriminate|].
    destruct (atoi _); [|discriminate].
    injection H as <- _. exact Hf.
  - destruct (getnum v true) as [[m w]|]; [|discriminate].
    destruct (_ || _); [discriminate|].
    injection H as <- _. exact Hf.
  - destruct (getnum v true) as [[m w]|]; [|discriminate].
    injection H as <- _. exact Hf.
Qed.

Lemma parse_date_clock (f : Fields) (v : string) :
  parseChunks (chunks "2006-01-02") fields0 v = Some f -> clockUnset f.
Proof.
  rewrite chunks_date. cbn [parseChunks].
  assert (H0 : clockUnset fields0) by (repeat split).
  destruct (skip v "") as [v0|]; [|discriminate].
  destruct (parseStd stdLongYear fields0 v0) as [[f1 v1]|] eqn:E1; [|discriminate].
  destruct (skip v1 "-") as [v1'|]; [|discriminate].
  destruct (parseStd stdZeroMonth f1 v1') as [[f2 v2]|] eqn:E2; [|discriminate].
  destruct (skip v2 "-") as [v2'|]; [|discriminate].
  destruct (parseStd stdZeroDay f2 v2') as [[f3 v3]|] eqn:E3; [|discriminate].
  destruct (skip v3 "") as [v3'|]; [|discriminate].
  destruct v3'; [|discriminate].
  intros H. injection H as <-.
  eapply parseStd_date_keeps_clock; [| exact E3 |]; [tauto|].
  eapply parseStd_date_keeps_clock; [| exact E2 |]; [tauto|].
  eapply parseStd_date_keeps_clock; [| exact E1 |]; [tauto|].
  exact H0.
Qed.

(** [Date] at midnight in UTC is a whole number of days. *)
Lemma Date_midnight_UTC (y m d : Z) :
  exists k, GoTime.Date localZone y m d 0 0 0 0 UTC = mkTime (k * secondsPerDay) 0 UTC.
Proof.
  unfold GoTime.Date, norm.
  change (0 mod 1000000000) with 0. change (0 / 1000000000) with 0.
  cbn [lookup zoffset]. change (0 =? 0) with true. cbv iota.
  change ((0 + (0 + 0) / 60) mod 24 * 3600 + (0 + 0) mod 60 * 60 + 0) with 0.
  eexists. f_equal.
  rewrite Z.add_0_r, Z.sub_add. reflexivity.
Qed.

Lemma parse_date_midnight (fresh : nat) (v : string) (t : Time) :
  Parse localZone fresh "2006-01-02" v = Some t ->
  loc t = UTC /\ exists k, sec t = k * secondsPerDay.
Proof.
  unfold Parse.
  destruct (parseChunks (chunks "2006-01-02") fields0 v) as [f|] eqn:E;
    [|discriminate].
  destruct (parse_date_clock f v E) as (Hh & Hm & Hs & Hn & Hu & Hz).
  rewrite Hh, Hm, Hs, Hn, Hu, Hz.
  destruct (_ || _); [discriminate|].
  change (negb (-1 =? -1)) with false. cbv iota.
  destruct (Date_midnight_UTC (f_year f) (f_month f) (f_day f)) as [k Hk].
  rewrite Hk. intros H. injection H as <-. split; [reflexivity|].
  exists k. reflexivity.
Qed.

Lemma midnight_clock (t : Time) :
  loc t = UTC -> (exists k, sec t = k * secondsPerDay) ->
  Format localZone t "15:04" = "00:00".
Proof.
  intros Hl [k Hk]. rewrite Format_clock.
  unfold Hour, Minute, abs. rewrite Hl. cbn [lookup zoffset].
  rewrite Hk, Z.add_0_r, Z.mod_mul by (unfold secondsPerDay; lia).
  reflexivity.
Qed.

End InstantFacts.

Section InstantTheorems.

Lemma normalize_start_unparsed (localZone : Z -> Zone) (fresh : nat)
    (item : calendar.Event) :
  parseDay localZone fresh (startDateFrom item) = None ->
  let n := normalize localZone fresh item in
  Start (n_ev n) = zeroTime /\ n_day n = zeroTime /\
  n_startDate n = startDateFrom item.
Proof.
  intros H. unfold normalize. rewrite H.
  destruct (parseDay localZone (S fresh) (endDateFrom item));
    repeat split; reflexivity.
Qed.

Lemma normalize_end_unparsed (localZone : Z -> Zone) (fresh : nat)
    (item : calendar.Event) :
  parseDay localZone (S fresh) (endDateFrom item) = None ->
  let n := normalize localZone fresh item in
  End (n_ev n) = zeroTime /\ n_endDate n = endDateFrom item.
Proof.
  intros H. unfold normalize. rewrite H.
  destruct (parseDay localZone fresh (startDateFrom item));
    repeat split; reflexivity.
Qed.

(** C7.  [parseDay] tries the date-only layout first and the full
    timestamp layout second and returns what the first successful one
    gives; when neither parses it returns nil, and [main] then leaves the
    instant of the event at the zero value (and prints the raw text). *)
Theorem parseDay_date_then_timestamp (localZone : Z -> Zone) (fresh : nat)
    (d : string) :
  (forall t, Parse localZone fresh "2006-01-02" d = Some t ->
             parseDay localZone fresh d = Some t) /\
  (Parse localZone fresh "2006-01-02" d = None ->
   parseDay localZone fresh d = Parse localZone fresh RFC3339 d) /\
  (Parse localZone fresh "2006-01-02" d = None ->
   Parse localZone fresh RFC3339 d = None ->
   parseDay localZone fresh d = None) /\
  (forall item k,
     startDateFrom item = d -> parseDay localZone k d = None ->
     Start (n_ev (normalize localZone k item)) = zeroTime /\
     n_startDate (normalize localZone k item) = d) /\
  (forall item k,
     endDateFrom item = d -> parseDay localZone (S k) d = None ->
     End (n_ev (normalize localZone k item)) = zeroTime /\
     n_endDate (normalize localZone k item) = d).
Proof.
  unfold parseDay. cbn [parseDay_loop].
  split; [|split; [|split; [|split]]].
  - intros t H. rewrite H. reflexivity.
  - intros H. rewrite H.
    destruct (Parse localZone fresh RFC3339 d); reflexivity.
  - intros H1 H2. rewrite H1, H2. reflexivity.
  - intros item k <- H.
    destruct (normalize_start_unparsed localZone k item H) as (H1 & _ & H3).
    split; assumption.
  - intros item k <- H.
    exact (normalize_end_unparsed localZone k item H).
Qed.

Lemma parseDay_date_then_timestamp_witness :
  parseDay westZone 0 "2021-03-01" = Some (mkTime 63750153600 0 UTC) /\
  parseDay westZone 0 "2021-03-01T10:00:00-05:00"
  = Some (mkTime 63750207600 0 Local) /\
  parseDay westZone 0 "next week" = None.
Proof.
  split; [|split].
  - apply (parseDay_date_then_timestamp westZone 0 "2021-03-01"). reflexivity.
  - destruct (parseDay_date_then_timestamp westZone 0
                "2021-03-01T10:00:00-05:00") as (_ & H & _).
    rewrite H; reflexivity.
  - apply (parseDay_date_then_timestamp westZone 0 "next week"); reflexivity.
Defined.

Lemma summary_loop_lines (localZone : Z -> Zone) (c : list Event) :
  forall prev,
  Forall (fun l => l = separator \/
                   exists i, In i c /\
                     l = Format localZone (Start i) "2006-01-02 15:04" +++ "-"
                         +++ Format localZone (End i) "15:04")
         (summary_loop localZone prev c).
Proof.
  induction c as [|i c IH]; intros prev; simpl.
  - constructor.
  - assert (Hw : forall p,
      Forall (fun l => l = separator \/
                exists i0, (i = i0 \/ In i0 c) /\
                  l = Format localZone (Start i0) "2006-01-02 15:04" +++ "-"
                      +++ Format localZone (End i0) "15:04")
             (summary_loop localZone p c)).
    { intros p. eapply Forall_impl; [|apply IH].
      intros l [H | (i0 & Hin & H)]; [left; exact H|].
      right. exists i0. split; [right; exact Hin | exact H]. }
    destruct (negb (Time_eqb _ _)).
    + constructor; [left; reflexivity|].
      constructor; [|apply Hw].
      right. exists i. split; [left; reflexivity | reflexivity].
    + constructor; [|apply Hw].
      right. exists i. split; [left; reflexivity | reflexivity].
Qed.

(** C9, as the code has it.  The start of an event is always rendered
    with the layout "2006-01-02 15:04" (date and time of day) and its end
    with the layout "15:04" (time of day), whether the raw value carried a
    time component or not; a value that does not parse is printed as it
    is.  The same two layouts render the collapsed intervals.  A value
    that the date-only layout parses is midnight UTC: its end reads
    "00:00" and its start is the date followed by " 00:00". *)
Theorem rendering_layouts_fixed (localZone : Z -> Zone) (fresh : nat)
    (item : calendar.Event) :
  n_startDate (normalize localZone fresh item)
  = match parseDay localZone fresh (startDateFrom item) with
    | Some d => Format localZone d "2006-01-02 15:04"
    | None => startDateFrom item
    end /\
  n_endDate (normalize localZone fresh item)
  = match parseDay localZone (S fresh) (endDateFrom item) with
    | Some d => Format localZone d "15:04"
    | None => endDateFrom item
    end /\
  (forall prev c,
     Forall (fun l => l = separator \/
                      exists i, In i c /\
                        l = Format localZone (Start i) "2006-01-02 15:04"
                            +++ "-" +++ Format localZone (End i) "15:04")
            (summary_loop localZone prev c)) /\
  (forall k v t,
     Parse localZone k "2006-01-02" v = Some t ->
     parseDay localZone k v = Some t /\
     Format localZone t "15:04" = "00:00" /\
     Format localZone t "2006-01-02 15:04"
     = Format localZone t "2006-01-02" +++ " 00:00").
Proof.
  split; [|split; [|split]].
  - unfold normalize.
    destruct (parseDay localZone fresh (startDateFrom item));
      destruct (parseDay localZone (S fresh) (endDateFrom item)); reflexivity.
  - unfold normalize.
    destruct (parseDay localZone fresh (startDateFrom item));
      destruct (parseDay localZone (S fresh) (endDateFrom item)); reflexivity.
  - intros prev c. apply summary_loop_lines.
  - intros k v t H.
    destruct (parse_date_midnight localZone k v t H) as [Hl Hk].
    pose proof (midnight_clock localZone t Hl Hk) as Hc.
    split; [|split].
    + unfold parseDay. cbn [parseDay_loop]. rewrite H. reflexivity.
    + exact Hc.
    + rewrite Format_dateTime, Hc. reflexivity.
Qed.

Lemma rendering_layouts_fixed_witness :
  Format westZone (mkTime 63750153600 0 UTC) "15:04" = "00:00" /\
  n_startDate (normalize westZone 0 holiday) = "2021-03-01 00:00".
Proof.
  destruct (rendering_layouts_fixed westZone 0 holiday) as (H1 & _ & _ & H4).
  split.
  - apply (H4 0%nat "2021-03-01"). reflexivity.
  - rewrite H1. reflexivity.
Defined.

(** C9 does not hold as stated: the all-day event [holiday], whose start
    and end are the dates 2021-03-01 and 2021-03-02, is not rendered with
    dates but with the clock of midnight. *)
Lemma all_day_rendered_with_clock :
  calendar.DateTime (calendar.Start holiday) = "" /\
  calendar.DateTime (calendar.End holiday) = "" /\
  startDateFrom holiday = "2021-03-01" /\
  endDateFrom holiday = "2021-03-02" /\
  n_startDate (normalize westZone 0 holiday) = "2021-03-01 00:00" /\
  n_endDate (normalize westZone 0 holiday) = "00:00" /\
  n_startDate (normalize westZone 0 holiday) <> "2021-03-01" /\
  n_endDate (normalize westZone 0 holiday) <> "2021-03-02" /\
  main westZone false morning morning [holiday]
  = [separator;
     "2021-03-01 00:00-00:00 Holiday                                  "
     +++ "https://zoom.example/j/7 (meeting:7 pass:pw)"] /\
  main westZone true morning morning [holiday]
  = [separator; "2021-03-01 00:00-00:00"].
Proof.
  repeat split; try reflexivity; vm_compute; discriminate.
Qed.

End InstantTheorems.

(** ** URL resolution *)

Section UrlFacts.

Lemma findUrl_FindString_eq (s : string) :
  findUrl_FindString s
  = match matchUrlAt s with
    | Some m => m
    | None => match s with
              | String _ s' => findUrl_FindString s'
              | EmptyString => ""
              end
    end.
Proof. destruct s; reflexivity. Qed.

Lemma prefix_split (p s : string) :
  prefix p s = true -> s = p +++ sdrop (String.length p) s.
Proof.
  revert s. induction p as [|a p IH]; intros s H.
  - reflexivity.
  - destruct s as [|b s]; [discriminate|].
    simpl in H. destruct (ascii_dec a b) as [<-|]; [|discriminate].
    simpl. f_equal. apply IH. exact H.
Qed.

Lemma span_rest (s : string) :
  exists rest, s = spanNonSpace s +++ rest /\ spaceLed rest.
Proof.
  induction s as [|c s (rest & IH & Hr)].
  - exists "". split; [reflexivity | left; reflexivity].
  - simpl. destruct (isSpace c) eqn:E.
    + exists (String c s). split; [reflexivity|]. right. eauto.
    + exists rest. split; [simpl; f_equal; exact IH | exact Hr].
Qed.

Lemma span_nonspace (s : string) :
  Forall (fun c => isSpace c = false) (bytes (spanNonSpace s)).
Proof.
  induction s as [|c s IH]; simpl.
  - constructor.
  - destruct (isSpace c) eqn:E; simpl; constructor; assumption.
Qed.

Lemma span_app (run post : string) :
  Forall (fun c => isSpace c = false) (bytes run) -> spaceLed post ->
  spanNonSpace (run +++ post) = run.
Proof.
  intros Hrun Hpost. induction run as [|c run IH]; simpl.
  - destruct Hpost as [-> | (c & s' & -> & Hc)]; simpl.
    + reflexivity.
    + rewrite Hc. reflexivity.
  - simpl in Hrun. inversion Hrun as [|? ? Hc Hrest]; subst.
    rewrite Hc. f_equal. apply IH. exact Hrest.
Qed.

(** Where a token begins, whether it ends there or not, the pattern
    matches. *)
Lemma span_app_nonempty (run post : string) :
  run <> "" -> Forall (fun c => isSpace c = false) (bytes run) ->
  spanNonSpace (run +++ post) <> "".
Proof.
  intros Hne Hrun. destruct run as [|c run]; [contradiction|].
  simpl in Hrun. inversion Hrun as [|? ? Hc Hrest]; subst.
  simpl. rewrite Hc. discriminate.
Qed.

Lemma matchUrlAt_scheme (scheme rest : string) :
  scheme = "http://" \/ scheme = "https://" ->
  matchUrlAt (scheme +++ rest)
  = match spanNonSpace rest with
    | EmptyString => None
    | run => Some (scheme +++ run)
    end.
Proof.
  assert (Hnil : prefix "" rest = true) by (destruct rest; reflexivity).
  intros [-> | ->]; unfold matchUrlAt; simpl; rewrite Hnil; reflexivity.
Qed.

Lemma matchUrlAt_front (tok post : string) :
  isUrlToken tok -> matchUrlAt (tok +++ post) <> None.
Proof.
  intros (scheme & run & Hs & -> & Hne & Hrun).
  rewrite sapp_assoc, matchUrlAt_scheme by exact Hs.
  pose proof (span_app_nonempty run post Hne Hrun) as Hspan.
  destruct (spanNonSpace (run +++ post)); [contradiction | discriminate].
Qed.

Lemma matchUrlAt_complete (tok post : string) :
  isUrlToken tok -> spaceLed post -> matchUrlAt (tok +++ post) = Some tok.
Proof.
  intros (scheme & run & Hs & -> & Hne & Hrun) Hpost.
  rewrite sapp_assoc, matchUrlAt_scheme by exact Hs.
  rewrite span_app by assumption.
  destruct run; [contradiction | reflexivity].
Qed.

Lemma matchUrlAt_sound (s m : string) :
  matchUrlAt s = Some m ->
  isUrlToken m /\ exists post, s = m +++ post /\ spaceLed post.
Proof.
  unfold matchUrlAt.
  destruct (prefix "https://" s) eqn:P1.
  - apply prefix_split in P1. simpl String.length in P1.
    destruct (span_rest (sdrop 8 s)) as (rest & Hrest & Hled).
    pose proof (span_nonspace (sdrop 8 s)) as Hns.
    destruct (spanNonSpace (sdrop 8 s)) as [|c run] eqn:E; [discriminate|].
    intros H. injection H as <-. split.
    + exists "https://", (String c run).
      repeat split; [right; reflexivity | discriminate | exact Hns].
    + exists rest. split; [|exact Hled].
      etransitivity; [exact P1|]. rewrite Hrest. reflexivity.
  - destruct (prefix "http://" s) eqn:P2; [|discriminate].
    apply prefix_split in P2. simpl String.length in P2.
    destruct (span_rest (sdrop 7 s)) as (rest & Hrest & Hled).
    pose proof (span_nonspace (sdrop 7 s)) as Hns.
    destruct (spanNonSpace (sdrop 7 s)) as [|c run] eqn:E; [discriminate|].
    intros H. injection H as <-. split.
    + exists "http://", (String c run).
      repeat split; [left; reflexivity | discriminate | exact Hns].
    + exists rest. split; [|exact Hled].
      etransitivity; [exact P2|]. rewrite Hrest. reflexivity.
Qed.

Lemma token_nonempty (tok : string) : isUrlToken tok -> isEmpty tok = false.
Proof.
  intros (scheme & run & [-> | ->] & -> & _); reflexivity.
Qed.

Lemma hasUrlToken_nonempty : ~ hasUrlToken "".
Proof.
  intros (pre & tok & post & H & Htok).
  apply token_nonempty in Htok.
  destruct pre; [|discriminate]. destruct tok; discriminate.
Qed.

Lemma hasUrlToken_tail (c : ascii) (s : string) :
  hasUrlToken (String c s) -> matchUrlAt (String c s) = None -> hasUrlToken s.
Proof.
  intros (pre & tok & post & H & Htok) Hnone.
  destruct pre as [|c' pre].
  - exfalso. simpl in H. rewrite H in Hnone.
    exact (matchUrlAt_front tok post Htok Hnone).
  - simpl in H. injection H as _ H. exists pre, tok, post. split; assumption.
Qed.

(** What [FindString] returns is the first token. *)
Lemma FindString_first (s : string) :
  hasUrlToken s -> firstUrlToken s (findUrl_FindString s).
Proof.
  induction s as [|c s IH]; intros Has.
  - destruct (hasUrlToken_nonempty Has).
  - rewrite findUrl_FindString_eq.
    destruct (matchUrlAt (String c s)) as [m|] eqn:E.
    + destruct (matchUrlAt_sound _ _ E) as (Htok & post & Hs & Hled).
      exists "", post. repeat split.
      * exact Hs.
      * exact Htok.
      * exact Hled.
      * intros. apply Nat.le_0_l.
    + destruct (IH (hasUrlToken_tail c s Has E))
        as (pre & post & Hs & Htok & Hled & Hleft).
      exists (String c pre), post. repeat split.
      * simpl. f_equal. exact Hs.
      * exact Htok.
      * exact Hled.
      * intros pre' tok' post' Hs' Htok'.
        destruct pre' as [|c' pre'].
        -- exfalso. simpl in Hs'. rewrite Hs' in E.
           exact (matchUrlAt_front tok' post' Htok' E).
        -- simpl in Hs'. injection Hs' as _ Hs'.
           simpl. apply le_n_S. exact (Hleft pre' tok' post' Hs' Htok').
Qed.

(** The first token is unique, so [FindString] returns it whichever way
    it is described. *)
Lemma FindString_is (s tok : string) :
  firstUrlToken s tok -> findUrl_FindString s = tok.
Proof.
  intros (pre & post & Hs & Htok & Hled & Hleft).
  revert s Hs Hleft. induction pre as [|c pre IH]; intros s Hs Hleft.
  - simpl in Hs. subst s. rewrite findUrl_FindString_eq.
    rewrite matchUrlAt_complete by assumption. reflexivity.
  - simpl in Hs. subst s. rewrite findUrl_FindString_eq.
    destruct (matchUrlAt (String c (pre +++ tok +++ post))) as [m|] eqn:E.
    + exfalso. destruct (matchUrlAt_sound _ _ E) as (Hm & post' & Hs' & _).
      specialize (Hleft "" m post' Hs' Hm). simpl in Hleft. lia.
    + apply IH; [reflexivity|].
      intros pre' tok' post' Hs' Htok'.
      specialize (Hleft (String c pre') tok' post').
      simpl in Hleft. rewrite Hs' in Hleft.
      specialize (Hleft eq_refl Htok'). lia.
Qed.

Lemma FindString_none (s : string) :
  ~ hasUrlToken s -> findUrl_FindString s = "".
Proof.
  induction s as [|c s IH]; intros Hno.
  - reflexivity.
  - rewrite findUrl_FindString_eq.
    destruct (matchUrlAt (String c s)) as [m|] eqn:E.
    + exfalso. apply Hno.
      destruct (matchUrlAt_sound _ _ E) as (Hm & post & Hs & _).
      exists "", m, post. split; assumption.
    + apply IH. intros (pre & tok & post & Hs & Htok). apply Hno.
      exists (String c pre), tok, post. split; [|exact Htok].
      simpl. f_equal. exact Hs.
Qed.

Lemma zoomFrom_loop_first (eps : list calendar.EntryPoint) :
  zoomFrom_loop eps
  = match firstWithCode eps with
    | Some ep => zoomText ep
    | None => ""
    end.
Proof.
  induction eps as [|ep eps IH]; simpl.
  - reflexivity.
  - destruct (negb (isEmpty (calendar.MeetingCode ep))); [reflexivity | exact IH].
Qed.

Lemma zoomFrom_first (event : calendar.Event) :
  zoomFrom (calendar.Conference event)
  = match firstWithCode (entryPointsOf event) with
    | Some ep => zoomText ep
    | None => ""
    end.
Proof.
  unfold zoomFrom, entryPointsOf.
  destruct (calendar.Conference event); [apply zoomFrom_loop_first | reflexivity].
Qed.

Lemma zoomText_nonempty (ep : calendar.EntryPoint) :
  isEmpty (zoomText ep) = false.
Proof.
  unfold zoomText. destruct (calendar.Uri ep); reflexivity.
Qed.

End UrlFacts.

Section UrlTheorems.

(** C6.  [urlFrom] resolves the URL of an event in this order: when the
    location holds a URL token (http:// or https:// and then at least one
    non-space byte), the first such token, taken up to the next space;
    otherwise, when conference data is present and an entry point has a
    non-empty meeting code, the first such entry point as
    "<uri> (meeting:<code> pass:<password>)"; otherwise the location text
    as it is. *)
Theorem url_resolution_precedence (event : calendar.Event) :
  (hasUrlToken (calendar.Location event) ->
   firstUrlToken (calendar.Location event) (urlFrom event)) /\
  (forall tok, firstUrlToken (calendar.Location event) tok ->
               urlFrom event = tok) /\
  (~ hasUrlToken (calendar.Location event) ->
   forall c ep,
     calendar.Conference event = Some c ->
     firstWithCode (calendar.EntryPoints c) = Some ep ->
     urlFrom event
     = calendar.Uri ep +++ " (meeting:" +++ calendar.MeetingCode ep
       +++ " pass:" +++ calendar.Password ep +++ ")") /\
  (~ hasUrlToken (calendar.Location event) ->
   (calendar.Conference event = None \/
    exists c, calendar.Conference event = Some c /\
              firstWithCode (calendar.EntryPoints c) = None) ->
   urlFrom event = calendar.Location event).
Proof.
  assert (Htok : forall tok, firstUrlToken (calendar.Location event) tok ->
                             urlFrom event = tok).
  { intros tok Hf. unfold urlFrom. rewrite (FindString_is _ _ Hf).
    destruct Hf as (_ & _ & _ & Ht & _).
    rewrite (token_nonempty tok Ht). cbv iota.
    rewrite (token_nonempty tok Ht). reflexivity. }
  split; [|split; [|split]].
  - intros Has. pose proof (FindString_first _ Has) as Hf.
    rewrite (Htok _ Hf). exact Hf.
  - exact Htok.
  - intros Hno c ep Hc Hep. unfold urlFrom.
    rewrite (FindString_none _ Hno).
    change (isEmpty "") with true. cbv iota.
    rewrite zoomFrom_first. unfold entryPointsOf. rewrite Hc, Hep.
    rewrite zoomText_nonempty. reflexivity.
  - intros Hno Hconf. unfold urlFrom.
    rewrite (FindString_none _ Hno).
    change (isEmpty "") with true. cbv iota.
    rewrite zoomFrom_first. unfold entryPointsOf.
    destruct Hconf as [-> | (c & -> & ->)]; reflexivity.
Qed.

End UrlTheorems.

(** ** Detail lines *)

Section DetailFacts.

Variable localZone : Z -> Zone.

Lemma detailLine_annotated (s e : string) (item : calendar.Event)
    (status : string) :
  status <> "" -> status <> "accepted" ->
  detailLine s e item status
  = detailBase s e (calendar.Summary item) (urlFrom item)
    +++ annotation status (calendar.HtmlLink item).
Proof.
  intros H1 H2. unfold detailLine, detailBase, annotation, isEmpty.
  apply String.eqb_neq in H1, H2. rewrite H1, H2. cbn [negb andb].
  rewrite !sapp_assoc. reflexivity.
Qed.

Lemma detailLine_plain (s e : string) (item : calendar.Event)
    (status : string) :
  status = "" \/ status = "accepted" ->
  detailLine s e item status
  = detailBase s e (calendar.Summary item) (urlFrom item).
Proof.
  intros H. unfold detailLine, detailBase, isEmpty.
  assert (Hc : negb (String.eqb status "")
               && negb (String.eqb status "accepted") = false).
  { destruct H as [-> | ->]; reflexivity. }
  rewrite Hc, sapp_nil_r. reflexivity.
Qed.

(** Every line that the loop prints is a separator or the detail line of
    an event that the filter keeps. *)
Lemma main_loop_lines (P : string -> Prop) (items0 : list calendar.Event) :
  P separator ->
  (forall item fresh,
     In item items0 -> excluded item = false ->
     P (detailLine (n_startDate (normalize localZone fresh item))
          (n_endDate (normalize localZone fresh item)) item
          (rspStatusFrom item))) ->
  forall items st,
    incl items items0 -> Forall P (printed st) ->
    Forall P (printed (fold_left (main_step localZone false) items st)).
Proof.
  intros Hsep Hline items.
  induction items as [|item items IH]; intros st Hincl Hst; simpl.
  - exact Hst.
  - apply IH.
    + intros x Hx. apply Hincl. right. exact Hx.
    + destruct (excluded item) eqn:E.
      * rewrite main_step_excluded by exact E. exact Hst.
      * destruct (main_step_kept_detail localZone st item E)
          as (_ & _ & sep & Hs & ->).
        apply Forall_app. split; [exact Hst|].
        apply Forall_app. split.
        -- destruct Hs as [-> | ->]; repeat constructor. exact Hsep.
        -- constructor; [|constructor].
           apply Hline; [|exact E]. apply Hincl. left. reflexivity.
Qed.

End DetailFacts.

Section DetailTheorems.

(** C8, as the code has it.  In detail mode every printed line is a
    separator or, for an event [item] that the filter keeps, the line
    "<start>-<end> <summary> <url>" in which the summary is followed by
    spaces up to a width of 40 (left-justified, padded on the right); the
    annotation " [<status>: <weblink>]" follows exactly when the response
    status is not empty and is not "accepted". *)
Theorem detail_line_form (localZone : Z -> Zone) (now1 now2 : Time)
    (items : list calendar.Event) :
  items <> [] ->
  Forall (fun l => l = separator \/ isDetailLine localZone items l)
         (main localZone false now1 now2 items).
Proof.
  intros Hne. destruct items as [|i0 tl]; [contradiction|].
  unfold main. set (items := i0 :: tl).
  apply (main_loop_lines localZone _ items).
  - left. reflexivity.
  - intros item fresh Hin Hkept. right. exists item, fresh.
    split; [exact Hin|]. split; [exact Hkept|]. cbv zeta.
    destruct (string_dec (rspStatusFrom item) "") as [He | He].
    { right. split; [left; exact He|]. apply detailLine_plain. left. exact He. }
    destruct (string_dec (rspStatusFrom item) "accepted") as [Ha | Ha].
    { right. split; [right; exact Ha|]. apply detailLine_plain. right. exact Ha. }
    left. split; [exact He|]. split; [exact Ha|].
    apply detailLine_annotated; assumption.
  - apply incl_refl.
  - constructor.
Qed.

Lemma detail_line_form_witness :
  [standup] <> [] /\
  Forall (fun l => l = separator \/ isDetailLine westZone [standup] l)
         (main westZone false morning morning [standup]).
Proof.
  split; [discriminate|].
  apply (detail_line_form westZone morning morning [standup]). discriminate.
Defined.

(** C8 does not hold as stated: the line of [standup] has its summary
    followed by the padding, not preceded by it. *)
Lemma detail_line_not_left_padded :
  exists n,
    n = normalize westZone 0 standup /\
    main westZone false morning morning [standup]
    = [detailBase (n_startDate n) (n_endDate n) "Standup"
         "https://meet.example/abc"
       +++ annotation "tentative" "https://cal.example/1"] /\
    main westZone false morning morning [standup]
    <> [detailBaseLeftPadded (n_startDate n) (n_endDate n) "Standup"
          "https://meet.example/abc"
        +++ annotation "tentative" "https://cal.example/1"] /\
    detailBase (n_startDate n) (n_endDate n) "Standup" "https://meet.example/abc"
    = "2021-03-01 10:00-10:30 Standup" +++ spaces 33
      +++ " https://meet.example/abc" /\
    detailBaseLeftPadded (n_startDate n) (n_endDate n) "Standup"
      "https://meet.example/abc"
    = "2021-03-01 10:00-10:30 " +++ spaces 33 +++ "Standup"
      +++ " https://meet.example/abc".
Proof.
  eexists. split; [reflexivity|].
  split; [reflexivity|]. split; [vm_compute; discriminate|].
  split; reflexivity.
Qed.

End DetailTheorems.

Section UrlWitness.

Lemma url_resolution_precedence_witness :
  firstUrlToken (calendar.Location standup) "https://meet.example/abc" /\
  urlFrom holiday = "https://zoom.example/j/7 (meeting:7 pass:pw)".
Proof.
  destruct (url_resolution_precedence standup) as (H1 & _).
  destruct (url_resolution_precedence holiday) as (_ & _ & H3 & _).
  split.
  - change (firstUrlToken (calendar.Location standup) (urlFrom standup)).
    apply H1.
    exists "room 4, ", "https://meet.example/abc", " see you".
    split; [reflexivity|].
    exists "https://", "meet.example/abc".
    split; [right; reflexivity|]. split; [reflexivity|].
    split; [discriminate|]. repeat constructor.
  - apply (H3 hasUrlToken_nonempty
             (calendar.mkConferenceData
                [calendar.mkEntryPoint "tel:+1-555-0100" "" "";
                 calendar.mkEntryPoint "https://zoom.example/j/7" "7" "pw"])
             (calendar.mkEntryPoint "https://zoom.example/j/7" "7" "pw"));
      reflexivity.
Defined.

(** The example of the specification: a URL in the location wins over the
    conference data. *)
Example url_precedence_example :
  urlFrom (calendar.mkEvent "Sync" "Join at https://meet.example/abc see you"
             "" "" (calendar.mkEventDateTime "" "") (calendar.mkEventDateTime "" "")
             [] (calendar.Conference holiday))
  = "https://meet.example/abc".
Proof. reflexivity. Qed.

End UrlWitness.

(** ** Further properties of the collapser *)

(** As [instants], after splitting the conjunctions of the context. *)
Ltac instants2 :=
  unfold within, wellFormed, startLt, endLt in *;
  repeat match goal with
  | H : _ && _ = true |- _ => apply andb_true_iff in H; destruct H
  end;
  instants.

Section CollapseMore.

Lemma collapse_loop_length (ev : Event) (rest : list Event) :
  (1 <= List.length (collapse_loop [] ev rest) <= S (List.length rest))%nat.
Proof.
  revert ev. induction rest as [|i rest IH]; intros ev.
  - simpl. lia.
  - destruct (After (Start i) (End ev)) eqn:H1.
    + rewrite collapse_loop_push by exact H1.
      specialize (IH (mkEvent (Start i) (End i))). simpl. lia.
    + destruct (After (End i) (End ev)) eqn:H2.
      * rewrite collapse_loop_extend by assumption.
        specialize (IH (mkEvent (Start ev) (End i))). simpl. lia.
      * rewrite collapse_loop_drop by assumption.
        specialize (IH ev). simpl. lia.
Qed.

Lemma collapse_le_length (xs : list Event) :
  (List.length (collapse xs) <= List.length xs)%nat.
Proof.
  destruct xs as [|i0 tl]; [apply Nat.le_refl|].
  unfold collapse.
  pose proof (collapse_loop_length (mkEvent (Start i0) (End i0)) tl) as H.
  simpl. lia.
Qed.

(** X1.  [collapse] never yields more intervals than it is given, and yields
    none only for the empty input. *)
Theorem collapse_length (xs : list Event) :
  (List.length (collapse xs) <= List.length xs)%nat /\
  (collapse xs = [] <-> xs = []).
Proof.
  destruct xs as [|i0 tl].
  - split; [apply Nat.le_refl | tauto].
  - unfold collapse.
    pose proof (collapse_loop_length (mkEvent (Start i0) (End i0)) tl) as H.
    split; [simpl; lia|].
    split; [|discriminate].
    intros E. rewrite E in H. simpl in H. lia.
Qed.

(** X2.  The fixed points of [collapse] are exactly the separated lists: a list
    is returned as it is if and only if each of its intervals starts
    strictly after the one before it ends. *)
Theorem collapse_fixed_iff_separated (xs : list Event) :
  collapse xs = xs <-> separated xs = true.
Proof.
  destruct xs as [|i0 tl]; [split; reflexivity|].
  unfold collapse. rewrite Event_eta. split.
  - intros E. rewrite <- E at 1. apply collapse_loop_separated.
  - apply collapse_loop_fixed.
Qed.

Lemma collapse_loop_within (ev : Event) (rest : list Event) (x : Event) :
  sortedByStart (ev :: rest) = true ->
  within x ev = true \/ In x rest ->
  exists o, In o (collapse_loop [] ev rest) /\ within x o = true.
Proof.
  revert ev. induction rest as [|i rest IH]; intros ev Hs Hx.
  - destruct Hx as [Hx | []]. exists ev. split; [left; reflexivity | exact Hx].
  - assert (Hei : startLe ev i = true).
    { unfold sortedByStart in Hs. rewrite chain_cons2, andb_true_iff in Hs.
      tauto. }
    assert (Hii : within i i = true).
    { instants2. lia. }
    destruct (After (Start i) (End ev)) eqn:H1.
    + rewrite collapse_loop_push by exact H1.
      destruct Hx as [Hx | [<- | Hx]].
      * exists ev. split; [left; reflexivity | exact Hx].
      * destruct (IH (mkEvent (Start i) (End i))) as (o & Ho & Hw).
        -- rewrite Event_eta. exact (chain_tail _ _ _ Hs).
        -- left. rewrite Event_eta. exact Hii.
        -- exists o. split; [right; exact Ho | exact Hw].
      * destruct (IH (mkEvent (Start i) (End i))) as (o & Ho & Hw).
        -- rewrite Event_eta. exact (chain_tail _ _ _ Hs).
        -- right. exact Hx.
        -- exists o. split; [right; exact Ho | exact Hw].
    + destruct (After (End i) (End ev)) eqn:H2.
      * rewrite collapse_loop_extend by assumption.
        apply IH.
        -- apply (sorted_same_start ev); [reflexivity|].
           exact (sorted_skip _ _ _ Hs).
        -- destruct Hx as [Hx | [<- | Hx]].
           ++ left. instants2. lia.
           ++ left. instants2. lia.
           ++ right. exact Hx.
      * rewrite collapse_loop_drop by assumption.
        apply IH.
        -- exact (sorted_skip _ _ _ Hs).
        -- destruct Hx as [Hx | [<- | Hx]].
           ++ left. exact Hx.
           ++ left. instants2. lia.
           ++ right. exact Hx.
Qed.

(** X3.  No interval is lost: for an input ascending by start, every input
    interval lies inside one interval of the output. *)
Theorem collapse_keeps_every_interval (xs : list Event) (x : Event) :
  sortedByStart xs = true -> In x xs ->
  exists o, In o (collapse xs) /\ within x o = true.
Proof.
  destruct xs as [|i0 tl]; intros Hs Hin; [destruct Hin|].
  unfold collapse. rewrite Event_eta.
  apply collapse_loop_within; [exact Hs|].
  destruct Hin as [<- | Hin]; [left | right; exact Hin].
  instants2. lia.
Qed.

Lemma collapse_keeps_every_interval_witness :
  exists o, In o (collapse sample) /\ within (mkEvent at1030 at1100) o = true.
Proof.
  apply (collapse_keeps_every_interval sample (mkEvent at1030 at1100)).
  - reflexivity.
  - right. left. reflexivity.
Defined.

Lemma collapse_loop_wellFormed (ev : Event) (rest : list Event) :
  wellFormed ev = true -> forallb wellFormed rest = true ->
  forallb wellFormed (collapse_loop [] ev rest) = true.
Proof.
  revert ev. induction rest as [|i rest IH]; intros ev Hev Hrest.
  - simpl. rewrite Hev. reflexivity.
  - simpl in Hrest. apply andb_true_iff in Hrest. destruct Hrest as [Hi Hrest].
    destruct (After (Start i) (End ev)) eqn:H1.
    + rewrite collapse_loop_push by exact H1.
      simpl. rewrite Hev. apply IH; [|exact Hrest].
      rewrite Event_eta. exact Hi.
    + destruct (After (End i) (End ev)) eqn:H2.
      * rewrite collapse_loop_extend by assumption.
        apply IH; [|exact Hrest].
        instants2. lia.
      * rewrite collapse_loop_drop by assumption.
        apply IH; assumption.
Qed.

Lemma separated_wellFormed_ascending (l : list Event) :
  separated l = true -> forallb wellFormed l = true ->
  chain startLt l = true /\ chain endLt l = true.
Proof.
  induction l as [|a l IH]; intros Hsep Hwf; [split; reflexivity|].
  destruct l as [|b l]; [split; reflexivity|].
  unfold separated in Hsep. rewrite chain_cons2, andb_true_iff in Hsep.
  destruct Hsep as [Hab Hsep].
  simpl in Hwf. rewrite !andb_true_iff in Hwf. destruct Hwf as (Ha & Hb & Hl).
  destruct IH as [IH1 IH2]; [exact Hsep | simpl; rewrite Hb, Hl; reflexivity|].
  rewrite !chain_cons2, IH1, IH2, !andb_true_r.
  instants2. lia.
Qed.

(** X4.  When no input interval ends before it starts, no output interval does
    either, and the output is strictly ascending both by start and by end;
    the input need not be sorted for this. *)
Theorem collapse_wellFormed_ascending (xs : list Event) :
  forallb wellFormed xs = true ->
  forallb wellFormed (collapse xs) = true /\
  chain startLt (collapse xs) = true /\
  chain endLt (collapse xs) = true.
Proof.
  intros Hwf.
  assert (H1 : forallb wellFormed (collapse xs) = true).
  { destruct xs as [|i0 tl]; [reflexivity|].
    simpl in Hwf. apply andb_true_iff in Hwf. destruct Hwf as [H0 Htl].
    unfold collapse. rewrite Event_eta.
    apply collapse_loop_wellFormed; assumption. }
  split; [exact H1|].
  apply separated_wellFormed_ascending; [|exact H1].
  destruct xs as [|i0 tl]; [reflexivity|].
  apply collapse_loop_separated.
Qed.

Lemma collapse_wellFormed_ascending_witness :
  forallb wellFormed (collapse sample) = true /\
  chain startLt (collapse sample) = true /\
  chain endLt (collapse sample) = true.
Proof.
  apply (collapse_wellFormed_ascending sample). reflexivity.
Defined.

Lemma collapse_loop_app (ev : Event) (rest : list Event) (y0 : Event)
    (ys : list Event) :
  (forall e, In e (ev :: rest) -> After (Start y0) (End e) = true) ->
  collapse_loop [] ev (rest ++ y0 :: ys)
  = collapse_loop [] ev rest ++ collapse_loop [] y0 ys.
Proof.
  revert ev. induction rest as [|i rest IH]; intros ev Hgap.
  - simpl app. rewrite collapse_loop_push by (apply Hgap; left; reflexivity).
    rewrite Event_eta. reflexivity.
  - rewrite <- app_comm_cons.
    destruct (After (Start i) (End ev)) eqn:H1.
    + rewrite !collapse_loop_push by exact H1.
      rewrite IH; [reflexivity|].
      intros e [<- | He]; apply Hgap; right; [left | right]; auto.
      destruct i; reflexivity.
    + destruct (After (End i) (End ev)) eqn:H2.
      * rewrite !collapse_loop_extend by assumption.
        apply IH. intros e [<- | He].
        -- simpl. apply Hgap. right. left. reflexivity.
        -- apply Hgap. right. right. exact He.
      * rewrite !collapse_loop_drop by assumption.
        apply IH. intros e [<- | He].
        -- apply Hgap. left. reflexivity.
        -- apply Hgap. right. right. exact He.
Qed.

(** X5.  [collapse] works block by block: when the interval [y0] starts
    strictly after every interval of the non-empty list [xs] ends,
    collapsing [xs ++ y0 :: ys] is collapsing [xs] and [y0 :: ys] apart. *)
Theorem collapse_app_gap (xs : list Event) (y0 : Event) (ys : list Event) :
  xs <> [] ->
  (forall e, In e xs -> After (Start y0) (End e) = true) ->
  collapse (xs ++ y0 :: ys) = collapse xs ++ collapse (y0 :: ys).
Proof.
  intros Hne Hgap. destruct xs as [|i0 tl]; [contradiction|].
  unfold collapse. rewrite <- app_comm_cons, !Event_eta.
  apply collapse_loop_app. exact Hgap.
Qed.

Lemma collapse_app_gap_witness :
  collapse ([mkEvent at1000 at1030; mkEvent at1030 at1100]
            ++ mkEvent at1200 at1230 :: [])
  = collapse [mkEvent at1000 at1030; mkEvent at1030 at1100]
    ++ collapse [mkEvent at1200 at1230].
Proof.
  apply (collapse_app_gap [mkEvent at1000 at1030; mkEvent at1030 at1100]
           (mkEvent at1200 at1230) []).
  - discriminate.
  - intros e [<- | [<- | []]]; reflexivity.
Defined.

End CollapseMore.

(** ** Further properties of the field resolver *)

Section ResolverMore.

Lemma rspStatusFrom_loop_none (l : list calendar.EventAttendee) :
  forallb notSelf l = true -> rspStatusFrom_loop l = "".
Proof.
  induction l as [|a l IH]; simpl; intros H; [reflexivity|].
  apply andb_true_iff in H. destruct H as [Ha Hl].
  unfold notSelf in Ha. apply negb_true_iff in Ha. rewrite Ha. apply IH, Hl.
Qed.

Lemma rspStatusFrom_loop_first (pre : list calendar.EventAttendee)
    (a : calendar.EventAttendee) (post : list calendar.EventAttendee) :
  forallb notSelf pre = true -> calendar.Self a = true ->
  rspStatusFrom_loop (pre ++ a :: post) = calendar.ResponseStatus a.
Proof.
  induction pre as [|x pre IH]; simpl; intros Hpre Ha.
  - rewrite Ha. reflexivity.
  - apply andb_true_iff in Hpre. destruct Hpre as [Hx Hpre].
    unfold notSelf in Hx. apply negb_true_iff in Hx. rewrite Hx.
    apply IH; assumption.
Qed.

(** X6.  [rspStatusFrom] answers with the status of the first attendee marked
    as the user, whatever the attendees after it say; without such an
    attendee the status is empty, so that an event with no colour tag is
    kept even when every other attendee declined. *)
Theorem rspStatusFrom_first_self (event : calendar.Event) :
  (forall pre a post,
     calendar.Attendees event = pre ++ a :: post ->
     forallb notSelf pre = true -> calendar.Self a = true ->
     rspStatusFrom event = calendar.ResponseStatus a) /\
  (forallb notSelf (calendar.Attendees event) = true ->
   rspStatusFrom event = "" /\
   (calendar.ColorId event = "" -> excluded event = false)).
Proof.
  unfold rspStatusFrom. split.
  - intros pre a post -> Hpre Ha. apply rspStatusFrom_loop_first; assumption.
  - intros H. pose proof (rspStatusFrom_loop_none _ H) as E.
    split; [exact E|].
    intros Hc. unfold excluded, rspStatusFrom. rewrite E, Hc. reflexivity.
Qed.

Lemma rspStatusFrom_first_self_witness :
  rspStatusFrom standup = "tentative" /\ rspStatusFrom holiday = "".
Proof.
  destruct (rspStatusFrom_first_self standup) as [H1 _].
  destruct (rspStatusFrom_first_self holiday) as [_ H2].
  split.
  - apply (H1 [calendar.mkEventAttendee false "accepted"]
              (calendar.mkEventAttendee true "tentative") []); reflexivity.
  - apply H2. reflexivity.
Defined.

Lemma isEmpty_true (s : string) : isEmpty s = true <-> s = "".
Proof. unfold isEmpty. apply String.eqb_eq. Qed.

(** X7.  The URL column is blank only for an event that has nothing to show:
    [urlFrom] returns the empty string exactly when the location is empty
    and no entry point of the conference data carries a meeting code. *)
Theorem urlFrom_empty_iff (event : calendar.Event) :
  urlFrom event = "" <->
  calendar.Location event = "" /\ firstWithCode (entryPointsOf event) = None.
Proof.
  unfold urlFrom. rewrite zoomFrom_first.
  destruct (isEmpty (findUrl_FindString (calendar.Location event))) eqn:E1.
  - destruct (firstWithCode (entryPointsOf event)) as [ep|] eqn:E2.
    + rewrite zoomText_nonempty. split.
      * intros H. pose proof (zoomText_nonempty ep) as Hz.
        rewrite H in Hz. discriminate.
      * intros [_ H]. discriminate.
    + change (isEmpty "") with true. cbv iota. tauto.
  - cbv iota. rewrite E1. split.
    + intros H. rewrite H in E1. discriminate.
    + intros [H _]. rewrite H in E1. discriminate.
Qed.

End ResolverMore.

(** ** Further properties of [main] *)

Section MainMore.

Variable localZone : Z -> Zone.

Lemma bytes_app (a b : string) : bytes (a +++ b) = bytes a ++ bytes b.
Proof.
  unfold bytes. induction a as [|c a IH]; simpl; [reflexivity|].
  rewrite IH. reflexivity.
Qed.

Lemma space_not_separator (s : string) :
  In " "%char (bytes s) -> String.eqb s separator = false.
Proof.
  intros H. apply String.eqb_neq. intros ->.
  unfold separator, bytes in H. simpl in H.
  repeat (destruct H as [H | H]; [discriminate H|]). exact H.
Qed.

Lemma detailLine_not_separator (s e : string) (item : calendar.Event)
    (status : string) :
  String.eqb (detailLine s e item status) separator = false.
Proof.
  apply space_not_separator. unfold detailLine.
  rewrite !bytes_app. apply in_or_app. right.
  apply in_or_app. right. apply in_or_app. right.
  apply in_or_app. left. left. reflexivity.
Qed.

Lemma summaryLine_not_separator (i : Event) :
  String.eqb (Format localZone (Start i) "2006-01-02 15:04" +++ "-"
              +++ Format localZone (End i) "15:04") separator = false.
Proof.
  apply space_not_separator. rewrite Format_dateTime.
  rewrite !bytes_app. apply in_or_app. left.
  apply in_or_app. right. apply in_or_app. left. left. reflexivity.
Qed.

Lemma withoutSeparators_app (a b : list string) :
  withoutSeparators (a ++ b) = withoutSeparators a ++ withoutSeparators b.
Proof. apply filter_app. Qed.

Lemma main_loop_detail (items : list calendar.Event) (st : Loop) :
  withoutSeparators
    (printed (fold_left (main_step localZone false) items st))
  = withoutSeparators (printed st) ++ keptLines localZone (heap st) items.
Proof.
  revert st. induction items as [|item items IH]; intros st; simpl.
  - rewrite app_nil_r. reflexivity.
  - destruct (excluded item) eqn:E.
    + rewrite main_step_excluded by exact E. apply IH.
    + rewrite IH.
      destruct (main_step_kept_detail localZone st item E)
        as (_ & -> & sep & Hsep & ->).
      rewrite !withoutSeparators_app, <- app_assoc. f_equal.
      assert (Hs : withoutSeparators sep = []).
      { destruct Hsep as [-> | ->]; reflexivity. }
      rewrite Hs.
      assert (Hl : forall l, withoutSeparators
                     [detailLine (n_startDate (normalize localZone (heap st) item))
                        (n_endDate (normalize localZone (heap st) item)) item
                        (rspStatusFrom item)] ++ l
                   = detailLine (n_startDate (normalize localZone (heap st) item))
                        (n_endDate (normalize localZone (heap st) item)) item
                        (rspStatusFrom item) :: l).
      { intros l. unfold withoutSeparators. cbn [filter].
        rewrite detailLine_not_separator. reflexivity. }
      cbn [app]. rewrite Hl. reflexivity.
Qed.

Lemma main_loop_summary (items : list calendar.Event) (st : Loop) :
  printed (fold_left (main_step localZone true) items st) = printed st /\
  evs (fold_left (main_step localZone true) items st)
  = evs st ++ keptEvents localZone (heap st) items.
Proof.
  revert st. induction items as [|item items IH]; intros st; simpl.
  - rewrite app_nil_r. split; reflexivity.
  - destruct (excluded item) eqn:E.
    + rewrite main_step_excluded by exact E. apply IH.
    + rewrite (main_step_kept_summary localZone st item E).
      destruct (IH (mkLoop (prevDay st)
                      (evs st ++ [n_ev (normalize localZone (heap st) item)])
                      (printed st) (2 + heap st))) as [H1 H2].
      rewrite H1, H2. cbn [printed evs heap].
      rewrite <- app_assoc. split; reflexivity.
Qed.

Lemma keptLines_length (fresh : nat) (items : list calendar.Event) :
  List.length (keptLines localZone fresh items)
  = List.length (filter (fun i => negb (excluded i)) items).
Proof.
  revert fresh. induction items as [|item items IH]; intros fresh; simpl.
  - reflexivity.
  - destruct (excluded item); simpl; rewrite IH; reflexivity.
Qed.

Lemma keptEvents_length (fresh : nat) (items : list calendar.Event) :
  List.length (keptEvents localZone fresh items)
  = List.length (filter (fun i => negb (excluded i)) items).
Proof.
  revert fresh. induction items as [|item items IH]; intros fresh; simpl.
  - reflexivity.
  - destruct (excluded item); simpl; rewrite IH; reflexivity.
Qed.

Lemma summary_loop_withoutSeparators (c : list Event) (prev : Time) :
  List.length (withoutSeparators (summary_loop localZone prev c))
  = List.length c.
Proof.
  revert prev. induction c as [|i c IH]; intros prev.
  - reflexivity.
  - cbn [summary_loop].
    destruct (negb (Time_eqb _ _)); unfold withoutSeparators; cbn [filter];
      rewrite ?String.eqb_refl, summaryLine_not_separator;
      cbn [negb List.length]; fold (withoutSeparators
                                      (summary_loop localZone
                                         (truncDay localZone (Start i)) c));
      fold (withoutSeparators (summary_loop localZone prev c));
      rewrite IH; reflexivity.
Qed.

Lemma main_loop_detail_length (items : list calendar.Event) (st : Loop) :
  (List.length (printed (fold_left (main_step localZone false) items st))
   <= List.length (printed st)
      + 2 * List.length (filter (fun i => negb (excluded i)) items))%nat.
Proof.
  revert st. induction items as [|item items IH]; intros st; simpl.
  - lia.
  - destruct (excluded item) eqn:E; simpl.
    + rewrite main_step_excluded by exact E. apply IH.
    + specialize (IH (main_step localZone false st item)).
      destruct (main_step_kept_detail localZone st item E)
        as (_ & _ & sep & Hsep & Hp).
      rewrite Hp in IH. rewrite !length_app in IH.
      destruct Hsep as [-> | ->]; simpl in IH; lia.
Qed.

End MainMore.

Section MainMoreTheorems.

(** X8.  In detail mode the lines other than the day separators are the detail
    lines of the kept events, one for each and in the order of the events
    (no detail line can be taken for a separator); with the separators
    the program prints at most two lines for each kept event. *)
Theorem detail_mode_one_line_per_event (localZone : Z -> Zone)
    (now1 now2 : Time) (items : list calendar.Event) :
  items <> [] ->
  withoutSeparators (main localZone false now1 now2 items)
  = keptLines localZone 0 items /\
  List.length (withoutSeparators (main localZone false now1 now2 items))
  = List.length (filter (fun i => negb (excluded i)) items) /\
  (List.length (main localZone false now1 now2 items)
   <= 2 * List.length (filter (fun i => negb (excluded i)) items))%nat.
Proof.
  intros Hne. destruct items as [|i0 tl]; [contradiction|].
  unfold main. set (items := i0 :: tl).
  pose proof (main_loop_detail localZone items
                (mkLoop (truncDay localZone now1) [] [] 0)) as H.
  cbn [printed heap] in H. change (withoutSeparators []) with (@nil string) in H.
  rewrite app_nil_l in H.
  split; [exact H|]. split.
  - rewrite H. apply keptLines_length.
  - pose proof (main_loop_detail_length localZone items
                  (mkLoop (truncDay localZone now1) [] [] 0)) as HL.
    cbn [printed] in HL. simpl List.length in HL at 2. lia.
Qed.

Lemma detail_mode_one_line_per_event_witness :
  List.length
    (withoutSeparators
       (main westZone false morning morning [standup; declinedItem; holiday]))
  = 2%nat.
Proof.
  destruct (detail_mode_one_line_per_event westZone morning morning
              [standup; declinedItem; holiday]) as (_ & H & _).
  - discriminate.
  - rewrite H. reflexivity.
Defined.

(** X9.  In summary mode the loop over the events prints nothing: the output
    is the rendering of the collapsed intervals of the kept events, with
    one line other than a separator for each collapsed interval, which is
    at most one for each kept event. *)
Theorem summary_mode_lines (localZone : Z -> Zone) (now1 now2 : Time)
    (items : list calendar.Event) :
  items <> [] ->
  main localZone true now1 now2 items
  = summary_loop localZone (truncDay localZone now2)
      (collapse (keptEvents localZone 0 items)) /\
  List.length (withoutSeparators (main localZone true now1 now2 items))
  = List.length (collapse (keptEvents localZone 0 items)) /\
  (List.length (withoutSeparators (main localZone true now1 now2 items))
   <= List.length (filter (fun i => negb (excluded i)) items))%nat.
Proof.
  intros Hne. destruct items as [|i0 tl]; [contradiction|].
  unfold main. set (items := i0 :: tl).
  destruct (main_loop_summary localZone items
              (mkLoop (truncDay localZone now1) [] [] 0)) as [H1 H2].
  cbn [printed evs heap] in H1, H2. rewrite H1, H2. cbn [app].
  split; [reflexivity|].
  rewrite summary_loop_withoutSeparators.
  split; [reflexivity|].
  rewrite <- (keptEvents_length localZone 0 items).
  apply collapse_le_length.
Qed.

Lemma summary_mode_lines_witness :
  main westZone true morning morning [standup; declinedItem]
  = ["2021-03-01 10:00-10:30"].
Proof.
  destruct (summary_mode_lines westZone morning morning
              [standup; declinedItem]) as (H & _).
  - discriminate.
  - rewrite H. reflexivity.
Defined.

End MainMoreTheorems.

(** ** The two layouts of [parseDay] *)

Section LayoutFacts.

Variable localZone : Z -> Zone.

Lemma chunks_rfc3339 :
  chunks RFC3339
  = [("", Some stdLongYear); ("-", Some stdZeroMonth);
     ("-", Some stdZeroDay); ("T", Some stdHour);
     (":", Some stdZeroMinute); (":", Some stdZeroSecond);
     ("", Some stdISO8601ColonTZ); ("", None)].
Proof. reflexivity. Qed.

Lemma sdrop_length (n : nat) (s : string) :
  String.length (sdrop n s) = (String.length s - n)%nat.
Proof.
  revert s. induction n as [|n IH]; intros s; simpl.
  - lia.
  - destruct s as [|c s]; simpl; [reflexivity | apply IH].
Qed.

Lemma sdrop_sdrop (a b : nat) (s : string) :
  sdrop a (sdrop b s) = sdrop (b + a) s.
Proof.
  revert s. induction b as [|b IH]; intros s; simpl.
  - reflexivity.
  - destruct s as [|c s]; [destruct a; reflexivity | apply IH].
Qed.

Lemma sdrop_cons (n : nat) (s : string) (c : ascii) (r : string) :
  sdrop n s = String c r ->
  String.get n s = Some c /\ sdrop (S n) s = r /\ (n < String.length s)%nat.
Proof.
  revert s. induction n as [|n IH]; intros s H.
  - simpl in H. subst s. simpl. repeat split. lia.
  - destruct s as [|x s]; [discriminate|].
    simpl in H. destruct (IH s H) as (H1 & H2 & H3).
    simpl. repeat split; [exact H1 | exact H2 | lia].
Qed.

Lemma skip_empty (v : string) : skip v "" = Some v.
Proof. reflexivity. Qed.

Lemma skip_dash (v r : string) : skip v "-" = Some r -> v = String "-" r.
Proof.
  unfold skip. simpl. destruct v as [|c v]; [discriminate|].
  destruct (Ascii.eqb c "-") eqn:E; [|discriminate].
  apply Ascii.eqb_eq in E. subst c. intros H. injection H as <-. reflexivity.
Qed.

Lemma skip_T (v r : string) : skip v "T" = Some r -> v = String "T" r.
Proof.
  unfold skip. simpl. destruct v as [|c v]; [discriminate|].
  destruct (Ascii.eqb c "T") eqn:E; [|discriminate].
  apply Ascii.eqb_eq in E. subst c. intros H. injection H as <-. reflexivity.
Qed.

Lemma getnum_fixed (v : string) (n : Z) (r : string) :
  getnum v true = Some (n, r) ->
  exists c0 c1, v = String c0 (String c1 r) /\
                isDigitByte c0 = true /\ isDigitByte c1 = true.
Proof.
  unfold getnum. destruct v as [|c0 v]; [discriminate|].
  destruct (isDigitByte c0) eqn:E0; [|discriminate].
  destruct v as [|c1 v]; [discriminate|].
  destruct (isDigitByte c1) eqn:E1; [|discriminate].
  intros H. injection H as _ <-. exists c0, c1. repeat split; assumption.
Qed.

Lemma parseStd_year (f f' : Fields) (v r : string) :
  parseStd stdLongYear f v = Some (f', r) ->
  (4 <= String.length v)%nat /\ r = sdrop 4 v.
Proof.
  simpl. destruct (String.length v <? 4)%nat eqn:E; [discriminate|].
  apply Nat.ltb_ge in E.
  destruct (negb (isDigit v 0)); [discriminate|]. simpl.
  destruct (atoi (stake 4 v)); [|discriminate].
  intros H. injection H as _ <-. split; [exact E | reflexivity].
Qed.

(** Both layouts begin with a year of four bytes, a month and a day of two,
    and two dashes: ten bytes. *)
Lemma parse_date_prefix (cs : list (string * option Std)) (f f' : Fields)
    (v : string) :
  parseChunks (("", Some stdLongYear) :: ("-", Some stdZeroMonth)
               :: ("-", Some stdZeroDay) :: cs) f v = Some f' ->
  (10 <= String.length v)%nat /\
  String.get 4 v = Some "-"%char /\ String.get 7 v = Some "-"%char /\
  exists f3, parseChunks cs f3 (sdrop 10 v) = Some f'.
Proof.
  cbn [parseChunks]. rewrite skip_empty.
  destruct (parseStd stdLongYear f v) as [[f1 r1]|] eqn:E1; [|discriminate].
  apply parseStd_year in E1. destruct E1 as [Hlen ->].
  destruct (skip (sdrop 4 v) "-") as [r2|] eqn:E2; [|discriminate].
  apply skip_dash in E2.
  destruct (sdrop_cons _ _ _ _ E2) as (G4 & D5 & L4).
  destruct (parseStd stdZeroMonth f1 r2) as [[f2 r3]|] eqn:E3; [|discriminate].
  simpl in E3.
  destruct (getnum r2 true) as [[m r3']|] eqn:Em; [|discriminate].
  destruct (getnum_fixed _ _ _ Em) as (c0 & c1 & Hr2 & _ & _).
  destruct (_ || _) in E3; [discriminate|]. injection E3 as _ <-.
  destruct (skip r3' "-") as [r4|] eqn:E4; [|discriminate].
  apply skip_dash in E4. subst r3'.
  destruct (parseStd stdZeroDay f2 r4) as [[f3 r5]|] eqn:E5; [|discriminate].
  simpl in E5.
  destruct (getnum r4 true) as [[d r5']|] eqn:Ed; [|discriminate].
  destruct (getnum_fixed _ _ _ Ed) as (c2 & c3 & Hr4 & _ & _).
  injection E5 as _ <-.
  intros H.
  assert (Hv : sdrop 5 v = String c0 (String c1 (String "-"
                 (String c2 (String c3 r5'))))).
  { rewrite D5, Hr2, Hr4. reflexivity. }
  assert (H10 : sdrop 10 v = r5').
  { change 10%nat with (5 + 5)%nat. rewrite <- sdrop_sdrop, Hv. reflexivity. }
  assert (H7 : String.get 7 v = Some "-"%char).
  { assert (H7' : sdrop 7 v = String "-" (String c2 (String c3 r5'))).
    { change 7%nat with (5 + 2)%nat. rewrite <- sdrop_sdrop, Hv. reflexivity. }
    apply (sdrop_cons _ _ _ _ H7'). }
  assert (HL : String.length (sdrop 5 v) = (String.length v - 5)%nat)
    by apply sdrop_length.
  rewrite Hv in HL. simpl in HL.
  repeat split; [lia | exact G4 | exact H7|].
  exists f3. rewrite H10. exact H.
Qed.

Lemma parse_date_length (f : Fields) (v : string) :
  parseChunks (chunks "2006-01-02") fields0 v = Some f ->
  String.length v = 10%nat /\
  String.get 4 v = Some "-"%char /\ String.get 7 v = Some "-"%char.
Proof.
  rewrite chunks_date. intros H.
  destruct (parse_date_prefix _ _ _ _ H) as (Hlen & G4 & G7 & f3 & Hrest).
  cbn [parseChunks] in Hrest. rewrite skip_empty in Hrest.
  destruct (sdrop 10 v) eqn:E; [|discriminate].
  pose proof (sdrop_length 10 v) as HL. rewrite E in HL. simpl in HL.
  repeat split; [lia | exact G4 | exact G7].
Qed.

Lemma parse_rfc3339_length (f : Fields) (v : string) :
  parseChunks (chunks RFC3339) fields0 v = Some f ->
  (11 <= String.length v)%nat /\ String.get 10 v = Some "T"%char.
Proof.
  rewrite chunks_rfc3339. intros H.
  destruct (parse_date_prefix _ _ _ _ H) as (Hlen & _ & _ & f3 & Hrest).
  cbn [parseChunks] in Hrest.
  destruct (skip (sdrop 10 v) "T") as [r|] eqn:E; [|discriminate].
  apply skip_T in E. destruct (sdrop_cons _ _ _ _ E) as (G & _ & L).
  split; [lia | exact G].
Qed.

Lemma Parse_some_chunks (fresh : nat) (layout v : string) (t : Time) :
  Parse localZone fresh layout v = Some t ->
  exists f, parseChunks (chunks layout) fields0 v = Some f.
Proof.
  unfold Parse. destruct (parseChunks (chunks layout) fields0 v) as [f|];
    [eauto | discriminate].
Qed.

Lemma Parse_none_chunks (fresh : nat) (layout v : string) :
  parseChunks (chunks layout) fields0 v = None ->
  Parse localZone fresh layout v = None.
Proof. unfold Parse. intros ->. reflexivity. Qed.

End LayoutFacts.

Section LayoutTheorems.

(** X10.  The two layouts of [parseDay] accept disjoint sets of values: what the
    date-only layout parses is ten bytes long, with dashes at offsets 4
    and 7, and what the timestamp layout parses is longer and has a "T" at
    offset 10.  So no value parses under both, and the order in which
    [parseDay] tries its layouts does not change its result. *)
Theorem parseDay_layouts_disjoint (localZone : Z -> Zone) (fresh : nat)
    (v : string) :
  (forall t, Parse localZone fresh "2006-01-02" v = Some t ->
     String.length v = 10%nat /\
     String.get 4 v = Some "-"%char /\ String.get 7 v = Some "-"%char /\
     forall k, Parse localZone k RFC3339 v = None) /\
  (forall t, Parse localZone fresh RFC3339 v = Some t ->
     (11 <= String.length v)%nat /\ String.get 10 v = Some "T"%char /\
     forall k, Parse localZone k "2006-01-02" v = None) /\
  parseDay_loop localZone fresh [RFC3339; "2006-01-02"] v
  = parseDay localZone fresh v.
Proof.
  assert (H1 : forall t, Parse localZone fresh "2006-01-02" v = Some t ->
     String.length v = 10%nat /\
     String.get 4 v = Some "-"%char /\ String.get 7 v = Some "-"%char /\
     forall k, Parse localZone k RFC3339 v = None).
  { intros t H. destruct (Parse_some_chunks _ _ _ _ _ H) as [f Hf].
    destruct (parse_date_length f v Hf) as (L & G4 & G7).
    repeat split; try assumption.
    intros k. apply Parse_none_chunks.
    destruct (parseChunks (chunks RFC3339) fields0 v) as [g|] eqn:E;
      [|reflexivity].
    destruct (parse_rfc3339_length g v E) as [L' _]. lia. }
  assert (H2 : forall t, Parse localZone fresh RFC3339 v = Some t ->
     (11 <= String.length v)%nat /\ String.get 10 v = Some "T"%char /\
     forall k, Parse localZone k "2006-01-02" v = None).
  { intros t H. destruct (Parse_some_chunks _ _ _ _ _ H) as [f Hf].
    destruct (parse_rfc3339_length f v Hf) as (L & G).
    repeat split; try assumption.
    intros k. apply Parse_none_chunks.
    destruct (parseChunks (chunks "2006-01-02") fields0 v) as [g|] eqn:E;
      [|reflexivity].
    destruct (parse_date_length g v E) as [L' _]. lia. }
  split; [exact H1|]. split; [exact H2|].
  unfold parseDay. cbn [parseDay_loop].
  destruct (Parse localZone fresh RFC3339 v) as [t|] eqn:E.
  - destruct (H2 t eq_refl) as (_ & _ & Hn). rewrite Hn. reflexivity.
  - destruct (Parse localZone fresh "2006-01-02" v); reflexivity.
Qed.

Lemma parseDay_layouts_disjoint_witness :
  String.length "2021-03-01" = 10%nat /\
  Parse westZone 0 RFC3339 "2021-03-01" = None /\
  Parse westZone 0 "2006-01-02" "2021-03-01T10:00:00-05:00" = None.
Proof.
  destruct (parseDay_layouts_disjoint westZone 0 "2021-03-01") as (H1 & _).
  destruct (parseDay_layouts_disjoint westZone 0 "2021-03-01T10:00:00-05:00")
    as (_ & H2 & _).
  destruct (H1 (mkTime 63750153600 0 UTC) eq_refl) as (L & _ & _ & Hn).
  destruct (H2 (mkTime 63750207600 0 Local) eq_refl) as (_ & _ & Hd).
  split; [exact L|]. split; [apply Hn | apply Hd].
Defined.

End LayoutTheorems.

(** ** Calendar arithmetic *)

(** Linear arithmetic with quotients and remainders by constants. *)
Ltac divlia := Z.to_euclidean_division_equations; lia.

Section CivilFacts.

Lemma absDate_split (days : Z) :
  absDate days
  = (fst (yearDay days),
     fst (monthDay (isLeap (fst (yearDay days))) (snd (yearDay days))),
     snd (monthDay (isLeap (fst (yearDay days))) (snd (yearDay days)))).
Proof.
  unfold absDate, yearDay, monthDay. cbv zeta. cbn [fst snd].
  destruct (isLeap _ && (_ =? 31 + 29 - 1)); [reflexivity|].
  destruct (_ <=? _); reflexivity.
Qed.

Lemma isLeap_spec (y : Z) :
  isLeap y = true <-> (y mod 4 = 0 /\ (y mod 100 <> 0 \/ y mod 400 = 0)).
Proof.
  unfold isLeap.
  rewrite andb_true_iff, orb_true_iff, negb_true_iff, !Z.eqb_eq, Z.eqb_neq.
  tauto.
Qed.

(** The cycles of [absDate]: a day number is 400-year cycles, then up to
    three centuries, up to 24 four-year cycles, up to three years, and a
    day within the year. *)
Lemma cycles (days : Z) :
  exists n400 n100 n4 n1 yd,
    yearDay days = (400 * n400 + 100 * n100 + 4 * n4 + n1 + 1, yd) /\
    days = 146097 * n400 + 36524 * n100 + 1461 * n4 + 365 * n1 + yd /\
    0 <= n100 <= 3 /\ 0 <= n4 <= 24 /\ 0 <= n1 <= 3 /\
    0 <= yd <= 365 /\
    (yd = 365 -> n1 = 3 /\ (n4 = 24 -> n100 = 3)).
Proof.
  unfold yearDay. cbv zeta.
  rewrite !Z.shiftr_div_pow2 by (apply Z.le_0_2 || lia). change (2 ^ 2) with 4.
  set (n400 := days / 146097).
  set (r := days - 146097 * n400).
  assert (Hr : 0 <= r < 146097) by (subst r n400; divlia).
  set (q100 := r / 36524).
  assert (Hq100 : 0 <= q100 <= 4 /\ 36524 * q100 <= r < 36524 * q100 + 36524)
    by (subst q100; divlia).
  set (n100 := q100 - q100 / 4).
  assert (Hn100 : (q100 = 4 /\ n100 = 3) \/ (q100 < 4 /\ n100 = q100))
    by (subst n100; divlia).
  set (d2 := r - 36524 * n100).
  assert (Hd2 : 0 <= d2 <= 36524 /\ (d2 = 36524 -> n100 = 3))
    by (subst d2; divlia).
  set (n4 := d2 / 1461).
  assert (Hn4 : 0 <= n4 <= 24 /\ 1461 * n4 <= d2 < 1461 * n4 + 1461)
    by (subst n4; divlia).
  set (d3 := d2 - 1461 * n4).
  set (q1 := d3 / 365).
  assert (Hq1 : 0 <= q1 <= 4 /\ 365 * q1 <= d3 < 365 * q1 + 365)
    by (subst q1 d3; divlia).
  set (n1 := q1 - q1 / 4).
  assert (Hn1 : (q1 = 4 /\ n1 = 3) \/ (q1 < 4 /\ n1 = q1))
    by (subst n1; divlia).
  exists n400, n100, n4, n1, (d3 - 365 * n1).
  split; [reflexivity|].
  clearbody n1 q1. subst d3. clearbody n4. subst d2. clearbody n100 q100.
  subst r. clearbody n400.
  repeat split; lia.
Qed.

Lemma isLeap_cycles (n400 n100 n4 n1 : Z) :
  0 <= n100 <= 3 -> 0 <= n4 <= 24 -> 0 <= n1 <= 3 ->
  isLeap (400 * n400 + 100 * n100 + 4 * n4 + n1 + 1)
  = (n1 =? 3) && (negb (n4 =? 24) || (n100 =? 3)).
Proof.
  intros H100 H4 H1. unfold isLeap.
  set (y := 400 * n400 + 100 * n100 + 4 * n4 + n1 + 1).
  assert (E4 : (y mod 4 =? 0) = (n1 =? 3)).
  { destruct (Z.eqb_spec (y mod 4) 0), (Z.eqb_spec n1 3);
      try reflexivity; subst y; divlia. }
  assert (E100 : (n1 =? 3) = true -> (y mod 100 =? 0) = (n4 =? 24)).
  { intros Hn. apply Z.eqb_eq in Hn.
    destruct (Z.eqb_spec (y mod 100) 0), (Z.eqb_spec n4 24);
      try reflexivity; subst y; divlia. }
  assert (E400 : (n1 =? 3) = true -> (n4 =? 24) = true ->
                 (y mod 400 =? 0) = (n100 =? 3)).
  { intros Hn Hm. apply Z.eqb_eq in Hn, Hm.
    destruct (Z.eqb_spec (y mod 400) 0), (Z.eqb_spec n100 3);
      try reflexivity; subst y; divlia. }
  assert (E400' : (n4 =? 24) = false -> (y mod 100 =? 0) = false ->
                  (y mod 400 =? 0) = false).
  { intros _ Hm. apply Z.eqb_neq in Hm. apply Z.eqb_neq. divlia. }
  rewrite E4. destruct (n1 =? 3) eqn:N1; [|reflexivity].
  rewrite (E100 eq_refl). destruct (n4 =? 24) eqn:N4.
  - rewrite (E400 eq_refl eq_refl). reflexivity.
  - simpl. reflexivity.
Qed.

Lemma daysSinceEpoch_cycles (n400 n100 n4 n1 : Z) :
  0 <= n100 <= 3 -> 0 <= n4 <= 24 -> 0 <= n1 <= 3 ->
  daysSinceEpoch (400 * n400 + 100 * n100 + 4 * n4 + n1 + 1)
  = 146097 * n400 + 36524 * n100 + 1461 * n4 + 365 * n1.
Proof.
  intros H100 H4 H1. unfold daysSinceEpoch. cbv zeta.
  set (y := 400 * n400 + 100 * n100 + 4 * n4 + n1 + 1 - 1).
  assert (Ea : y / 400 = n400) by (subst y; divlia).
  rewrite Ea.
  set (y1 := y - 400 * n400).
  assert (Eb : y1 / 100 = n100) by (subst y1 y; divlia).
  rewrite Eb.
  set (y2 := y1 - 100 * n100).
  assert (Ec : y2 / 4 = n4) by (subst y2 y1 y; divlia).
  rewrite Ec. subst y2 y1 y. lia.
Qed.

Lemma yearDay_spec (days : Z) :
  days = daysSinceEpoch (fst (yearDay days)) + snd (yearDay days) /\
  0 <= snd (yearDay days)
  < (if isLeap (fst (yearDay days)) then 366 else 365).
Proof.
  destruct (cycles days)
    as (n400 & n100 & n4 & n1 & yd & -> & Hd & H100 & H4 & H1 & Hyd & Hlast).
  cbn [fst snd].
  rewrite daysSinceEpoch_cycles, isLeap_cycles by assumption.
  split; [lia|].
  destruct (Z.eqb_spec n1 3) as [E1|E1]; simpl.
  - destruct (Z.eqb_spec n4 24) as [E4|E4]; simpl.
    + destruct (Z.eqb_spec n100 3); lia.
    + lia.
  - lia.
Qed.

End CivilFacts.

Section CivilRoundTrip.

Lemma allFrom_spec (p : Z -> bool) (n : nat) :
  forall lo, allFrom p lo n = true ->
  forall z, lo <= z < lo + Z.of_nat n -> p z = true.
Proof.
  induction n as [|n IH]; intros lo H z Hz.
  - lia.
  - cbn [allFrom] in H. apply andb_true_iff in H. destruct H as [H0 H].
    destruct (Z.eq_dec z lo) as [-> | Hne]; [exact H0|].
    apply (IH (lo + 1) H). lia.
Qed.

Lemma monthDay_checked :
  allFrom (monthDayOk true) 0 366 = true /\
  allFrom (monthDayOk false) 0 365 = true.
Proof. split; vm_compute; reflexivity. Qed.

Lemma monthOk_checked :
  allFrom (monthOk true) 1 12 = true /\ allFrom (monthOk false) 1 12 = true.
Proof. split; vm_compute; reflexivity. Qed.

(** [monthDay] gives a month, a day of that month, and the day of the year
    it was given. *)
Lemma monthDay_spec (leap : bool) (yd : Z) :
  0 <= yd < (if leap then 366 else 365) ->
  1 <= fst (monthDay leap yd) <= 12 /\
  1 <= snd (monthDay leap yd) <= monthLength leap (fst (monthDay leap yd)) /\
  yearDayOf leap (fst (monthDay leap yd)) (snd (monthDay leap yd)) = yd.
Proof.
  intros H.
  assert (Hok : monthDayOk leap yd = true).
  { destruct monthDay_checked as [Ht Hf].
    destruct leap; [apply (allFrom_spec _ _ _ Ht) | apply (allFrom_spec _ _ _ Hf)];
      simpl; lia. }
  unfold monthDayOk in Hok. destruct (monthDay leap yd) as [m d].
  cbn [fst snd]. rewrite !andb_true_iff in Hok.
  destruct Hok as ((((H1 & H2) & H3) & H4) & H5).
  apply Z.leb_le in H1, H2, H3, H4. apply Z.eqb_eq in H5. lia.
Qed.

Lemma monthDay_yearDayOf (leap : bool) (m d : Z) :
  1 <= m <= 12 -> 1 <= d <= monthLength leap m ->
  monthDay leap (yearDayOf leap m d) = (m, d) /\
  0 <= yearDayOf leap m d < (if leap then 366 else 365).
Proof.
  intros Hm Hd.
  assert (Hok : monthOk leap m = true).
  { destruct monthOk_checked as [Ht Hf].
    destruct leap; [apply (allFrom_spec _ _ _ Ht) | apply (allFrom_spec _ _ _ Hf)];
      simpl; lia. }
  assert (H31 : monthLength leap m <= 31).
  { unfold monthLength.
    assert (Hc : m = 1 \/ m = 2 \/ m = 3 \/ m = 4 \/ m = 5 \/ m = 6 \/ m = 7 \/
                 m = 8 \/ m = 9 \/ m = 10 \/ m = 11 \/ m = 12) by lia.
    destruct leap;
      repeat (destruct Hc as [-> | Hc]; [vm_compute; discriminate|]);
      subst m; vm_compute; discriminate. }
  unfold monthOk in Hok.
  pose proof (allFrom_spec _ _ _ Hok d) as H. cbv beta in H.
  assert (Hle : (d <=? monthLength leap m) = true) by (apply Z.leb_le; lia).
  rewrite Hle in H.
  assert (Hr : 1 <= d < 1 + Z.of_nat 31) by (simpl; lia).
  specialize (H Hr). rewrite !andb_true_iff in H.
  destruct H as (((H1 & H2) & H3) & H4).
  apply Z.eqb_eq in H1, H2. apply Z.leb_le in H3. apply Z.ltb_lt in H4.
  split; [|lia].
  destruct (monthDay leap (yearDayOf leap m d)) as [m' d'].
  cbn [fst snd] in H1, H2. subst. reflexivity.
Qed.

Lemma daysOfCivil_yearDayOf (y m d : Z) :
  daysOfCivil y m d = daysSinceEpoch y + yearDayOf (isLeap y) m d.
Proof. unfold daysOfCivil, yearDayOf. lia. Qed.

Lemma daysIn_monthLength (m y : Z) : daysIn m y = monthLength (isLeap y) m.
Proof. reflexivity. Qed.

(** [absDate] gives a civil date, and [Date]'s day count of that date is
    the day number that [absDate] was given. *)
Lemma absDate_spec (days : Z) :
  let '(y, m, d) := absDate days in
  1 <= m <= 12 /\ 1 <= d <= daysIn m y /\ daysOfCivil y m d = days.
Proof.
  rewrite absDate_split.
  destruct (yearDay_spec days) as [Hd Hyd].
  destruct (monthDay_spec _ _ Hyd) as (Hm & Hdd & Hy).
  rewrite daysIn_monthLength, daysOfCivil_yearDayOf, Hy.
  repeat split; try lia.
Qed.

Lemma yearDay_daysSinceEpoch (y yd : Z) :
  0 <= yd < (if isLeap y then 366 else 365) ->
  yearDay (daysSinceEpoch y + yd) = (y, yd).
Proof.
  intros Hyd.
  set (a := (y - 1) / 400).
  set (b := (y - 1 - 400 * a) / 100).
  set (c := (y - 1 - 400 * a - 100 * b) / 4).
  set (e := y - 1 - 400 * a - 100 * b - 4 * c).
  assert (Hb : 0 <= b <= 3) by (subst b a; divlia).
  assert (Hc : 0 <= c <= 24) by (subst c b a; divlia).
  assert (He : 0 <= e <= 3) by (subst e c b a; divlia).
  assert (Hy : y = 400 * a + 100 * b + 4 * c + e + 1) by (subst e; lia).
  clearbody e c b a. subst y.
  rewrite daysSinceEpoch_cycles by assumption.
  rewrite isLeap_cycles in Hyd by assumption.
  assert (Hlast : yd = 365 -> e = 3 /\ (c = 24 -> b = 3)).
  { intros ->. destruct (Z.eqb_spec e 3); simpl in Hyd; [|lia].
    destruct (Z.eqb_spec c 24); simpl in Hyd; [|lia].
    destruct (Z.eqb_spec b 3); simpl in Hyd; lia. }
  assert (Hyd' : 0 <= yd <= 365) by (destruct (_ && _); lia).
  clear Hyd.
  unfold yearDay. cbv zeta.
  rewrite !Z.shiftr_div_pow2 by apply Z.le_0_2. change (2 ^ 2) with 4.
  set (days := 146097 * a + 36524 * b + 1461 * c + 365 * e + yd).
  assert (E1 : days / 146097 = a) by (subst days; divlia).
  rewrite E1.
  set (r := days - 146097 * a).
  assert (Er : r = 36524 * b + 1461 * c + 365 * e + yd) by (subst r days; lia).
  set (q100 := r / 36524).
  assert (E2 : q100 - q100 / 4 = b) by (subst q100; divlia).
  rewrite E2.
  set (d2 := r - 36524 * b).
  assert (Ed2 : d2 = 1461 * c + 365 * e + yd) by (subst d2; lia).
  assert (E3 : d2 / 1461 = c) by divlia.
  rewrite E3.
  set (d3 := d2 - 1461 * c).
  assert (Ed3 : d3 = 365 * e + yd) by (subst d3; lia).
  set (q1 := d3 / 365).
  assert (E4 : q1 - q1 / 4 = e) by (subst q1; divlia).
  rewrite E4. f_equal; lia.
Qed.

(** Conversely [absDate] recovers every civil date from [Date]'s day
    count. *)
Lemma absDate_daysOfCivil (y m d : Z) :
  1 <= m <= 12 -> 1 <= d <= daysIn m y ->
  absDate (daysOfCivil y m d) = (y, m, d).
Proof.
  intros Hm Hd. rewrite daysIn_monthLength in Hd.
  destruct (monthDay_yearDayOf _ _ _ Hm Hd) as [Hmd Hyd].
  rewrite absDate_split, daysOfCivil_yearDayOf.
  rewrite (yearDay_daysSinceEpoch _ _ Hyd). cbn [fst snd].
  rewrite Hmd. reflexivity.
Qed.

End CivilRoundTrip.

(** ** [truncDay] *)

Section TruncDayFacts.

Variable localZone : Z -> Zone.

Lemma abs_fixedOffset (t : Time) (off : Z) :
  fixedOffset localZone (loc t) off -> abs localZone t = sec t + off.
Proof. intros Hz. unfold abs. rewrite (Hz (unixSec t)). reflexivity. Qed.

Lemma dayNumber_bounds (t : Time) :
  dayNumber localZone t * secondsPerDay <= abs localZone t
  < dayNumber localZone t * secondsPerDay + secondsPerDay.
Proof. unfold dayNumber, secondsPerDay. divlia. Qed.

(** [Date] at midnight of a civil date, in a location of fixed offset. *)
Lemma Date_midnight (y m d : Z) (l : Location) (off : Z) :
  fixedOffset localZone l off -> 1 <= m <= 12 ->
  alpha <= daysOfCivil y m d * secondsPerDay - unixToInternal - off < omega ->
  GoTime.Date localZone y m d 0 0 0 0 l
  = mkTime (daysOfCivil y m d * secondsPerDay - off) 0 l.
Proof.
  intros Hz Hm Hb. unfold GoTime.Date, norm.
  assert (E1 : (m - 1) / 12 = 0) by divlia.
  assert (E2 : (m - 1) mod 12 = m - 1) by divlia.
  rewrite E1, E2.
  change (0 mod 1000000000) with 0. change (0 / 1000000000) with 0.
  change ((0 + 0) mod 60) with 0. change ((0 + 0) / 60) with 0.
  change ((0 + 0) mod 24) with 0. change ((0 + 0) / 24) with 0.
  cbv iota beta.
  change ((0 + 0) mod 60) with 0. change ((0 + 0) / 60) with 0.
  change ((0 + 0) mod 24) with 0. change ((0 + 0) / 24) with 0.
  unfold fixedOffset in Hz. rewrite !Hz. cbn [zoffset zstart zend].
  replace (y + 0) with y by lia.
  replace (m - 1 + 1) with m by lia.
  replace (daysSinceEpoch y + daysBefore (m - 1)
           + (if isLeap y && (3 <=? m) then 1 else 0) + (d + 0 - 1))
    with (daysOfCivil y m d) by (unfold daysOfCivil; lia).
  change (0 * 3600 + 0 * 60 + 0) with 0.
  set (D := daysOfCivil y m d) in *.
  destruct (Z.eqb_spec off 0) as [-> | Hoff].
  - f_equal. lia.
  - destruct (Z.ltb_spec (D * secondsPerDay + 0 - unixToInternal - off) alpha);
      [lia|].
    destruct (Z.leb_spec omega (D * secondsPerDay + 0 - unixToInternal - off));
      [lia|].
    f_equal. lia.
Qed.

Lemma truncDay_sec (t : Time) (off : Z) :
  fixedOffset localZone (loc t) off ->
  alpha <= dayNumber localZone t * secondsPerDay - unixToInternal - off
        < omega ->
  truncDay localZone t
  = mkTime (dayNumber localZone t * secondsPerDay - off) 0 (loc t).
Proof.
  intros Hz Hb. unfold truncDay, Year, Month, Day, date.
  fold (dayNumber localZone t).
  pose proof (absDate_spec (dayNumber localZone t)) as H.
  destruct (absDate (dayNumber localZone t)) as [[y m] d].
  cbn [fst snd]. destruct H as (Hm & Hd & Hdays).
  rewrite (Date_midnight y m d (loc t) off Hz Hm); rewrite Hdays;
    [reflexivity | exact Hb].
Qed.

Lemma representable_day (t : Time) (off : Z) :
  fixedOffset localZone (loc t) off -> representable t ->
  alpha <= dayNumber localZone t * secondsPerDay - unixToInternal - off
        < omega.
Proof.
  intros Hz [Hlo Hhi]. pose proof (dayNumber_bounds t) as Hb.
  rewrite (abs_fixedOffset t off Hz) in Hb. unfold unixSec in *. lia.
Qed.

Lemma dayNumber_midnight (dn off : Z) (l : Location) :
  fixedOffset localZone l off ->
  dayNumber localZone (mkTime (dn * secondsPerDay - off) 0 l) = dn.
Proof.
  intros Hz. unfold dayNumber.
  rewrite (abs_fixedOffset _ off) by exact Hz. cbn [sec].
  unfold secondsPerDay. divlia.
Qed.

Lemma Location_eqb_refl (l : Location) : Location_eqb l l = true.
Proof. destruct l; simpl; [reflexivity | reflexivity | apply Nat.eqb_refl]. Qed.

Lemma date_dayNumber (a b : Time) :
  date localZone a = date localZone b <->
  dayNumber localZone a = dayNumber localZone b.
Proof.
  unfold date. fold (dayNumber localZone a) (dayNumber localZone b). split.
  - intros H.
    pose proof (absDate_spec (dayNumber localZone a)) as Ha.
    pose proof (absDate_spec (dayNumber localZone b)) as Hb.
    rewrite H in Ha.
    destruct (absDate (dayNumber localZone b)) as [[y m] d].
    destruct Ha as (_ & _ & <-). destruct Hb as (_ & _ & <-). reflexivity.
  - intros ->. reflexivity.
Qed.

End TruncDayFacts.

Section TruncDayTheorems.

(** X11.  [truncDay] gives midnight of the same calendar date in the same
    location: for an instant of a location of fixed offset, the result
    has the year, month and day of the instant and the clock 00:00:00,
    it is not after the instant and less than a day before it, and
    truncating it again changes nothing. *)
Theorem truncDay_midnight (localZone : Z -> Zone) (t : Time) (off : Z) :
  fixedOffset localZone (loc t) off -> representable t ->
  loc (truncDay localZone t) = loc t /\
  nsec (truncDay localZone t) = 0 /\
  Year localZone (truncDay localZone t) = Year localZone t /\
  Month localZone (truncDay localZone t) = Month localZone t /\
  Day localZone (truncDay localZone t) = Day localZone t /\
  Hour localZone (truncDay localZone t) = 0 /\
  Minute localZone (truncDay localZone t) = 0 /\
  Second localZone (truncDay localZone t) = 0 /\
  sec (truncDay localZone t) <= sec t
    < sec (truncDay localZone t) + secondsPerDay /\
  truncDay localZone (truncDay localZone t) = truncDay localZone t.
Proof.
  intros Hz Hr.
  pose proof (representable_day localZone t off Hz Hr) as Hb.
  pose proof (truncDay_sec localZone t off Hz Hb) as E.
  set (dn := dayNumber localZone t) in *.
  set (t0 := mkTime (dn * secondsPerDay - off) 0 (loc t)) in *.
  assert (Hz0 : fixedOffset localZone (loc t0) off) by exact Hz.
  assert (Hdn : dayNumber localZone t0 = dn)
    by (apply dayNumber_midnight; exact Hz).
  assert (Habs : abs localZone t0 = dn * secondsPerDay).
  { rewrite (abs_fixedOffset localZone t0 off Hz0). simpl. lia. }
  assert (Hdate : date localZone t0 = date localZone t).
  { apply date_dayNumber. exact Hdn. }
  rewrite E.
  split; [reflexivity|]. split; [reflexivity|].
  unfold Year, Month, Day, Hour, Minute, Second.
  rewrite Hdate, Habs, Z.mod_mul by (unfold secondsPerDay; lia).
  repeat (split; [reflexivity|]).
  split.
  - pose proof (dayNumber_bounds localZone t) as Hd. fold dn in Hd.
    rewrite (abs_fixedOffset localZone t off Hz) in Hd. simpl. lia.
  - rewrite (truncDay_sec localZone t0 off Hz0); rewrite Hdn;
      [reflexivity | exact Hb].
Qed.

Lemma truncDay_midnight_witness :
  truncDay westZone inBerlin = mkTime 63750146400 0 (Fixed 7 7200) /\
  Hour westZone (truncDay westZone inBerlin) = 0 /\
  truncDay westZone (truncDay westZone inBerlin) = truncDay westZone inBerlin.
Proof.
  assert (Hz : fixedOffset westZone (loc inBerlin) 7200)
    by (intros u; reflexivity).
  assert (Hr : representable inBerlin) by (split; [discriminate | reflexivity]).
  pose proof (truncDay_midnight westZone inBerlin 7200 Hz Hr) as H.
  destruct H as (_ & _ & _ & _ & _ & Hh & _ & _ & _ & Hi).
  split; [reflexivity|]. split; [exact Hh | exact Hi].
Defined.

Lemma truncDay_eqb_date (localZone : Z -> Zone) (a b : Time) (off : Z) :
  loc a = loc b -> fixedOffset localZone (loc a) off ->
  representable a -> representable b ->
  (Time_eqb (truncDay localZone a) (truncDay localZone b) = true <->
   date localZone a = date localZone b) /\
  (date localZone a = date localZone b ->
   truncDay localZone a = truncDay localZone b).
Proof.
  intros Hl Hza Ha Hb.
  assert (Hzb : fixedOffset localZone (loc b) off) by (rewrite <- Hl; exact Hza).
  rewrite (truncDay_sec localZone a off Hza)
    by (apply representable_day; assumption).
  rewrite (truncDay_sec localZone b off Hzb)
    by (apply representable_day; assumption).
  rewrite date_dayNumber, <- Hl.
  unfold Time_eqb. cbn [sec nsec loc].
  rewrite Location_eqb_refl, andb_true_r, andb_true_r.
  split.
  - rewrite Z.eqb_eq. unfold secondsPerDay. split; intros H; lia.
  - intros ->. reflexivity.
Qed.

(** X12.  Two instants of one location of fixed offset have the same day, as
    [main] compares days with [==], exactly when they fall on the same
    calendar date there; this is when no separator comes between them. *)
Theorem truncDay_same_date (localZone : Z -> Zone) (a b : Time) (off : Z) :
  loc a = loc b -> fixedOffset localZone (loc a) off ->
  representable a -> representable b ->
  (Time_eqb (truncDay localZone a) (truncDay localZone b) = true <->
   date localZone a = date localZone b) /\
  (date localZone a = date localZone b ->
   truncDay localZone a = truncDay localZone b).
Proof.
  apply truncDay_eqb_date.
Qed.

Lemma truncDay_same_date_witness :
  Time_eqb (truncDay westZone inBerlin)
    (truncDay westZone (mkTime 63750210000 0 (Fixed 7 7200))) = true.
Proof.
  apply (truncDay_same_date westZone inBerlin
           (mkTime 63750210000 0 (Fixed 7 7200)) 7200).
  - reflexivity.
  - intros u. reflexivity.
  - split; [discriminate | reflexivity].
  - split; [discriminate | reflexivity].
  - reflexivity.
Defined.

End TruncDayTheorems.

(** ** The text of a date *)

Section DateTextFacts.

Variable localZone : Z -> Zone.

Lemma digit_char (c : ascii) :
  isDigitByte c = true ->
  0 <= digitVal c <= 9 /\ digitChar (digitVal c) = c.
Proof.
  unfold isDigitByte, digitVal, digitChar, byteZ. intros H.
  apply andb_true_iff in H. destruct H as [H1 H2].
  apply Z.leb_le in H1, H2. split; [lia|].
  replace (48 + (Z.of_nat (nat_of_ascii c) - 48))
    with (Z.of_nat (nat_of_ascii c)) by lia.
  rewrite Nat2Z.id. apply ascii_nat_embedding.
Qed.

Lemma twoOk_checked : allFrom twoOk 0 100 = true.
Proof. vm_compute. reflexivity. Qed.

Lemma fourOk_checked : allFrom fourOk 0 10000 = true.
Proof. vm_compute. reflexivity. Qed.

Lemma appendInt_two (a b : ascii) :
  isDigitByte a = true -> isDigitByte b = true ->
  appendInt (digitVal a * 10 + digitVal b) 2 = String a (String b "").
Proof.
  clear localZone. intros Ha Hb.
  destruct (digit_char a Ha) as [Ra Ea]. destruct (digit_char b Hb) as [Rb Eb].
  set (n := digitVal a * 10 + digitVal b).
  assert (Hn : 0 <= n < 0 + Z.of_nat 100) by (subst n; simpl; lia).
  pose proof (allFrom_spec _ _ _ twoOk_checked n Hn) as H.
  unfold twoOk in H. apply String.eqb_eq in H. rewrite H.
  replace (n / 10) with (digitVal a) by (subst n; divlia).
  replace (n mod 10) with (digitVal b) by (subst n; divlia).
  rewrite Ea, Eb. reflexivity.
Qed.

Lemma appendInt_four (a b c d : ascii) :
  isDigitByte a = true -> isDigitByte b = true ->
  isDigitByte c = true -> isDigitByte d = true ->
  appendInt (((digitVal a * 10 + digitVal b) * 10 + digitVal c) * 10
             + digitVal d) 4
  = String a (String b (String c (String d ""))).
Proof.
  clear localZone. intros Ha Hb Hc Hd.
  destruct (digit_char a Ha) as [Ra Ea]. destruct (digit_char b Hb) as [Rb Eb].
  destruct (digit_char c Hc) as [Rc Ec]. destruct (digit_char d Hd) as [Rd Ed].
  set (n := ((digitVal a * 10 + digitVal b) * 10 + digitVal c) * 10
            + digitVal d).
  assert (Hn : 0 <= n < 0 + Z.of_nat 10000) by (subst n; simpl; lia).
  pose proof (allFrom_spec _ _ _ fourOk_checked n Hn) as H.
  unfold fourOk in H. apply String.eqb_eq in H. rewrite H.
  replace (n / 1000) with (digitVal a) by (subst n; divlia).
  replace (n / 100 mod 10) with (digitVal b) by (subst n; divlia).
  replace (n / 10 mod 10) with (digitVal c) by (subst n; divlia).
  replace (n mod 10) with (digitVal d) by (subst n; divlia).
  rewrite Ea, Eb, Ec, Ed. reflexivity.
Qed.

(** [leadingInt] consumes a whole string only when it is all digits, and
    then yields the number they write. *)
Lemma leadingInt_loop_whole (s : string) :
  forall x q, leadingInt_loop x s = Some (q, "") ->
              allDigits s = true /\ q = digitsValue x s.
Proof.
  induction s as [|c s IH]; intros x q H.
  - simpl in H. injection H as <-. split; reflexivity.
  - cbn [leadingInt_loop] in H.
    destruct (isDigitByte c) eqn:Ec; [|discriminate].
    destruct (_ <? x); [discriminate|].
    destruct (_ <=? _); [discriminate|].
    destruct (IH _ _ H) as [Hd Hq].
    split; [|exact Hq].
    unfold allDigits, bytes in *. simpl. rewrite Ec. exact Hd.
Qed.

Lemma digit_not_sign (c : ascii) : isDigitByte c = true -> isSign c = false.
Proof.
  intros H. unfold isSign.
  destruct (Ascii.eqb c "-") eqn:E1.
  { apply Ascii.eqb_eq in E1. subst c. discriminate H. }
  destruct (Ascii.eqb c "+") eqn:E2.
  { apply Ascii.eqb_eq in E2. subst c. discriminate H. }
  reflexivity.
Qed.

Lemma atoi_digits (c : ascii) (s : string) (q : Z) :
  isDigitByte c = true -> atoi (String c s) = Some q ->
  allDigits (String c s) = true /\ q = digitsValue 0 (String c s).
Proof.
  intros Hc. unfold atoi. rewrite (digit_not_sign c Hc).
  destruct (leadingInt (String c s)) as [[q' r]|] eqn:E; [|discriminate].
  destruct r; [|discriminate].
  intros H. injection H as <-.
  apply leadingInt_loop_whole. exact E.
Qed.

Lemma getnum_fixed_value (v : string) (n : Z) (r : string) :
  getnum v true = Some (n, r) ->
  exists c0 c1, v = String c0 (String c1 r) /\
                isDigitByte c0 = true /\ isDigitByte c1 = true /\
                n = digitVal c0 * 10 + digitVal c1.
Proof.
  unfold getnum. destruct v as [|c0 v]; [discriminate|].
  destruct (isDigitByte c0) eqn:E0; [|discriminate].
  destruct v as [|c1 v]; [discriminate|].
  destruct (isDigitByte c1) eqn:E1; [|discriminate].
  intros H. injection H as <- <-. exists c0, c1. repeat split; assumption.
Qed.

Lemma stake_four (a b c d : ascii) (r : string) :
  stake 4 (String a (String b (String c (String d r))))
  = String a (String b (String c (String d ""))).
Proof. unfold stake. simpl. destruct r; reflexivity. Qed.

(** What the date-only layout reads: four digits of year, two of month
    and two of day, with dashes between. *)
Lemma parse_date_fields (f : Fields) (v : string) :
  parseChunks (chunks "2006-01-02") fields0 v = Some f ->
  exists y0 y1 y2 y3 m0 m1 d0 d1,
    v = String y0 (String y1 (String y2 (String y3 (String "-"
          (String m0 (String m1 (String "-" (String d0 (String d1 "")))))))))
    /\ isDigitByte y0 = true /\ isDigitByte y1 = true
    /\ isDigitByte y2 = true /\ isDigitByte y3 = true
    /\ isDigitByte m0 = true /\ isDigitByte m1 = true
    /\ isDigitByte d0 = true /\ isDigitByte d1 = true
    /\ f_year f = ((digitVal y0 * 10 + digitVal y1) * 10 + digitVal y2) * 10
                  + digitVal y3
    /\ f_month f = digitVal m0 * 10 + digitVal m1
    /\ 1 <= f_month f <= 12
    /\ f_day f = digitVal d0 * 10 + digitVal d1.
Proof.
  rewrite chunks_date. cbn [parseChunks]. rewrite skip_empty.
  destruct (parseStd stdLongYear fields0 v) as [[f1 r1]|] eqn:E1; [|discriminate].
  cbn [parseStd] in E1.
  destruct ((String.length v <? 4)%nat) eqn:EL; [discriminate E1|].
  apply Nat.ltb_ge in EL.
  destruct v as [|y0 [|y1 [|y2 [|y3 r]]]]; simpl in EL; try lia.
  unfold isDigit in E1. cbn [String.get] in E1.
  destruct (isDigitByte y0) eqn:Ey0; [|discriminate E1].
  cbn [negb orb] in E1.
  rewrite stake_four in E1.
  destruct (atoi (String y0 (String y1 (String y2 (String y3 ""))))) as [y|] eqn:Ea;
    [|discriminate E1].
  destruct (atoi_digits _ _ _ Ey0 Ea) as [Hall Hy].
  unfold allDigits, bytes in Hall. simpl in Hall.
  rewrite !andb_true_iff in Hall. destruct Hall as (_ & Ey1 & Ey2 & Ey3 & _).
  cbn [digitsValue] in Hy. rewrite Z.mul_0_l, Z.add_0_l in Hy.
  cbn [sdrop] in E1. injection E1 as <- <-.
  destruct (skip r "-") as [r2|] eqn:E2; [|discriminate].
  apply skip_dash in E2. subst r.
  destruct (parseStd stdZeroMonth _ r2) as [[f2 r3]|] eqn:E3; [|discriminate].
  cbn [parseStd] in E3.
  destruct (getnum r2 true) as [[m r3']|] eqn:Em; [|discriminate E3].
  destruct (getnum_fixed_value _ _ _ Em) as (m0 & m1 & -> & Em0 & Em1 & Hm).
  destruct ((m <=? 0) || (12 <? m)) eqn:Erange; [discriminate E3|].
  apply orb_false_iff in Erange. destruct Erange as [Hlo Hhi].
  apply Z.leb_gt in Hlo. apply Z.ltb_ge in Hhi.
  injection E3 as <- <-.
  destruct (skip r3' "-") as [r4|] eqn:E4; [|discriminate].
  apply skip_dash in E4. subst r3'.
  destruct (parseStd stdZeroDay _ r4) as [[f3 r5]|] eqn:E5; [|discriminate].
  cbn [parseStd] in E5.
  destruct (getnum r4 true) as [[d r5']|] eqn:Ed; [|discriminate E5].
  destruct (getnum_fixed_value _ _ _ Ed) as (d0 & d1 & -> & Ed0 & Ed1 & Hd).
  injection E5 as <- <-.
  rewrite skip_empty. destruct r5'; [|discriminate].
  intros H. injection H as <-.
  exists y0, y1, y2, y3, m0, m1, d0, d1. cbn [f_year f_month f_day].
  repeat split; try assumption; try reflexivity; lia.
Qed.

Lemma Date_midnight_civil (y m d : Z) :
  1 <= m <= 12 ->
  GoTime.Date localZone y m d 0 0 0 0 UTC
  = mkTime (daysOfCivil y m d * secondsPerDay) 0 UTC.
Proof.
  intros Hm. unfold GoTime.Date, norm.
  assert (E1 : (m - 1) / 12 = 0) by divlia.
  assert (E2 : (m - 1) mod 12 = m - 1) by divlia.
  rewrite E1, E2.
  change (0 mod 1000000000) with 0. change (0 / 1000000000) with 0.
  cbn [lookup zoffset]. change (0 =? 0) with true. cbv iota beta.
  change ((0 + (0 + 0) / 60) mod 24 * 3600 + (0 + 0) mod 60 * 60 + 0) with 0.
  change ((0 + (0 + 0) / 60) / 24) with 0.
  f_equal. unfold daysOfCivil.
  replace (y + 0) with y by lia.
  replace (m - 1 + 1) with m by lia. unfold secondsPerDay. divlia.
Qed.

End DateTextFacts.

Section DateTextTheorems.

(** X15.  A date is printed as it was read: for every value [v] that the
    date-only layout parses, formatting the instant with that layout gives
    [v] back, and [main] shows the start of such an all-day event as [v]
    followed by " 00:00". *)
Theorem date_round_trip (localZone : Z -> Zone) (fresh : nat) (v : string)
    (t : Time) :
  Parse localZone fresh "2006-01-02" v = Some t ->
  Format localZone t "2006-01-02" = v /\
  Format localZone t "2006-01-02 15:04" = v +++ " 00:00".
Proof.
  intros H.
  assert (Hfmt : Format localZone t "2006-01-02" = v).
  { unfold Parse in H.
    destruct (parseChunks (chunks "2006-01-02") fields0 v) as [f|] eqn:E;
      [|discriminate].
    destruct (parse_date_clock f v E) as (Hh & Hmi & Hs & Hn & Hu & Hz).
    destruct (parse_date_fields f v E)
      as (y0 & y1 & y2 & y3 & m0 & m1 & d0 & d1 & Hv & Ey0 & Ey1 & Ey2 & Ey3
          & Em0 & Em1 & Ed0 & Ed1 & Hy & Hm & Hmr & Hd).
    rewrite Hh, Hmi, Hs, Hn, Hu, Hz in H.
    destruct ((f_day f <? 1) || (daysIn (f_month f) (f_year f) <? f_day f))
      eqn:Eday; [discriminate|].
    apply orb_false_iff in Eday. destruct Eday as [Hd1 Hd2].
    apply Z.ltb_ge in Hd1, Hd2.
    change (negb (-1 =? -1)) with false in H. cbv iota in H.
    rewrite (Date_midnight_civil localZone _ _ _ Hmr) in H.
    injection H as <-.
    rewrite Format_date. unfold Year, Month, Day, date, abs.
    cbn [sec loc lookup zoffset]. rewrite Z.add_0_r.
    rewrite Z.div_mul by (unfold secondsPerDay; lia).
    rewrite absDate_daysOfCivil by lia. cbn [fst snd].
    rewrite Hy, Hm, Hd.
    rewrite appendInt_four, !appendInt_two by assumption.
    rewrite Hv. reflexivity. }
  split; [exact Hfmt|].
  destruct (parse_date_midnight localZone fresh v t H) as [Hl Hk].
  rewrite Format_dateTime, Hfmt, (midnight_clock localZone t Hl Hk).
  reflexivity.
Qed.

Lemma date_round_trip_witness :
  Format westZone (mkTime 63750153600 0 UTC) "2006-01-02" = "2021-03-01".
Proof.
  apply (date_round_trip westZone 0 "2021-03-01" (mkTime 63750153600 0 UTC)).
  reflexivity.
Defined.

End DateTextTheorems.

(** ** The width of the summary column *)

Section WidthFacts.

Lemma spaces_length (n : nat) : String.length (spaces n) = n.
Proof. induction n as [|n IH]; simpl; [reflexivity | rewrite IH; reflexivity]. Qed.

Lemma runeCount_loop_ascii (s : string) :
  forall fuel, (String.length s <= fuel)%nat -> isASCII s = true ->
               runeCount_loop fuel s = String.length s.
Proof.
  induction s as [|c s IH]; intros fuel Hf Ha.
  - destruct fuel; reflexivity.
  - destruct fuel as [|fuel]; [simpl in Hf; lia|].
    unfold isASCII, bytes in Ha. simpl in Ha.
    apply andb_true_iff in Ha. destruct Ha as [Hc Hs].
    cbn [runeCount_loop]. unfold runeWidth. rewrite Hc.
    cbn [Nat.sub sdrop String.length]. f_equal.
    apply IH; [simpl in Hf; lia | exact Hs].
Qed.

Lemma RuneCountInString_ascii (s : string) :
  isASCII s = true -> RuneCountInString s = String.length s.
Proof.
  intros H. apply runeCount_loop_ascii; [apply Nat.le_refl | exact H].
Qed.

End WidthFacts.

Section WidthTheorems.

(** X17.  The summary column never cuts a summary: an ASCII summary shorter
    than 40 bytes is followed by spaces up to exactly 40 bytes, and one
    of 40 bytes or more is printed whole with no padding at all. *)
Theorem summary_column_width (s : string) :
  isASCII s = true ->
  String.length (fmt_minus40s s) = Nat.max 40 (String.length s) /\
  ((40 <= String.length s)%nat -> fmt_minus40s s = s) /\
  fmt_minus40s s = s +++ spaces (40 - String.length s).
Proof.
  intros Ha. unfold fmt_minus40s.
  rewrite (RuneCountInString_ascii s Ha).
  split; [|split].
  - rewrite sapp_length, spaces_length. lia.
  - intros H. replace (40 - String.length s)%nat with 0%nat by lia.
    apply sapp_nil_r.
  - reflexivity.
Qed.

Lemma summary_column_width_witness :
  String.length (fmt_minus40s "Standup") = 40%nat.
Proof.
  apply (summary_column_width "Standup"). reflexivity.
Defined.

End WidthTheorems.

(** ** Day separators *)

Section SeparatorTheorems.

(** X13.  A separator comes before the line of an interval exactly when the
    interval starts on another calendar date than the day that is tracked,
    both taken in one location of fixed offset; the day of the interval is
    tracked from then on. *)
Theorem summary_separator_iff_date_changes (localZone : Z -> Zone)
    (prev : Time) (i : Event) (rest : list Event) (off : Z) :
  loc (Start i) = loc prev ->
  fixedOffset localZone (loc (Start i)) off ->
  representable (Start i) -> representable prev ->
  (date localZone (Start i) = date localZone prev ->
   summary_loop localZone (truncDay localZone prev) (i :: rest)
   = summaryLine localZone i
     :: summary_loop localZone (truncDay localZone (Start i)) rest) /\
  (date localZone (Start i) <> date localZone prev ->
   summary_loop localZone (truncDay localZone prev) (i :: rest)
   = separator :: summaryLine localZone i
     :: summary_loop localZone (truncDay localZone (Start i)) rest).
Proof.
  intros Hl Hz Hi Hp.
  destruct (truncDay_eqb_date localZone (Start i) prev off Hl Hz Hi Hp)
    as [Hiff Heq].
  cbn [summary_loop]. fold (summaryLine localZone i). split.
  - intros Hd. rewrite (proj2 Hiff Hd). cbn [negb].
    rewrite (Heq Hd). reflexivity.
  - intros Hd.
    destruct (Time_eqb (truncDay localZone (Start i))
                (truncDay localZone prev)) eqn:E.
    + exfalso. apply Hd. apply Hiff. reflexivity.
    + reflexivity.
Qed.

Lemma summary_separator_iff_date_changes_witness :
  summary_loop westZone (truncDay westZone inBerlin)
    [mkEvent (mkTime 63750210000 0 (Fixed 7 7200))
       (mkTime 63750213600 0 (Fixed 7 7200))]
  = ["2021-03-01 17:40-18:40"].
Proof.
  apply (summary_separator_iff_date_changes westZone inBerlin
           (mkEvent (mkTime 63750210000 0 (Fixed 7 7200))
              (mkTime 63750213600 0 (Fixed 7 7200))) [] 7200).
  - reflexivity.
  - intros u. reflexivity.
  - split; [discriminate | reflexivity].
  - split; [discriminate | reflexivity].
  - reflexivity.
Defined.

(** X14.  The same in detail mode: for a kept event whose start parses, the
    separator is printed before its line exactly when the start falls on
    another calendar date than the tracked day, in one location of fixed
    offset. *)
Theorem detail_separator_iff_date_changes (localZone : Z -> Zone)
    (st : Loop) (item : calendar.Event) (d p : Time) (off : Z) :
  excluded item = false ->
  parseDay localZone (heap st) (startDateFrom item) = Some d ->
  prevDay st = truncDay localZone p ->
  loc d = loc p -> fixedOffset localZone (loc d) off ->
  representable d -> representable p ->
  let n := normalize localZone (heap st) item in
  let line := detailLine (n_startDate n) (n_endDate n) item
                (rspStatusFrom item) in
  prevDay (main_step localZone false st item) = truncDay localZone d /\
  (date localZone d = date localZone p ->
   printed (main_step localZone false st item) = printed st ++ [line]) /\
  (date localZone d <> date localZone p ->
   printed (main_step localZone false st item)
   = printed st ++ [separator; line]).
Proof.
  intros Hk Hparse Hprev Hl Hz Hd Hp n line.
  destruct (truncDay_eqb_date localZone d p off Hl Hz Hd Hp) as [Hiff Heq].
  assert (Hday : n_day n = truncDay localZone d).
  { subst n. unfold normalize. rewrite Hparse.
    destruct (parseDay localZone (S (heap st)) (endDateFrom item)); reflexivity. }
  unfold main_step. unfold excluded in Hk.
  apply orb_false_iff in Hk. destruct Hk as [-> ->].
  fold n. fold line. rewrite Hday, Hprev.
  destruct (Time_eqb (truncDay localZone d) (truncDay localZone p)) eqn:E;
    cbn [negb prevDay printed].
  - split; [symmetry; apply Heq, Hiff; reflexivity|].
    split; [reflexivity|].
    intros Hne. exfalso. apply Hne, Hiff. reflexivity.
  - split; [reflexivity|]. split; [|reflexivity].
    intros He. apply Hiff in He. discriminate.
Qed.

Lemma detail_separator_iff_date_changes_witness :
  printed (main_step westZone false
             (mkLoop (truncDay westZone morning) [] [] 0) standup)
  = [detailLine "2021-03-01 10:00" "10:30" standup "tentative"].
Proof.
  apply (detail_separator_iff_date_changes westZone
           (mkLoop (truncDay westZone morning) [] [] 0) standup
           (mkTime 63750207600 0 Local) morning (-18000)).
  - reflexivity.
  - reflexivity.
  - reflexivity.
  - reflexivity.
  - intros u. reflexivity.
  - split; [discriminate | reflexivity].
  - split; [discriminate | reflexivity].
  - reflexivity.
Defined.

End SeparatorTheorems.

(** ** The wall clock of a timestamp *)

Section TimestampFacts.

Variable localZone : Z -> Zone.

Lemma substring_nil (s : string) : substring 0 0 s = "".
Proof. destruct s; reflexivity. Qed.

Lemma substring_length_le (s : string) :
  forall a b, (String.length (substring a b s) <= b)%nat.
Proof.
  induction s as [|c s IH]; intros a b.
  - destruct a, b; simpl; lia.
  - destruct a as [|a].
    + destruct b as [|b]; simpl; [lia|]. specialize (IH 0%nat b). lia.
    + simpl. apply IH.
Qed.

Lemma digitsValue_bound (s : string) :
  forall x, allDigits s = true ->
  x * 10 ^ Z.of_nat (String.length s) <= digitsValue x s
  < (x + 1) * 10 ^ Z.of_nat (String.length s).
Proof.
  induction s as [|c s IH]; intros x Ha.
  - simpl. lia.
  - unfold allDigits, bytes in Ha. simpl in Ha.
    apply andb_true_iff in Ha. destruct Ha as [Hc Hs].
    destruct (digit_char c Hc) as [Rc _].
    specialize (IH (x * 10 + digitVal c) Hs).
    cbn [digitsValue String.length].
    rewrite Nat2Z.inj_succ, Z.pow_succ_r by lia.
    set (p := 10 ^ Z.of_nat (String.length s)) in *.
    assert (Hp : 0 < p) by (subst p; apply Z.pow_pos_nonneg; lia).
    nia.
Qed.

Lemma parseNanoseconds_range (value : string) (n : nat) (ns : Z) :
  isDigit value 1 = true ->
  parseNanoseconds value n = Some ns -> 0 <= ns < 1000000000.
Proof.
  intros Hd. unfold parseNanoseconds.
  remember (10 - n)%nat as k0 eqn:Ek.
  destruct value as [|c value]; [discriminate|].
  destruct (Ascii.eqb c "."); [|discriminate].
  destruct (atoi (substring 1 (n - 1) (String c value))) as [q|] eqn:E;
    [|discriminate].
  destruct ((q <? 0) || (1000000000 <=? q)) eqn:Er; [discriminate|].
  apply orb_false_iff in Er. destruct Er as [H0 H1].
  apply Z.ltb_ge in H0. apply Z.leb_gt in H1.
  intros H. injection H as <-.
  cbn [substring] in E.
  destruct k0 as [|k].
  { change (Z.of_nat 0) with 0. rewrite Z.pow_0_r. lia. }
  assert (Hlen : (String.length (substring 0 (n - 1) value) <= n - 1)%nat)
    by apply substring_length_le.
  destruct (substring 0 (n - 1) value) as [|d ds] eqn:Es.
  { unfold atoi, leadingInt in E. simpl in E. injection E as <-. lia. }
  assert (Hdig : isDigitByte d = true).
  { unfold isDigit in Hd. cbn [String.get] in Hd.
    destruct value as [|d' value']; [discriminate|].
    destruct (n - 1)%nat; [discriminate|].
    simpl in Es. injection Es as <- _. simpl in Hd. exact Hd. }
  destruct (atoi_digits d ds q Hdig E) as [Hall Hq].
  pose proof (digitsValue_bound (String d ds) 0 Hall) as Hb.
  rewrite <- Hq in Hb. rewrite Z.mul_0_l, Z.add_0_l, Z.mul_1_l in Hb.
  set (len := String.length (String d ds)) in *.
  assert (Hpos : (1 <= len)%nat) by (subst len; simpl; lia).
  clearbody len.
  assert (Hsum : (len + S k <= 9)%nat) by (clear - Hlen Ek Hpos; lia).
  assert (Hpow : 10 ^ Z.of_nat len * 10 ^ Z.of_nat (S k) <= 10 ^ 9).
  { rewrite <- Z.pow_add_r by lia. apply Z.pow_le_mono_r; lia. }
  assert (Hk : 0 < 10 ^ Z.of_nat (S k)) by (apply Z.pow_pos_nonneg; lia).
  change (10 ^ 9) with 1000000000 in Hpow. nia.
Qed.

(** [Date] in UTC for fields within their ranges. *)
Lemma Date_civil (y m d h mi s ns : Z) :
  1 <= m <= 12 -> 0 <= h < 24 -> 0 <= mi < 60 -> 0 <= s < 60 ->
  0 <= ns < 1000000000 ->
  GoTime.Date localZone y m d h mi s ns UTC
  = mkTime (daysOfCivil y m d * secondsPerDay + h * 3600 + mi * 60 + s) ns UTC.
Proof.
  intros Hm Hh Hmi Hs Hns. unfold GoTime.Date, norm.
  assert (E1 : (m - 1) / 12 = 0) by divlia.
  assert (E2 : (m - 1) mod 12 = m - 1) by divlia.
  assert (E3 : ns / 1000000000 = 0) by divlia.
  assert (E4 : ns mod 1000000000 = ns) by divlia.
  rewrite E1, E2, E3, E4.
  cbn [lookup zoffset]. change (0 =? 0) with true. cbv iota beta.
  replace (y + 0) with y by lia.
  replace (m - 1 + 1) with m by lia.
  f_equal. unfold daysOfCivil, secondsPerDay. divlia.
Qed.

End TimestampFacts.

Lemma civil_clock (D h mi s : Z) :
  0 <= h < 24 -> 0 <= mi < 60 -> 0 <= s < 60 ->
  let c := D * secondsPerDay + h * 3600 + mi * 60 + s in
  c / secondsPerDay = D /\
  (c mod secondsPerDay) / 3600 = h /\
  ((c mod secondsPerDay) mod 3600) / 60 = mi.
Proof.
  intros Hh Hmi Hs. unfold secondsPerDay. cbv zeta.
  repeat split; divlia.
Qed.

Section TimestampChain.

Variable localZone : Z -> Zone.

Lemma skip_colon (v r : string) : skip v ":" = Some r -> v = String ":" r.
Proof.
  unfold skip. simpl. destruct v as [|c v]; [discriminate|].
  destruct (Ascii.eqb c ":") eqn:E; [|discriminate].
  apply Ascii.eqb_eq in E. subst c. intros H. injection H as <-. reflexivity.
Qed.

(** [getnum] without a fixed width reads two digits, or one digit that no
    digit follows. *)
Lemma getnum_free (v : string) (n : Z) (r : string) :
  getnum v false = Some (n, r) ->
  (exists c0 c1, v = String c0 (String c1 r) /\
                 isDigitByte c0 = true /\ isDigitByte c1 = true /\
                 n = digitVal c0 * 10 + digitVal c1) \/
  (exists c0, v = String c0 r /\ isDigitByte c0 = true /\ n = digitVal c0 /\
              isDigit r 0 = false).
Proof.
  unfold getnum. destruct v as [|c0 v]; [discriminate|].
  destruct (isDigitByte c0) eqn:E0; [|discriminate].
  destruct v as [|c1 v].
  - intros H. injection H as <- <-. right. exists c0. repeat split.
    exact E0.
  - destruct (isDigitByte c1) eqn:E1.
    + intros H. injection H as <- <-. left. exists c0, c1.
      repeat split; assumption.
    + intros H. injection H as <- <-. right. exists c0.
      repeat split; [exact E0|]. unfold isDigit. simpl. exact E1.
Qed.

(** The zone element sets the zone and nothing else; an offset is a whole
    number of minutes, so it is never the value -1 that stands for "no
    offset". *)
Lemma parseStd_zone (f f' : Fields) (v r : string) :
  parseStd stdISO8601ColonTZ f v = Some (f', r) ->
  f_year f' = f_year f /\ f_month f' = f_month f /\ f_day f' = f_day f /\
  f_hour f' = f_hour f /\ f_min f' = f_min f /\ f_sec f' = f_sec f /\
  f_nsec f' = f_nsec f /\
  (f_utc f' = true \/ (f_utc f' = f_utc f /\ f_zoneOffset f' <> -1)).
Proof.
  assert (Hoff : forall hr mm, (hr * 60 + mm) * 60 <> -1 /\
                               - ((hr * 60 + mm) * 60) <> -1) by (intros; lia).
  cbn [parseStd]. intros H.
  repeat match type of H with
         | context [match ?x with _ => _ end] =>
             destruct x eqn:?; try discriminate H
         end;
    injection H as <- _; cbn [f_year f_month f_day f_hour f_min f_sec f_nsec
                                f_utc f_zoneOffset];
    repeat split; try (left; reflexivity);
    right; (split; [reflexivity | apply Hoff]).
Qed.

(** The seconds element sets the seconds, and the nanoseconds when a
    fraction follows; both stay within their ranges. *)
Lemma parseStd_second (f f' : Fields) (v r : string) :
  0 <= f_nsec f < 1000000000 ->
  parseStd stdZeroSecond f v = Some (f', r) ->
  f_year f' = f_year f /\ f_month f' = f_month f /\ f_day f' = f_day f /\
  f_hour f' = f_hour f /\ f_min f' = f_min f /\
  f_utc f' = f_utc f /\ f_zoneOffset f' = f_zoneOffset f /\
  0 <= f_sec f' < 60 /\ 0 <= f_nsec f' < 1000000000.
Proof.
  intros Hn. cbn [parseStd].
  destruct (getnum v true) as [[s v']|] eqn:Eg; [|discriminate].
  destruct (getnum_fixed_value _ _ _ Eg) as (c0 & c1 & _ & E0 & E1 & Hs).
  destruct (digit_char c0 E0) as [R0 _]. destruct (digit_char c1 E1) as [R1 _].
  destruct ((s <? 0) || (60 <=? s)) eqn:Er; [discriminate|].
  apply orb_false_iff in Er. destruct Er as [Hlo Hhi].
  apply Z.ltb_ge in Hlo. apply Z.leb_gt in Hhi.
  destruct ((2 <=? String.length v')%nat
            && match v' with
               | String c _ => Ascii.eqb c "."
               | EmptyString => false
               end
            && isDigit v' 1) eqn:Ef.
  - apply andb_true_iff in Ef. destruct Ef as [_ Hd].
    destruct (parseNanoseconds v' _) as [ns|] eqn:Ep; [|discriminate].
    pose proof (parseNanoseconds_range _ _ _ Hd Ep) as Hns.
    intros H. injection H as <- _. cbn. repeat split; lia.
  - intros H. injection H as <- _. cbn. repeat split; lia.
Qed.

(** What the timestamp layout reads: the date as the date-only layout
    does, a "T", the hour in one or two digits, and the minutes in two. *)
Lemma parse_rfc3339_fields (f : Fields) (v : string) :
  parseChunks (chunks RFC3339) fields0 v = Some f ->
  exists y0 y1 y2 y3 m0 m1 d0 d1 hh mi0 mi1 rest,
    v = String y0 (String y1 (String y2 (String y3 (String "-"
          (String m0 (String m1 (String "-" (String d0 (String d1
          (String "T" (hh +++ String ":" (String mi0 (String mi1 rest)))))))))))))
    /\ isDigitByte y0 = true /\ isDigitByte y1 = true
    /\ isDigitByte y2 = true /\ isDigitByte y3 = true
    /\ isDigitByte m0 = true /\ isDigitByte m1 = true
    /\ isDigitByte d0 = true /\ isDigitByte d1 = true
    /\ isDigitByte mi0 = true /\ isDigitByte mi1 = true
    /\ f_year f = ((digitVal y0 * 10 + digitVal y1) * 10 + digitVal y2) * 10
                  + digitVal y3
    /\ f_month f = digitVal m0 * 10 + digitVal m1
    /\ 1 <= f_month f <= 12
    /\ f_day f = digitVal d0 * 10 + digitVal d1
    /\ 0 <= f_hour f < 24
    /\ ((exists h0 h1, hh = String h0 (String h1 "") /\
                       isDigitByte h0 = true /\ isDigitByte h1 = true /\
                       f_hour f = digitVal h0 * 10 + digitVal h1) \/
        (exists h0, hh = String h0 "" /\ isDigitByte h0 = true))
    /\ f_min f = digitVal mi0 * 10 + digitVal mi1
    /\ 0 <= f_min f < 60
    /\ 0 <= f_sec f < 60
    /\ 0 <= f_nsec f < 1000000000
    /\ (f_utc f = true \/ (f_utc f = false /\ f_zoneOffset f <> -1)).
Proof.
  rewrite chunks_rfc3339. cbn [parseChunks]. rewrite skip_empty.
  destruct (parseStd stdLongYear fields0 v) as [[f1 r1]|] eqn:E1; [|discriminate].
  cbn [parseStd] in E1.
  destruct ((String.length v <? 4)%nat) eqn:EL; [discriminate E1|].
  apply Nat.ltb_ge in EL.
  destruct v as [|y0 [|y1 [|y2 [|y3 r]]]]; simpl in EL; try lia.
  unfold isDigit in E1. cbn [String.get] in E1.
  destruct (isDigitByte y0) eqn:Ey0; [|discriminate E1].
  cbn [negb orb] in E1. rewrite stake_four in E1.
  destruct (atoi (String y0 (String y1 (String y2 (String y3 ""))))) as [y|] eqn:Ea;
    [|discriminate E1].
  destruct (atoi_digits _ _ _ Ey0 Ea) as [Hall Hy].
  unfold allDigits, bytes in Hall. simpl in Hall.
  rewrite !andb_true_iff in Hall. destruct Hall as (_ & Ey1 & Ey2 & Ey3 & _).
  cbn [digitsValue] in Hy. rewrite Z.mul_0_l, Z.add_0_l in Hy.
  cbn [sdrop] in E1. injection E1 as <- <-.
  destruct (skip r "-") as [r2|] eqn:E2; [|discriminate].
  apply skip_dash in E2. subst r.
  destruct (parseStd stdZeroMonth _ r2) as [[f2 r3]|] eqn:E3; [|discriminate].
  cbn [parseStd] in E3.
  destruct (getnum r2 true) as [[m r3']|] eqn:Em; [|discriminate E3].
  destruct (getnum_fixed_value _ _ _ Em) as (m0 & m1 & -> & Em0 & Em1 & Hm).
  destruct ((m <=? 0) || (12 <? m)) eqn:Erange; [discriminate E3|].
  apply orb_false_iff in Erange. destruct Erange as [Hlo Hhi].
  apply Z.leb_gt in Hlo. apply Z.ltb_ge in Hhi.
  injection E3 as <- <-.
  destruct (skip r3' "-") as [r4|] eqn:E4; [|discriminate].
  apply skip_dash in E4. subst r3'.
  destruct (parseStd stdZeroDay _ r4) as [[f3 r5]|] eqn:E5; [|discriminate].
  cbn [parseStd] in E5.
  destruct (getnum r4 true) as [[d r5']|] eqn:Ed; [|discriminate E5].
  destruct (getnum_fixed_value _ _ _ Ed) as (d0 & d1 & -> & Ed0 & Ed1 & Hd).
  injection E5 as <- <-.
  (* "T" and the hour *)
  destruct (skip r5' "T") as [r6|] eqn:E6; [|discriminate].
  apply skip_T in E6. subst r5'.
  destruct (parseStd stdHour _ r6) as [[f4 r7]|] eqn:E7; [|discriminate].
  cbn [parseStd] in E7.
  destruct (getnum r6 false) as [[h r7']|] eqn:Eh; [|discriminate E7].
  destruct ((h <? 0) || (24 <=? h)) eqn:Ehr; [discriminate E7|].
  apply orb_false_iff in Ehr. destruct Ehr as [Hhlo Hhhi].
  apply Z.ltb_ge in Hhlo. apply Z.leb_gt in Hhhi.
  injection E7 as <- <-.
  (* ":" and the minutes *)
  destruct (skip r7' ":") as [r8|] eqn:E8; [|discriminate].
  apply skip_colon in E8. subst r7'.
  destruct (parseStd stdZeroMinute _ r8) as [[f5 r9]|] eqn:E9; [|discriminate].
  cbn [parseStd] in E9.
  destruct (getnum r8 true) as [[mi r9']|] eqn:Emi; [|discriminate E9].
  destruct (getnum_fixed_value _ _ _ Emi) as (mi0 & mi1 & -> & Emi0 & Emi1 & Hmi).
  destruct ((mi <? 0) || (60 <=? mi)) eqn:Emr; [discriminate E9|].
  apply orb_false_iff in Emr. destruct Emr as [Hmlo Hmhi].
  apply Z.ltb_ge in Hmlo. apply Z.leb_gt in Hmhi.
  injection E9 as <- <-.
  (* ":" and the seconds, then the zone *)
  destruct (skip r9' ":") as [r10|] eqn:E10; [|discriminate].
  destruct (parseStd stdZeroSecond _ r10) as [[f6 r11]|] eqn:E11; [|discriminate].
  apply parseStd_second in E11; [|cbn; lia].
  cbn [f_year f_month f_day f_hour f_min f_sec f_nsec f_utc f_zoneOffset] in E11.
  destruct E11 as (S1 & S2 & S3 & S4 & S5 & S6 & S7 & S8 & S9).
  rewrite skip_empty.
  destruct (parseStd stdISO8601ColonTZ f6 r11) as [[f7 r12]|] eqn:E12;
    [|discriminate].
  apply parseStd_zone in E12.
  destruct E12 as (Z1 & Z2 & Z3 & Z4 & Z5 & Z6 & Z7 & Z8).
  rewrite skip_empty. destruct r12; [|discriminate].
  intros H. injection H as <-.
  assert (Hhh : exists hh,
             r6 = hh +++ String ":" (String mi0 (String mi1 r9')) /\
             ((exists h0 h1, hh = String h0 (String h1 "") /\
                  isDigitByte h0 = true /\ isDigitByte h1 = true /\
                  h = digitVal h0 * 10 + digitVal h1) \/
              (exists h0, hh = String h0 "" /\ isDigitByte h0 = true))).
  { destruct (getnum_free _ _ _ Eh)
      as [(h0 & h1 & -> & Eh0 & Eh1 & Hh) | (h0 & -> & Eh0 & Hh & _)].
    - exists (String h0 (String h1 "")). split; [reflexivity|].
      left. exists h0, h1. repeat split; assumption.
    - exists (String h0 ""). split; [reflexivity|].
      right. exists h0. split; [reflexivity | exact Eh0]. }
  destruct Hhh as (hh & -> & Hhh).
  exists y0, y1, y2, y3, m0, m1, d0, d1, hh, mi0, mi1, r9'.
  rewrite Z1, Z2, Z3, Z4, Z5, Z6, Z7, S1, S2, S3, S4, S5.
  repeat split; try assumption; try reflexivity; try lia.
  destruct Z8 as [Hu | [Hu Hz]]; [left; exact Hu|].
  right. split; [rewrite Hu, S6; reflexivity | exact Hz].
Qed.

End TimestampChain.

Section TimestampClock.

Variable localZone : Z -> Zone.

Lemma wall_clock_format (t : Time) (y m d h mi s : Z) :
  abs localZone t = daysOfCivil y m d * secondsPerDay + h * 3600 + mi * 60 + s ->
  1 <= m <= 12 -> 1 <= d <= daysIn m y ->
  0 <= h < 24 -> 0 <= mi < 60 -> 0 <= s < 60 ->
  Format localZone t "2006-01-02"
  = appendInt y 4 +++ "-" +++ appendInt m 2 +++ "-" +++ appendInt d 2 /\
  Format localZone t "15:04" = appendInt h 2 +++ ":" +++ appendInt mi 2.
Proof.
  intros Habs Hm Hd Hh Hmi Hs.
  destruct (civil_clock (daysOfCivil y m d) h mi s Hh Hmi Hs) as (C1 & C2 & C3).
  rewrite Format_date, Format_clock.
  unfold Year, Month, Day, Hour, Minute, date.
  rewrite Habs, C1, C2, C3, absDate_daysOfCivil by assumption.
  split; reflexivity.
Qed.

(** The instant that [Parse] makes of the fields of a timestamp has, on
    the wall clock of its own location, the date and the time that the
    fields hold. *)
Lemma Parse_rfc3339_abs (fresh : nat) (v : string) (t : Time) (f : Fields) :
  parseChunks (chunks RFC3339) fields0 v = Some f ->
  1 <= f_month f <= 12 -> 0 <= f_hour f < 24 -> 0 <= f_min f < 60 ->
  0 <= f_sec f < 60 -> 0 <= f_nsec f < 1000000000 ->
  f_utc f = true \/ (f_utc f = false /\ f_zoneOffset f <> -1) ->
  Parse localZone fresh RFC3339 v = Some t ->
  1 <= f_day f <= daysIn (f_month f) (f_year f) /\
  abs localZone t
  = daysOfCivil (f_year f) (f_month f) (f_day f) * secondsPerDay
    + f_hour f * 3600 + f_min f * 60 + f_sec f.
Proof.
  intros E Hm Hh Hmi Hs Hn Hzone. unfold Parse. rewrite E.
  destruct ((f_day f <? 1) || (daysIn (f_month f) (f_year f) <? f_day f))
    eqn:Eday; [discriminate|].
  apply orb_false_iff in Eday. destruct Eday as [Hd1 Hd2].
  apply Z.ltb_ge in Hd1, Hd2.
  rewrite (Date_civil localZone _ _ _ _ _ _ _ Hm Hh Hmi Hs Hn).
  set (civil := daysOfCivil (f_year f) (f_month f) (f_day f) * secondsPerDay
                + f_hour f * 3600 + f_min f * 60 + f_sec f).
  destruct Hzone as [Hu | [Hu Hz]]; rewrite Hu.
  - intros H. injection H as <-. split; [lia|].
    unfold abs. cbn [sec loc lookup zoffset]. lia.
  - apply Z.eqb_neq in Hz. rewrite Hz. cbn [negb sec nsec].
    destruct (Z.eqb_spec
                (zoffset (lookup localZone Local
                            (unixSec (mkTime (civil - f_zoneOffset f)
                                        (f_nsec f) UTC))))
                (f_zoneOffset f)) as [Heq | Hne].
    + intros H. injection H as <-. split; [lia|].
      unfold abs. cbn [sec loc].
      change (unixSec (mkTime (civil - f_zoneOffset f) (f_nsec f) Local))
        with (unixSec (mkTime (civil - f_zoneOffset f) (f_nsec f) UTC)).
      rewrite Heq. lia.
    + intros H. injection H as <-. split; [lia|].
      unfold abs. cbn [sec loc lookup zoffset]. lia.
Qed.

End TimestampClock.

Section TimestampTheorems.

(** X16.  A timed event is shown on the wall clock of its own timestamp: for
    every value [v] that the timestamp layout parses, whatever its zone
    offset and the zone of the machine, the date of the instant is the
    first ten bytes of [v], and when the hour is written with two digits
    the start is rendered as that date, a space, and the "hh:mm" of
    [v]. *)
Theorem timestamp_wall_clock (localZone : Z -> Zone) (fresh : nat)
    (v : string) (t : Time) :
  Parse localZone fresh RFC3339 v = Some t ->
  Format localZone t "2006-01-02" = stake 10 v /\
  (String.get 13 v = Some ":"%char ->
   Format localZone t "2006-01-02 15:04"
   = stake 10 v +++ " " +++ substring 11 5 v /\
   Format localZone t "15:04" = substring 11 5 v).
Proof.
  intros H.
  destruct (Parse_some_chunks localZone _ _ _ _ H) as [f E].
  destruct (parse_rfc3339_fields f v E)
    as (y0 & y1 & y2 & y3 & m0 & m1 & d0 & d1 & hh & mi0 & mi1 & rest & Hv
        & Ey0 & Ey1 & Ey2 & Ey3 & Em0 & Em1 & Ed0 & Ed1 & Emi0 & Emi1
        & Hy & Hm & Hmr & Hd & Hhr & Hhh & Hmi & Hmir & Hsr & Hnr & Hzone).
  destruct (Parse_rfc3339_abs localZone fresh v t f E Hmr Hhr Hmir Hsr Hnr
              Hzone H) as [Hdr Habs].
  destruct (wall_clock_format localZone t _ _ _ _ _ _ Habs Hmr Hdr Hhr Hmir Hsr)
    as [Fd Fc].
  assert (Hdate : Format localZone t "2006-01-02" = stake 10 v).
  { rewrite Fd, Hy, Hm, Hd.
    rewrite appendInt_four, !appendInt_two by assumption.
    rewrite Hv. unfold stake. cbn [substring append]. 
    rewrite ?substring_nil. reflexivity. }
  split; [exact Hdate|].
  intros H13.
  assert (Hclock : Format localZone t "15:04" = substring 11 5 v).
  { destruct Hhh as [(h0 & h1 & -> & Eh0 & Eh1 & Hh) | (h0 & -> & Eh0)].
    - rewrite Fc, Hh, Hmi, !appendInt_two by assumption.
      rewrite Hv. cbn [substring append]. rewrite ?substring_nil. reflexivity.
    - exfalso. rewrite Hv in H13. cbn [String.get append] in H13.
      injection H13 as ->. discriminate Emi0. }
  split; [|exact Hclock].
  rewrite Format_dateTime, Hdate, Hclock. reflexivity.
Qed.

Lemma timestamp_wall_clock_witness :
  Format westZone (mkTime 63750182400 0 (Fixed 0 7200)) "2006-01-02 15:04"
  = "2021-03-01 10:00".
Proof.
  destruct (timestamp_wall_clock westZone 0 "2021-03-01T10:00:00+02:00"
              (mkTime 63750182400 0 (Fixed 0 7200)) eq_refl) as [_ H].
  exact (proj1 (H eq_refl)).
Defined.

End TimestampTheorems.

(** ** The width of the summary column, in runes *)

Section RuneFacts.

Lemma first_spec (c : ascii) (size : nat) (lo hi : Z) :
  first c = Some (size, lo, hi) ->
  (size = 2%nat \/ size = 3%nat \/ size = 4%nat) /\ 128 <= lo.
Proof.
  unfold first. intros H.
  repeat match type of H with
         | (if ?b then _ else _) = _ => destruct b
         end;
    try discriminate H; injection H as <- <- <-; split; auto; lia.
Qed.

Lemma inRange_space (lo hi : Z) : 128 <= lo -> inRange lo hi " " = false.
Proof.
  intros H. unfold inRange. change (byteZ " ") with 32.
  destruct (Z.leb_spec lo 32); [lia | reflexivity].
Qed.

Lemma runeWidth_app_spaces (c : ascii) (s : string) (n : nat) :
  runeWidth c (s +++ spaces n) = runeWidth c s.
Proof.
  unfold runeWidth. destruct (byteZ c <? 128); [reflexivity|].
  destruct (first c) as [[[size lo] hi]|] eqn:Ef; [|reflexivity].
  destruct (first_spec c size lo hi Ef) as [Hsize Hlo].
  pose proof (inRange_space lo hi Hlo) as Hsp.
  assert (Hsp' : inRange 128 191 " " = false) by reflexivity.
  destruct s as [|c1 [|c2 [|c3 s]]];
    destruct n as [|[|[|n]]];
    destruct Hsize as [-> | [-> | ->]];
    cbn [append spaces String.length Nat.sub Nat.ltb Nat.leb Nat.eqb];
    rewrite ?Hsp, ?Hsp'; cbn [negb];
    try reflexivity;
    repeat match goal with
           | |- context [if ?b then _ else _] => destruct b; try reflexivity
           end.
Qed.

Lemma runeWidth_le (c : ascii) (s : string) :
  (1 <= runeWidth c s <= S (String.length s))%nat.
Proof.
  unfold runeWidth.
  repeat match goal with
         | |- context [match ?x with _ => _ end] =>
             destruct x eqn:?; simpl; try lia
         end.
Qed.

Lemma sdrop_app (k : nat) (s t : string) :
  (k <= String.length s)%nat -> sdrop k (s +++ t) = sdrop k s +++ t.
Proof.
  revert s. induction k as [|k IH]; intros s H; [reflexivity|].
  destruct s as [|c s]; simpl in H; [lia|].
  simpl. apply IH. lia.
Qed.

Lemma isASCII_spaces (n : nat) : isASCII (spaces n) = true.
Proof. induction n as [|n IH]; [reflexivity | exact IH]. Qed.

Lemma runeCount_loop_app_spaces (n : nat) :
  forall fuel s, (String.length s <= fuel)%nat ->
  runeCount_loop (fuel + n) (s +++ spaces n)
  = (runeCount_loop fuel s + n)%nat.
Proof.
  assert (Hsp : forall fuel, (n <= fuel)%nat ->
                             runeCount_loop fuel (spaces n) = n).
  { intros fuel Hf.
    rewrite runeCount_loop_ascii;
      [apply spaces_length | rewrite spaces_length; exact Hf
       | apply isASCII_spaces]. }
  induction fuel as [|fuel IH]; intros s Hlen.
  - destruct s; [|simpl in Hlen; lia]. simpl. apply Hsp. lia.
  - destruct s as [|c s].
    + cbn [append runeCount_loop]. rewrite Hsp by lia. reflexivity.
    + cbn [append Nat.add runeCount_loop].
      rewrite runeWidth_app_spaces.
      pose proof (runeWidth_le c s) as Hw.
      rewrite sdrop_app by lia.
      rewrite IH; [reflexivity|].
      rewrite sdrop_length. simpl in Hlen. lia.
Qed.

Lemma RuneCountInString_app_spaces (s : string) (n : nat) :
  RuneCountInString (s +++ spaces n) = (RuneCountInString s + n)%nat.
Proof.
  unfold RuneCountInString. rewrite sapp_length, spaces_length.
  apply runeCount_loop_app_spaces. apply Nat.le_refl.
Qed.

End RuneFacts.

Section RuneTheorems.

(** X18.  Whatever bytes a summary holds, the summary column is the summary
    itself followed only by spaces, and it counts 40 runes, or as many as
    the summary when that is more: summaries are padded and never cut,
    and the padding counts characters, not bytes. *)
Theorem summary_column_runes (s : string) :
  RuneCountInString (fmt_minus40s s) = Nat.max 40 (RuneCountInString s) /\
  exists n, fmt_minus40s s = s +++ spaces n.
Proof.
  unfold fmt_minus40s. split.
  - rewrite RuneCountInString_app_spaces. lia.
  - eexists. reflexivity.
Qed.

End RuneTheorems.

(** ** Events whose dates do not parse *)

Section UnparsedTheorems.



End UnparsedTheorems.
